(** * The KeyAuth client: token-bucket rate limiter and request dispatcher

    A shallow embedding of the class [RateLimiter] and of the helpers of
    utils/helpers, and of the request pipeline of the class [Api]:
    [_makeRequest], [_checkInitialization], [init] and the adapters built
    on them.

    Conventions of the embedding.
    - A JavaScript [number] is an exact rational ([Q]) and arithmetic is
      exact; [Date.now()] yields an integer count of milliseconds ([Z]).
      This is the arithmetic of the code on whole numbers below 2^53 and
      on their sums and differences.  A quotient is rounded by the
      runtime (binary64): its integer part is the integer part of the
      exact quotient when dividend and divisor are whole numbers below
      2^53, and may differ by one otherwise.  Statements that depend on
      the quotient of [refill] are therefore made for a refill interval
      that is a whole number.  [NaN] and the infinities are not numbers
      of [Q]: statements about a limiter say that [refillRate] and
      [maxTokens] are above zero, they do not derive it from the guard of
      the constructor, which [NaN] passes.  Module [Binary64] gives the
      constructor, [refill] and [hasHitRateLimit] over the runtime's own
      numbers, for the inputs where the two arithmetics differ.
    - The wall clock, the HTTP transport (axios) and the runtime's
      conversions of values to text are outside the repository: they are
      parameters of the development.
    - A JavaScript object is a finite map from property names to values;
      a property holding [undefined] is different from an absent one.
    - The event emitter is Node's [EventEmitter]: [emit] calls the
      listeners registered for the event, and throws when the event is
      ["error"] and has no listener.  The listeners are callbacks of the
      client's user; they are taken to return normally.
    - One logical flow runs at a time: an [await] is a sequence point. *)

From Stdlib Require Import QArith Qround Qminmax ZArith Lia Lqa String Ascii Floats.
From stdpp Require Import gmap strings list pretty.

#[local] Set Warnings "-register-all".
#[local] Open Scope string_scope.

(* ================================================================== *)
(** * Part 0.  JavaScript values and completions                        *)
(* ================================================================== *)

(** Values that reach the client: JSON data, strings, [undefined]. *)
Inductive value : Type :=
| VUndefined
| VNull
| VBool (b : bool)
| VNum (q : Q)
| VStr (s : string)
| VArr (l : list value)
| VObj (o : gmap string value).

(** What a [throw] or a rejected promise carries: an [Error] object,
    given by the name of its class and its message; the
    [ERR_UNHANDLED_ERROR] of the event emitter, given by its [context];
    or any other value. *)
Inductive exn : Type :=
| ErrorObject (class_ : string) (message : string)
| Unhandled (context : value)
| Rejected (v : value).

(** How an evaluation ends.  [OutOfFuel] marks a recursion cut short by
    the unfolding budget of the model; no JavaScript run produces it. *)
Inductive completion (A : Type) : Type :=
| Normal (a : A)
| Throw (e : exn)
| OutOfFuel.
Arguments Normal {A} a.
Arguments Throw {A} e.
Arguments OutOfFuel {A}.

(** [v === "s"] *)
Definition is_string (v : value) (s : string) : bool :=
  match v with
  | VStr s' => String.eqb s' s
  | _ => false
  end.

(** [v === false] *)
Definition is_false (v : value) : bool :=
  match v with
  | VBool false => true
  | _ => false
  end.

(** Truthiness, as tested by [if (v)]. *)
Definition truthy (v : value) : bool :=
  match v with
  | VUndefined | VNull => false
  | VBool b => b
  | VNum q => negb (Qeq_bool q 0)
  | VStr s => negb (String.eqb s "")
  | VArr _ | VObj _ => true
  end.

Definition type_error_read (of_ prop : string) : exn :=
  ErrorObject "TypeError"
    ("Cannot read properties of " ++ of_ ++ " (reading '" ++ prop ++ "')").

(** [v.prop] for a data property.  Properties inherited from the
    prototypes ([length], methods) are not modelled: the client reads
    only data properties of response payloads. *)
Definition get_prop (v : value) (prop : string) : completion value :=
  match v with
  | VUndefined => Throw (type_error_read "undefined" prop)
  | VNull => Throw (type_error_read "null" prop)
  | VObj o => Normal (default VUndefined (o !! prop))
  | _ => Normal VUndefined
  end.

(** [v?.prop] *)
Definition get_prop_optional (v : value) (prop : string) : value :=
  match v with
  | VObj o => default VUndefined (o !! prop)
  | _ => VUndefined
  end.

(** Own enumerable properties of an array-like: index [i] under the
    key that prints [i]. *)
Definition indexed (l : list value) : gmap string value :=
  list_to_map (imap (fun i x => (pretty i, x)) l).

(** [{...v}]: the own enumerable properties of [v]. *)
Definition spread (v : value) : gmap string value :=
  match v with
  | VObj o => o
  | VArr l => indexed l
  | VStr s => indexed (map (fun c => VStr (String c EmptyString)) (list_ascii_of_string s))
  | _ => ∅
  end.

Section Stringify.

(** The runtime's [Number::toString]. *)
Variable numToString : Q -> string.

(** [String(v)] *)
Fixpoint String_ (v : value) : string :=
  match v with
  | VUndefined => "undefined"
  | VNull => "null"
  | VBool true => "true"
  | VBool false => "false"
  | VNum q => numToString q
  | VStr s => s
  | VArr l =>
      String.concat ","
        (map (fun x => match x with
                       | VUndefined | VNull => ""
                       | _ => String_ x
                       end) l)
  | VObj _ => "[object Object]"
  end.

End Stringify.

(** [`${error}`] for an [Error] object: [Error.prototype.toString]. *)
Definition error_text (class_ message : string) : string :=
  if String.eqb message "" then class_ else class_ ++ ": " ++ message.

(* ================================================================== *)
(** * Part I.  The rate limiter (class [RateLimiter])                   *)
(* ================================================================== *)

(** Fields of a [RateLimiter] instance. *)
Record RateLimiter : Type := mkRateLimiter {
  tokens : Q;
  lastRefillTime : Z;
  refillRate : Q;
  maxTokens : Q
}.

(** [x > 0] on numbers, as a boolean. *)
Definition Qpositive (x : Q) : bool := negb (Qle_bool x 0).

(** [new RateLimiter({maxTokens, refillRate})]; [now] is the reading of
    [Date.now()] taken by the constructor. *)
Definition RateLimiter_new (maxTokens0 refillRate0 : Q) (now : Z)
  : completion RateLimiter :=
  if Qle_bool refillRate0 0 || Qle_bool maxTokens0 0 then
    Throw (ErrorObject "Error" "Refill rate and max tokens must be greater than zero.")
  else
    Normal {| tokens := maxTokens0;
              lastRefillTime := now;
              refillRate := refillRate0;
              maxTokens := maxTokens0 |}.

(** [refill()]; [now] is its reading of [Date.now()]. *)
Definition refill (now : Z) (rl : RateLimiter) : RateLimiter :=
  let elapsedTime := inject_Z (now - lastRefillTime rl) in
  let tokensToAdd := Qfloor (elapsedTime / refillRate rl) in
  {| tokens := Qmin (tokens rl + inject_Z tokensToAdd) (maxTokens rl);
     lastRefillTime := now;
     refillRate := refillRate rl;
     maxTokens := maxTokens rl |}.

(** [tokens--] *)
Definition take_token (rl : RateLimiter) : RateLimiter :=
  {| tokens := tokens rl - 1;
     lastRefillTime := lastRefillTime rl;
     refillRate := refillRate rl;
     maxTokens := maxTokens rl |}.

(** [hasHitRateLimit()]: [true] means the limit is hit (the call is
    rejected), [false] that the call is admitted. *)
Definition hasHitRateLimit (now : Z) (rl : RateLimiter) : bool * RateLimiter :=
  let rl1 := refill now rl in
  if Qpositive (tokens rl1) then (false, take_token rl1) else (true, rl1).

(** [getTimeUntilCanMakeRequest()]: [now] is read by [refill], [now2] by
    the method itself after the test on [tokens]. *)
Definition getTimeUntilCanMakeRequest (now now2 : Z) (rl : RateLimiter)
  : Q * RateLimiter :=
  let rl1 := refill now rl in
  if Qpositive (tokens rl1) then (0%Q, rl1)
  else
    let elapsedTime := inject_Z (now2 - lastRefillTime rl1) in
    (Qmax 0 (refillRate rl1 - elapsedTime), rl1).

(** [this.tokens = this.maxTokens], the last statement of
    [waitUntilCanMakeRequest]. *)
Definition reset_tokens (rl : RateLimiter) : RateLimiter :=
  {| tokens := maxTokens rl;
     lastRefillTime := lastRefillTime rl;
     refillRate := refillRate rl;
     maxTokens := maxTokens rl |}.

(** [waitUntilCanMakeRequest()] run by a single flow: the time slept
    ([None] when [timeToWait > 0] is false and [sleep] is not called) and
    the limiter once the promise resolves. *)
Definition waitUntilCanMakeRequest (now now2 : Z) (rl : RateLimiter)
  : option Q * RateLimiter :=
  let '(timeToWait, rl1) := getTimeUntilCanMakeRequest now now2 rl in
  ((if Qpositive timeToWait then Some timeToWait else None), reset_tokens rl1).

Section NumberFormat.

(** The runtime's [Number::toString], used by template literals. *)
Variable numToString : Q -> string.

(** [`${n} unit${n !== 1 ? "s" : ""}`] *)
Definition plural (n : Z) (unit_ : string) : string :=
  numToString (inject_Z n) ++ " " ++ unit_ ++ (if Z.eqb n 1 then "" else "s").

(** [getTimeUntilCanMakeRequestString()] *)
Definition getTimeUntilCanMakeRequestString (now now2 : Z) (rl : RateLimiter)
  : string * RateLimiter :=
  let '(timeUntilAvailable, rl1) := getTimeUntilCanMakeRequest now now2 rl in
  let text :=
    if Qeq_bool timeUntilAvailable 0 then "Now"
    else if negb (Qle_bool 1000 timeUntilAvailable) then
      numToString timeUntilAvailable ++ " milliseconds"
    else
      let seconds := Qfloor (timeUntilAvailable / 1000) in
      if Z.ltb seconds 60 then plural seconds "second"
      else
        let minutes := Qfloor (inject_Z seconds / 60) in
        if Z.ltb minutes 60 then plural minutes "minute"
        else
          let hours := Qfloor (inject_Z minutes / 60) in
          plural hours "hour"
  in (text, rl1).

End NumberFormat.

(** ** Sequences of limiter operations

    One atomic step of the limiter, with the clock readings it takes.
    [waitUntilCanMakeRequest] is two steps, [OpAwaitSuspend] up to the
    [await] and [OpAwaitResume] after it, so that a list of steps also
    describes flows that interleave at the suspension point. *)
Inductive limiter_op : Type :=
| OpTryAdmit (now : Z)
| OpTimeUntil (now now2 : Z)
| OpAwaitSuspend (now now2 : Z)
| OpAwaitResume.

Definition step (o : limiter_op) (rl : RateLimiter) : RateLimiter :=
  match o with
  | OpTryAdmit now => snd (hasHitRateLimit now rl)
  | OpTimeUntil now now2 => snd (getTimeUntilCanMakeRequest now now2 rl)
  | OpAwaitSuspend now now2 => snd (getTimeUntilCanMakeRequest now now2 rl)
  | OpAwaitResume => reset_tokens rl
  end.

Fixpoint run (ops : list limiter_op) (rl : RateLimiter) : RateLimiter :=
  match ops with
  | [] => rl
  | o :: ops' => run ops' (step o rl)
  end.

(** The clock readings of a sequence, in the order they are taken. *)
Fixpoint readings (ops : list limiter_op) : list Z :=
  match ops with
  | [] => []
  | OpTryAdmit now :: ops' => now :: readings ops'
  | OpTimeUntil now now2 :: ops' => now :: now2 :: readings ops'
  | OpAwaitSuspend now now2 :: ops' => now :: now2 :: readings ops'
  | OpAwaitResume :: ops' => readings ops'
  end.

(** Wall-clock time never goes back: every reading is at least [t] and
    at least the reading before it. *)
Fixpoint nondecreasing (t : Z) (l : list Z) : Prop :=
  match l with
  | [] => True
  | x :: l' => (t <= x)%Z /\ nondecreasing x l'
  end.

(** The bucket invariant of the data model. *)
Definition bucket_inv (rl : RateLimiter) : Prop :=
  (0 <= tokens rl /\ tokens rl <= maxTokens rl)%Q.

(** What the constructor guarantees of the two fixed fields. *)
Definition configured (rl : RateLimiter) : Prop :=
  (0 < refillRate rl /\ 0 < maxTokens rl)%Q.

(** A number that is a whole number. *)
Definition whole (x : Q) : Prop := (x == inject_Z (Qfloor x))%Q.

(** The invariant that one step preserves when the capacity is whole:
    the bucket bounds together with a whole token count. *)
Definition whole_bucket (rl : RateLimiter) : Prop :=
  configured rl /\ whole (maxTokens rl) /\ whole (tokens rl) /\ bucket_inv rl.

(** ** The limiter over the runtime's numbers

    The constructor, [refill] and [hasHitRateLimit] once more, with the
    binary64 numbers and operations of the runtime in place of exact
    rationals.  They are evaluated at the inputs where rounding or [NaN]
    makes the code differ from exact arithmetic. *)
Module Binary64.

Record RateLimiter : Type := {
  tokens : float;
  lastRefillTime : float;
  refillRate : float;
  maxTokens : float
}.

(** [Math.floor] *)
Definition Math_floor (x : float) : float :=
  match Prim2SF x with
  | S754_finite s m e =>
      if (0 <=? e)%Z then x
      else
        SF2Prim (binary_normalize prec emax
                   ((if s then Z.neg m else Z.pos m) / 2 ^ (- e))%Z 0%Z s)
  | _ => x
  end.

(** [Math.min] of two numbers. *)
Definition Math_min (a b : float) : float :=
  if is_nan a || is_nan b then nan
  else if (a <? b)%float then a
  else if (b <? a)%float then b
  else if get_sign a then a else b.

Definition RateLimiter_new (maxTokens0 refillRate0 now : float)
  : completion RateLimiter :=
  if (refillRate0 <=? 0)%float || (maxTokens0 <=? 0)%float then
    Throw (ErrorObject "Error" "Refill rate and max tokens must be greater than zero.")
  else
    Normal {| tokens := maxTokens0;
              lastRefillTime := now;
              refillRate := refillRate0;
              maxTokens := maxTokens0 |}.

Definition refill (now : float) (rl : RateLimiter) : RateLimiter :=
  let elapsedTime := (now - lastRefillTime rl)%float in
  let tokensToAdd := Math_floor (elapsedTime / refillRate rl)%float in
  {| tokens := Math_min (tokens rl + tokensToAdd)%float (maxTokens rl);
     lastRefillTime := now;
     refillRate := refillRate rl;
     maxTokens := maxTokens rl |}.

Definition hasHitRateLimit (now : float) (rl : RateLimiter) : bool * RateLimiter :=
  let rl1 := refill now rl in
  if (0 <? tokens rl1)%float then
    (false, {| tokens := (tokens rl1 - 1)%float;
               lastRefillTime := lastRefillTime rl1;
               refillRate := refillRate rl1;
               maxTokens := maxTokens rl1 |})
  else (true, rl1).

(** The exact value of a finite number. *)
Definition exact (x : float) : option Q :=
  match Prim2SF x with
  | S754_zero _ => Some 0%Q
  | S754_finite s m e =>
      Some (inject_Z (if s then Z.neg m else Z.pos m) * Qpower 2 e)%Q
  | _ => None
  end.

End Binary64.

(* ================================================================== *)
(** * Part II.  The client (class [Api])                                *)
(* ================================================================== *)

(** The members of [EVENT_TYPE] and [ERROR_CODE] that the modelled code
    uses, with the strings they stand for. *)
Module EVENT_TYPE.
Definition INIT := "init".
Definition LOG_IN := "login".
Definition CHECK := "check".
Definition GET_VAR := "getvar".
Definition LOG := "log".
Definition WEBHOOK := "webhook".
Definition REQUEST := "request".
Definition RESPONSE := "response".
Definition METADATA := "metadata".
Definition ERROR := "error".
Definition RATE_LIMIT := "ratelimit".
End EVENT_TYPE.

Module ERROR_CODE.
Definition K_SK := "seesionKilled".
Definition K_NSID := "noSessionID".
Definition K_NI := "notInitialized".
Definition K_NLI := "notLoggedIn".
Definition K_UVT := "unsupportedVarType".
Definition K_U := "unknown".
Definition K_NCC := "noChatChannel".
Definition K_ICA := "invalidClientApi".
End ERROR_CODE.

(** [BASE_URL] of utils/constants. *)
Definition BASE_URL := "https://keyauth.win/api/1.2/".

Record App : Type := { name : string; ownerid : string; ver : string }.

Record LoggerOptions : Type := {
  opt_active : option bool;
  opt_level : option string;
  opt_name : option string
}.

Record ClientOptions : Type := {
  baseUrl : option string;
  convertTimes : option bool;
  logger : option LoggerOptions;
  ratelimit : option (Q * Q)          (* maxTokens, refillRate *)
}.

(** The logger, as configured; what it prints is winston's business. *)
Record Logger : Type := {
  logger_name : string;
  logger_active : option bool;
  logger_level : option string
}.

Record AxiosInstance : Type := { baseURL : string }.

(** The private fields of [Api].  The four that [_checkInitialization]
    tests may be missing; the constructor sets them all. *)
Record Api : Type := {
  _axiosInstance : option AxiosInstance;
  _logger : option Logger;
  _app : option App;
  _initializedClient : bool;
  _rateLimiter : option RateLimiter;
  _convertTimes : bool
}.

Record LogEntry : Type := { level : string; tag : string; text : string }.

(** The registry of the client's event emitter: for every event, the
    number of listeners registered with [on] and with [once]. *)
Record Listeners : Type := {
  on_ : gmap string nat;
  once_ : gmap string nat
}.

Definition listener_count (l : Listeners) (event : string) : nat :=
  default 0%nat (on_ l !! event) + default 0%nat (once_ l !! event).

(** A listener registered with [once] is removed when it is called. *)
Definition drop_once (event : string) (l : Listeners) : Listeners :=
  {| on_ := on_ l; once_ := delete event (once_ l) |}.

(** A client together with what it has done: the readings it took of
    the clock, the notifications that [emit] published, the calls to
    its logger, the requests handed to axios and the calls to [sleep];
    and the registry of its event emitter. *)
Record World : Type := {
  this : Api;
  ticks : nat;
  emitted : list (string * value);
  logged : list LogEntry;
  sent : list (gmap string value);
  slept : list Q;
  listeners : Listeners
}.

Definition set_this (a : Api) (w : World) : World :=
  {| this := a; ticks := ticks w; emitted := emitted w; logged := logged w;
     sent := sent w; slept := slept w; listeners := listeners w |}.

Definition set_ticks (n : nat) (w : World) : World :=
  {| this := this w; ticks := n; emitted := emitted w; logged := logged w;
     sent := sent w; slept := slept w; listeners := listeners w |}.

Definition add_emitted (e : string * value) (w : World) : World :=
  {| this := this w; ticks := ticks w; emitted := emitted w ++ [e];
     logged := logged w; sent := sent w; slept := slept w;
     listeners := listeners w |}.

Definition add_logged (e : LogEntry) (w : World) : World :=
  {| this := this w; ticks := ticks w; emitted := emitted w;
     logged := logged w ++ [e]; sent := sent w; slept := slept w;
     listeners := listeners w |}.

Definition add_sent (p : gmap string value) (w : World) : World :=
  {| this := this w; ticks := ticks w; emitted := emitted w;
     logged := logged w; sent := sent w ++ [p]; slept := slept w;
     listeners := listeners w |}.

Definition add_slept (ms : option Q) (w : World) : World :=
  {| this := this w; ticks := ticks w; emitted := emitted w;
     logged := logged w; sent := sent w;
     slept := slept w ++ match ms with Some q => [q] | None => [] end;
     listeners := listeners w |}.

Definition set_listeners (l : Listeners) (w : World) : World :=
  {| this := this w; ticks := ticks w; emitted := emitted w; logged := logged w;
     sent := sent w; slept := slept w; listeners := l |}.

Definition with_rateLimiter (rl : RateLimiter) (a : Api) : Api :=
  {| _axiosInstance := _axiosInstance a; _logger := _logger a; _app := _app a;
     _initializedClient := _initializedClient a; _rateLimiter := Some rl;
     _convertTimes := _convertTimes a |}.

Definition with_initializedClient (b : bool) (a : Api) : Api :=
  {| _axiosInstance := _axiosInstance a; _logger := _logger a; _app := _app a;
     _initializedClient := b; _rateLimiter := _rateLimiter a;
     _convertTimes := _convertTimes a |}.

(** A method of the client: it runs in a world and completes there. *)
Definition M (A : Type) : Type := World -> completion A * World.

Definition ret {A} (a : A) : M A := fun w => (Normal a, w).

Definition bind {A B} (c : M A) (k : A -> M B) : M B :=
  fun w =>
    match c w with
    | (Normal a, w') => k a w'
    | (Throw e, w') => (Throw e, w')
    | (OutOfFuel, w') => (OutOfFuel, w')
    end.

Declare Scope js_scope.
Delimit Scope js_scope with js.
Notation "'let*' x ':=' c 'in' k" := (bind c (fun x => k))
  (at level 10, x name, c at level 100, k at level 200) : js_scope.
Notation "c ';;' k" := (bind c (fun _ => k))
  (at level 100, k at level 200, right associativity) : js_scope.
#[local] Open Scope js_scope.

Definition throw {A} (e : exn) : M A := fun w => (Throw e, w).

Definition out_of_fuel {A} : M A := fun w => (OutOfFuel, w).

(** A pure evaluation that may throw, run as a step of a method. *)
Definition lift {A} (c : completion A) : M A := fun w => (c, w).

(** [try { body } catch (error) { handler }] *)
Definition try_catch {A} (body : M A) (handler : exn -> M A) : M A :=
  fun w =>
    match body w with
    | (Throw e, w') => handler e w'
    | r => r
    end.

(** [this.f], about to be read for its property [prop]. *)
Definition field {A} (f : Api -> option A) (prop : string) : M A :=
  fun w =>
    match f (this w) with
    | Some a => (Normal a, w)
    | None => (Throw (type_error_read "undefined" prop), w)
    end.

(** The world once the listeners of a notification have been called. *)
Definition deliver (e : string * value) (w : World) : World :=
  add_emitted e (set_listeners (drop_once (fst e) (listeners w)) w).

(** [this._eventEmitter.emit(event, payload)], of Node's [EventEmitter]:
    an ["error"] event without a listener makes [emit] throw an
    [ERR_UNHANDLED_ERROR] whose [context] is the payload; otherwise the
    listeners of the event are called, those registered with [once] are
    removed, and [emit] returns.  [emitted] records the calls that
    returned. *)
Definition emit (event : string) (payload : gmap string value) : M unit :=
  fun w =>
    if String.eqb event "error" && (listener_count (listeners w) event =? 0)%nat
    then (Throw (Unhandled (VObj payload)), w)
    else (Normal tt, deliver (event, VObj payload) w).

(** [on(event, callback)] and [once(event, callback)] of [Api]. *)
Definition on (event : string) : M unit :=
  fun w =>
    (Normal tt,
     set_listeners
       {| on_ := <[event := S (default 0%nat (on_ (listeners w) !! event))]>
                   (on_ (listeners w));
          once_ := once_ (listeners w) |} w).

Definition once (event : string) : M unit :=
  fun w =>
    (Normal tt,
     set_listeners
       {| on_ := on_ (listeners w);
          once_ := <[event := S (default 0%nat (once_ (listeners w) !! event))]>
                     (once_ (listeners w)) |} w).

(** [this._logger.level(tag, message)] *)
Definition logger_call (level_ tag_ message : string) : M unit :=
  let* _ := field _logger level_ in
  fun w => (Normal tt, add_logged {| level := level_; tag := tag_; text := message |} w).

Definition get_initializedClient : M bool :=
  fun w => (Normal (_initializedClient (this w)), w).

Definition set_initializedClient (b : bool) : M unit :=
  fun w => (Normal tt, set_this (with_initializedClient b (this w)) w).

Definition get_convertTimes : M bool :=
  fun w => (Normal (_convertTimes (this w)), w).

(** Response of axios: status and parsed payload. *)
Record AxiosResponse : Type := { status : Z; data : value }.

(** What the transport does with a request: it answers, or it fails
    with an [Error] object (an [AxiosError] for network failures and for
    statuses that axios rejects). *)
Inductive transport : Type :=
| Responded (r : AxiosResponse)
| Failed (class_ : string) (message : string).

Section Client.

(** The runtime's [Number::toString]. *)
Variable numToString : Q -> string.

(** The runtime's [util.inspect], with which the event emitter prints
    the payload of an unhandled ["error"] event. *)
Variable inspect : value -> string.

(** The wall clock: [clock n] is the value of the [n]-th call of
    [Date.now()] after the start of the run. *)
Variable clock : nat -> Z.

(** The transport: its answer to the [n]-th outbound request. *)
Variable axios_request : nat -> gmap string value -> transport.

(** The runtime's [JSON.parse]. *)
Variable JSON_parse : value -> completion value.

(** [convertTimestampsToLocalDates] of utils/helpers builds [Date]
    objects, which the values of this model do not have. *)
Variable convertTimestampsToLocalDates : value -> completion value.

(** [Date.now()] *)
Definition Date_now : M Z :=
  fun w => (Normal (clock (ticks w)), set_ticks (S (ticks w)) w).

(** [this._rateLimiter.hasHitRateLimit()] *)
Definition rl_hasHitRateLimit : M bool :=
  let* rl := field _rateLimiter "hasHitRateLimit" in
  let* now := Date_now in
  fun w => (Normal (fst (hasHitRateLimit now rl)),
            set_this (with_rateLimiter (snd (hasHitRateLimit now rl)) (this w)) w).

(** A limiter method built on [getTimeUntilCanMakeRequest]: it reads
    the clock in [refill] and, only when no token is available, once
    more. *)
Definition rl_timed {A} (method : Z -> Z -> RateLimiter -> A * RateLimiter)
    (prop : string) : M A :=
  let* rl := field _rateLimiter prop in
  fun w =>
    let now := clock (ticks w) in
    let now2 := clock (S (ticks w)) in
    let reads := if Qpositive (tokens (refill now rl)) then 1 else 2 in
    (Normal (fst (method now now2 rl)),
     set_ticks (ticks w + reads)
       (set_this (with_rateLimiter (snd (method now now2 rl)) (this w)) w)).

(** [this._rateLimiter.getTimeUntilCanMakeRequestString()] *)
Definition rl_getTimeUntilCanMakeRequestString : M string :=
  rl_timed (getTimeUntilCanMakeRequestString numToString)
           "getTimeUntilCanMakeRequestString".

(** [await this._rateLimiter.waitUntilCanMakeRequest()] *)
Definition rl_waitUntilCanMakeRequest : M unit :=
  let* ms := rl_timed waitUntilCanMakeRequest "waitUntilCanMakeRequest" in
  fun w => (Normal tt, add_slept ms w).

(** [await this._axiosInstance.request({ params })] *)
Definition axios_instance_request (params : gmap string value) : M AxiosResponse :=
  fun w =>
    match axios_request (length (sent w)) params with
    | Responded r => (Normal r, add_sent params w)
    | Failed class_ message => (Throw (ErrorObject class_ message), add_sent params w)
    end.

(** Lines 1417-1441 of [_makeRequest]: the three rewritings of
    [response.data], in the order of the source. *)
Definition sentinel_rule (responseTime : Z) (data_ : value) : value :=
  if is_string data_ "KeyAuth_Invalid" then
    VObj (<["time" := VNum (inject_Z responseTime)]>
          (<["message" := VStr "Keyauth API client not set up correctly!"]>
           (<["success" := VBool false]> ∅)))
  else data_.

Definition log_rule (type_ : value) (status_ : Z) (data_ : value) : value :=
  if is_string type_ EVENT_TYPE.LOG && (status_ =? 200)%Z then
    VObj (<["message" := VStr "Log successfully sent."]>
          (<["success" := VBool true]> ∅))
  else data_.

Definition webhook_rule (type_ : value) (status_ : Z) (data_ : value)
  : completion value :=
  if is_string type_ EVENT_TYPE.WEBHOOK && (status_ =? 200)%Z then
    match get_prop data_ "success", get_prop data_ "message",
          get_prop data_ "nonce", get_prop data_ "response" with
    | Normal success, Normal message, Normal nonce, Normal response =>
        Normal (VObj (<["data" := response]>
                      (<["nonce" := nonce]>
                       (<["message" := message]>
                        (<["success" := success]> ∅)))))
    | Throw e, _, _, _ => Throw e
    | _, Throw e, _, _ => Throw e
    | _, _, Throw e, _ => Throw e
    | _, _, _, Throw e => Throw e
    | _, _, _, _ => OutOfFuel
    end
  else Normal data_.

Definition normalize (type_ : value) (status_ : Z) (data_ : value)
    (responseTime : Z) : completion value :=
  webhook_rule type_ status_
    (log_rule type_ status_ (sentinel_rule responseTime data_)).

(** [params.k] on the parameter record: [undefined] when absent. *)
Definition param (params : gmap string value) (k : string) : value :=
  default VUndefined (params !! k).

(** The payload of an ["error"] notification. *)
Definition error_payload (type_ message : value) (errorCode : string)
  : gmap string value :=
  <["errorCode" := VStr errorCode]>
    (<["message" := message]>
     (<["success" := VBool false]>
      (<["type" := type_]> ∅))).

(** Lines 1464-1514: the notification chosen for a failing result,
    by the first test that holds. *)
Definition classify (params : gmap string value) (message : value)
  : gmap string value :=
  let text_ := String_ numToString message in
  if is_string (param params "sessionid") ""
     && String.prefix "Session not found." text_ then
    error_payload (param params "type") message ERROR_CODE.K_NSID
  else if String.prefix "Session not found." text_ then
    error_payload (param params "type") (VStr "The session was killed!") ERROR_CODE.K_SK
  else if String.eqb text_ "Chat channel not found" then
    error_payload (param params "type") (VStr "Chat channel not found") ERROR_CODE.K_NCC
  else if String.prefix "Keyauth API client" text_ then
    error_payload (param params "type") message ERROR_CODE.K_ICA
  else
    error_payload (param params "type") message ERROR_CODE.K_U.

(** [{ ...data, time: responseTime }] *)
Definition timed_result (data_ : value) (responseTime : Z) : gmap string value :=
  <["time" := VNum (inject_Z responseTime)]> (spread data_).

(** Lines 1405-1519: the body of the [try] once the call is admitted. *)
Definition execute (startTime : Z) (params : gmap string value)
    (skipError skipResponse : bool) : M value :=
  let* axios := field _axiosInstance "request" in
  let* app := field _app "name" in
  let* response :=
    axios_instance_request
      (<["ownerid" := VStr (ownerid app)]>
         (<["name" := VStr (name app)]> params)) in
  let* endTime := Date_now in
  let responseTime := (endTime - startTime)%Z in
  let* data_ :=
    lift (normalize (param params "type") (status response) (data response)
                    responseTime) in
  (if skipResponse then ret tt
   else emit EVENT_TYPE.RESPONSE
          (<["type" := param params "type"]> (timed_result data_ responseTime)));;
  emit EVENT_TYPE.REQUEST
    (<["response" := VObj (timed_result data_ responseTime)]>
       (<["request" := VObj (<["params" := VObj params]>
                               (<["url" := VStr (baseURL axios)]> ∅))]>
          (<["type" := param params "type"]> ∅)));;
  let* success := lift (get_prop data_ "success") in
  if is_false success then
    if skipError then ret VUndefined
    else
      let* message := lift (get_prop data_ "message") in
      emit EVENT_TYPE.ERROR (classify params message);;
      ret (VObj (timed_result data_ responseTime))
  else ret (VObj (timed_result data_ responseTime)).

(** [error.message] of the [ERR_UNHANDLED_ERROR] that [emit] throws. *)
Definition unhandled_message (context : value) : string :=
  "Unhandled error. (" ++ inspect context ++ ")".

(** Lines 1520-1541: the [catch] block; the method then ends without a
    [return], so its promise resolves with [undefined]. *)
Definition handle_failure (params : gmap string value) (error : exn) : M value :=
  match error with
  | ErrorObject class_ message =>
      (if String.eqb class_ "AxiosError" then
         logger_call "error" EVENT_TYPE.ERROR message
       else
         logger_call "error" EVENT_TYPE.ERROR (error_text class_ message));;
      emit EVENT_TYPE.ERROR
        (error_payload (param params "type") (VStr message) ERROR_CODE.K_U);;
      ret VUndefined
  | Unhandled context =>
      logger_call "error" EVENT_TYPE.ERROR
        ("Error [ERR_UNHANDLED_ERROR]: " ++ unhandled_message context);;
      emit EVENT_TYPE.ERROR
        (error_payload (param params "type") (VStr (unhandled_message context))
           ERROR_CODE.K_U);;
      ret VUndefined
  | Rejected v =>
      logger_call "error" EVENT_TYPE.ERROR (String_ numToString v);;
      let* message := lift (get_prop v "message") in
      emit EVENT_TYPE.ERROR
        (error_payload (param params "type") message ERROR_CODE.K_U);;
      ret VUndefined
  end.

(** [error.message] for what the body of the [try] can throw: an
    [Error] object or the emitter's [ERR_UNHANDLED_ERROR]. *)
Definition error_message (error : exn) : option string :=
  match error with
  | ErrorObject _ message => Some message
  | Unhandled context => Some (unhandled_message context)
  | Rejected _ => None
  end.

(** How one pass through the [try] statement ends: with the value the
    method returns, or with the tail call that retries. *)
Inductive attempt : Type :=
| Finished (v : value)
| Retry.

(** Lines 1386-1403: the branch taken when the limiter rejects. *)
Definition rate_limited (startTime : Z) : M unit :=
  let* wait_text := rl_getTimeUntilCanMakeRequestString in
  let* now := Date_now in
  emit EVENT_TYPE.RESPONSE
    (<["time" := VNum (inject_Z (startTime - now))]>
       (<["message" := VStr ("Client Api rate limit hit please wait " ++ wait_text)]>
          (<["success" := VBool false]>
             (<["type" := VStr EVENT_TYPE.RATE_LIMIT]> ∅))));;
  let* wait_text2 := rl_getTimeUntilCanMakeRequestString in
  logger_call "debug" EVENT_TYPE.REQUEST ("Rate limit hit please wait " ++ wait_text2);;
  rl_waitUntilCanMakeRequest.

(** One pass through [_makeRequest] up to its [return]. *)
Definition attempt_request (params : gmap string value)
    (skipError skipResponse : bool) : M attempt :=
  let* startTime := Date_now in
  try_catch
    (logger_call "debug" EVENT_TYPE.REQUEST "Making a request to keyauth API.";;
     let* hit := rl_hasHitRateLimit in
     if hit then
       rate_limited startTime;;
       ret Retry
     else
       let* v := execute startTime params skipError skipResponse in
       ret (Finished v))
    (fun error =>
       let* v := handle_failure params error in
       ret (Finished v)).

(** [_makeRequest({ params, skipError, skipResponse })].  The retry is
    a call in tail position, outside the reach of the [catch]; [fuel]
    bounds the number of passes. *)
Fixpoint _makeRequest (fuel : nat) (params : gmap string value)
    (skipError skipResponse : bool) : M value :=
  match fuel with
  | O => out_of_fuel
  | S fuel' =>
      let* a := attempt_request params skipError skipResponse in
      match a with
      | Finished v => ret v
      | Retry => _makeRequest fuel' params skipError skipResponse
      end
  end.

Definition INIT_REQUIRED :=
  "API Initialization Required: Please initialize the API first.".

(** [_checkInitialization()] *)
Definition _checkInitialization : M bool :=
  fun w =>
    match _app (this w), _axiosInstance (this w),
          _rateLimiter (this w), _logger (this w) with
    | None, _, _, _ =>
        (Throw (ErrorObject "Error"
           "API client is not properly initialized. Missing 'app' configuration."), w)
    | _, None, _, _ =>
        (Throw (ErrorObject "Error"
           "API client is not properly initialized. Missing 'axiosInstance' configuration."), w)
    | _, _, None, _ =>
        (Throw (ErrorObject "Error"
           "API client is not properly initialized. Missing 'rateLimiter' configuration."), w)
    | _, _, _, None =>
        (Throw (ErrorObject "Error"
           "API client is not properly initialized. Missing 'logger' configuration."), w)
    | Some _, Some _, Some _, Some _ =>
        ((if negb (_initializedClient (this w)) then
            logger_call "error" EVENT_TYPE.INIT INIT_REQUIRED;;
            emit EVENT_TYPE.ERROR
              (error_payload (VStr EVENT_TYPE.INIT) (VStr INIT_REQUIRED) ERROR_CODE.K_NI)
          else ret tt);;
         ret true) w
    end.

Definition rejected_uninitialized {A} : M A :=
  throw (Rejected (VStr INIT_REQUIRED)).

(** [init()] *)
Definition init (fuel : nat) : M value :=
  let* startTime := Date_now in
  logger_call "debug" EVENT_TYPE.INIT "Initializing the API.";;
  let* initialized := get_initializedClient in
  if initialized then
    logger_call "debug" EVENT_TYPE.INIT "API is already initialized.";;
    let* now := Date_now in
    ret (VObj (<["time" := VNum (inject_Z (startTime - now))]>
               (<["message" := VStr "Already initialized"]>
                (<["success" := VBool true]> ∅))))
  else
    let* app := field _app "ver" in
    let initParams : gmap string value :=
      <["ownerid" := VStr (ownerid app)]>
        (<["name" := VStr (name app)]>
         (<["ver" := VStr (ver app)]>
          (<["type" := VStr EVENT_TYPE.INIT]> ∅))) in
    logger_call "debug" EVENT_TYPE.INIT "Sending initialization request.";;
    let* response := _makeRequest fuel initParams false false in
    set_initializedClient true;;
    emit EVENT_TYPE.INIT (spread response);;
    logger_call "debug" EVENT_TYPE.INIT "Initialization complete. Returning response.";;
    ret (VObj (spread response)).

(** [check({ sessionId, skipResponse })] *)
Definition check (fuel : nat) (sessionId : string) (skipResponse : bool) : M value :=
  logger_call "debug" EVENT_TYPE.CHECK "Checking if current session is validated.";;
  let* ok := _checkInitialization in
  if negb ok then rejected_uninitialized
  else
    let checkParams : gmap string value :=
      <["sessionid" := VStr sessionId]> (<["type" := VStr EVENT_TYPE.CHECK]> ∅) in
    logger_call "debug" EVENT_TYPE.CHECK "Sending check request.";;
    let* response := _makeRequest fuel checkParams false skipResponse in
    logger_call "debug" EVENT_TYPE.CHECK "Check complete, Returning response.";;
    ret (VObj (spread response)).

Definition NOT_LOGGED_IN :=
  "User Not Logged In: Please login before accessing user data.".

(** [_checkUserLogin(sessionId)] *)
Definition _checkUserLogin (fuel : nat) (sessionId : string) : M bool :=
  let* ok := _checkInitialization in
  if negb ok then ret false
  else
    let* checked := check fuel sessionId true in
    let* success := lift (get_prop checked "success") in
    if truthy success then ret true
    else
      logger_call "error" EVENT_TYPE.ERROR NOT_LOGGED_IN;;
      emit EVENT_TYPE.ERROR
        (error_payload (VStr EVENT_TYPE.LOG_IN) (VStr NOT_LOGGED_IN) ERROR_CODE.K_NLI);;
      ret false.

(** [var.user.get({ sessionId, varId, skipResponse, skipError })] *)
Definition var_user_get (fuel : nat) (sessionId varId : string)
    (skipResponse skipError : bool) : M value :=
  logger_call "debug" EVENT_TYPE.GET_VAR "Running get user var.";;
  let* ok := _checkInitialization in
  if negb ok then rejected_uninitialized
  else
    let getVarParams : gmap string value :=
      <["var" := VStr varId]>
        (<["sessionid" := VStr sessionId]>
         (<["type" := VStr EVENT_TYPE.GET_VAR]> ∅)) in
    logger_call "debug" EVENT_TYPE.GET_VAR "Sending get user var request.";;
    let* response := _makeRequest fuel getVarParams skipError skipResponse in
    logger_call "debug" EVENT_TYPE.GET_VAR
      "Get user var request complete, Returning response.";;
    ret (VObj (spread response)).

(** [metaData.get({ sessionId, skipError, skipResponse })] *)
Definition metaData_get (fuel : nat) (sessionId : string)
    (skipError skipResponse : bool) : M value :=
  let* ok := _checkInitialization in
  if negb ok then rejected_uninitialized
  else
    let* logged_in := _checkUserLogin fuel sessionId in
    if negb logged_in then throw (Rejected VUndefined)
    else
      let* got := var_user_get fuel sessionId "metaData" skipResponse skipError in
      let* message := lift (get_prop got "message") in
      let* success := lift (get_prop got "success") in
      let* time := lift (get_prop got "time") in
      let* nonce := lift (get_prop got "nonce") in
      let* response := lift (get_prop got "response") in
      if truthy success then
        let* parsed := lift (JSON_parse response) in
        emit EVENT_TYPE.METADATA
          (<["metaData" := parsed]>
             (<["time" := time]>
                (<["success" := success]>
                   (<["message" := VStr "MetaData Successfully retrieved"]> ∅))));;
        let* parsed2 := lift (JSON_parse response) in
        ret (VObj (<["metaData" := parsed2]>
                     (<["time" := time]>
                        (<["success" := success]>
                           (<["message" := VStr "MetaData Successfully retrieved"]> ∅)))))
      else
        ret (VObj (<["time" := time]>
                     (<["success" := success]>
                        (<["message" :=
                             VStr "Failed to retrieve metaData. Try setting metaData first"]>
                           ∅)))).

(** [login], from the line after [await this._makeRequest(...)]. *)
Definition login_after_response (fuel : nat) (sessionId : string)
    (response : value) : M value :=
  if truthy (get_prop_optional response "success") then
    let* convert := get_convertTimes in
    let* response1 :=
      (if convert then
         let* info := lift (get_prop response "info") in
         let* converted := lift (convertTimestampsToLocalDates info) in
         ret (VObj (<["info" := converted]> (spread response)))
       else ret response) in
    let* got := metaData_get fuel sessionId true true in
    let* metaData := lift (get_prop got "metaData") in
    let* info1 := lift (get_prop response1 "info") in
    (if truthy info1 then
       emit EVENT_TYPE.LOG_IN (<["metaData" := metaData]> (spread response1))
     else ret tt);;
    logger_call "debug" EVENT_TYPE.LOG_IN "Login complete. Returning response.";;
    ret (VObj (<["metaData" := metaData]> (spread response1)))
  else
    logger_call "debug" EVENT_TYPE.LOG_IN "Login complete. Returning response.";;
    ret (VObj (spread response)).

Definition loginParams (username password : string) (hwid : value)
    (sessionId : string) : gmap string value :=
  <["hwid" := hwid]>
    (<["username" := VStr username]>
     (<["sessionid" := VStr sessionId]>
      (<["pass" := VStr password]>
       (<["type" := VStr EVENT_TYPE.LOG_IN]> ∅)))).

(** [login({ username, password, hwid, sessionId })] *)
Definition login (fuel : nat) (username password : string) (hwid : value)
    (sessionId : string) : M value :=
  logger_call "debug" EVENT_TYPE.LOG_IN "Logging in user.";;
  let* ok := _checkInitialization in
  if negb ok then rejected_uninitialized
  else
    logger_call "debug" EVENT_TYPE.LOG_IN "Sending login request.";;
    let* response :=
      _makeRequest fuel (loginParams username password hwid sessionId) false false in
    login_after_response fuel sessionId response.

Definition logParams (msg pcUser sessionId : string) : gmap string value :=
  <["pcuser" := VStr pcUser]>
    (<["message" := VStr msg]>
     (<["sessionid" := VStr sessionId]>
      (<["type" := VStr EVENT_TYPE.LOG]> ∅))).

(** [log({ msg, pcUser, sessionId })] *)
Definition log (fuel : nat) (msg pcUser sessionId : string) : M value :=
  logger_call "debug" EVENT_TYPE.LOG "Running log.";;
  let* ok := _checkInitialization in
  if negb ok then rejected_uninitialized
  else
    logger_call "debug" EVENT_TYPE.LOG "Sending log request.";;
    let* response := _makeRequest fuel (logParams msg pcUser sessionId) false false in
    emit EVENT_TYPE.LOG
      (spread response ∪ (<["pcUser" := VStr pcUser]> (<["msg" := VStr msg]> ∅)));;
    logger_call "debug" EVENT_TYPE.LOG "Log request complete, Returning response.";;
    ret (VObj (spread response)).

(** [o?.f] on an optional record. *)
Definition optional {A B} (o : option A) (f : A -> option B) : option B :=
  match o with
  | Some a => f a
  | None => None
  end.

(** [new Api(app, options)]: the client as the constructor leaves it,
    with the constructor's reading of the clock and its log entries. *)
Definition Api_new (app : App) (options : option ClientOptions) : completion World :=
  let logger_ :=
    {| logger_name := "Keyauth API";
       logger_active := optional (optional options logger) opt_active;
       logger_level := optional (optional options logger) opt_level |} in
  let custom_url :=
    match optional options baseUrl with
    | Some url => negb (String.eqb url "")
    | None => false
    end in
  let axios := {| baseURL := default BASE_URL (optional options baseUrl) |} in
  let '(maxTokens0, refillRate0) := default (10%Q, 5000%Q) (optional options ratelimit) in
  match RateLimiter_new maxTokens0 refillRate0 (clock 0) with
  | Normal rl =>
      Normal
        {| this := {| _axiosInstance := Some axios;
                      _logger := Some logger_;
                      _app := Some app;
                      _initializedClient := false;
                      _rateLimiter := Some rl;
                      _convertTimes := default false (optional options convertTimes) |};
           ticks := 1;
           emitted := [];
           logged :=
             (if custom_url then
                [{| level := "info"; tag := "instance"; text := "Using custom base url" |}]
              else [])
             ++ [{| level := "debug"; tag := "instance";
                    text := "Keyauth instance created." |}];
           sent := [];
           slept := [];
           listeners := {| on_ := ∅; once_ := ∅ |} |}
  | Throw e => Throw e
  | OutOfFuel => OutOfFuel
  end.

(** A world in working order: the four fields that
    [_checkInitialization] tests are set, the limiter is configured as
    its constructor demands, and its last refill is not in the future. *)
Definition operational (w : World) : Prop :=
  is_Some (_axiosInstance (this w)) /\ is_Some (_logger (this w)) /\
  is_Some (_app (this w)) /\
  exists rl, _rateLimiter (this w) = Some rl /\ configured rl /\
             (lastRefillTime rl <= clock (ticks w))%Z.

(** An ["error"] listener registered with [on]: [emit] never removes
    it.  And no ["error"] listener at all, as on a client that has just
    been constructed. *)
Definition subscribed (w : World) : Prop :=
  (0 < default 0%nat (on_ (listeners w) !! "error"))%nat.

Definition unheard (w : World) : Prop :=
  listener_count (listeners w) "error" = 0%nat.

(** What a run of the client leaves of the registry: the listeners
    registered with [on], and no more listeners registered with [once]. *)
Definition keeps_listeners (w w' : World) : Prop :=
  on_ (listeners w') = on_ (listeners w) /\
  forall event,
    (default 0%nat (once_ (listeners w') !! event)
     <= default 0%nat (once_ (listeners w) !! event))%nat.

(** The request that [_makeRequest] hands to axios for [params]. *)
Definition outbound (app : App) (params : gmap string value) : gmap string value :=
  <["ownerid" := VStr (ownerid app)]> (<["name" := VStr (name app)]> params).

(** The payload of the notification of the rate-limit branch. *)
Definition rate_limit_payload (wait_text : string) (time : Z) : gmap string value :=
  <["time" := VNum (inject_Z time)]>
    (<["message" := VStr ("Client Api rate limit hit please wait " ++ wait_text)]>
       (<["success" := VBool false]>
          (<["type" := VStr EVENT_TYPE.RATE_LIMIT]> ∅))).

(** What a run leaves of the world it starts from. *)
Definition extends_with (sent_now : list (gmap string value)) (w w' : World) : Prop :=
  this w' = this w /\ sent w' = (sent w ++ sent_now)%list /\ slept w' = slept w /\
  (ticks w <= ticks w')%nat /\ keeps_listeners w w' /\
  exists evs, emitted w' = (emitted w ++ evs)%list.

(** The world in which the [try] body goes on once the limiter has
    admitted the call: two clock readings, one log entry, one token
    taken. *)
Definition admitted_world (w : World) (rl : RateLimiter) : World :=
  set_this (with_rateLimiter (snd (hasHitRateLimit (clock (S (ticks w))) rl)) (this w))
    (set_ticks (S (S (ticks w)))
       (add_logged {| level := "debug"; tag := EVENT_TYPE.REQUEST;
                      text := "Making a request to keyauth API." |} w)).

(** What one admitted pass leaves behind, whatever the transport
    answers: exactly one request handed to axios, no sleep. *)
Definition dispatched (app : App) (params : gmap string value) (w w' : World) : Prop :=
  operational w' /\
  _app (this w') = _app (this w) /\
  _initializedClient (this w') = _initializedClient (this w) /\
  sent w' = (sent w ++ [outbound app params])%list /\
  slept w' = slept w /\
  keeps_listeners w w' /\
  exists evs, emitted w' = (emitted w ++ evs)%list.

(** The notifications of [execute] for a result that fails. *)
Definition failing_notifications (axios : AxiosInstance)
    (params : gmap string value) (sr : bool) (d message : value) (rt : Z)
  : list (string * value) :=
  ((if sr then []
    else [(EVENT_TYPE.RESPONSE,
           VObj (<["type" := param params "type"]> (timed_result d rt)))])
   ++ [(EVENT_TYPE.REQUEST,
        VObj (<["response" := VObj (timed_result d rt)]>
                (<["request" := VObj (<["params" := VObj params]>
                                        (<["url" := VStr (baseURL axios)]> ∅))]>
                   (<["type" := param params "type"]> ∅))));
       (EVENT_TYPE.ERROR, VObj (classify params message))])%list.

End Client.

(** The three result shapes of the response-reshaping rules. *)
Definition log_result : value :=
  VObj (<["message" := VStr "Log successfully sent."]> (<["success" := VBool true]> ∅)).

Definition webhook_result (payload : gmap string value) : value :=
  VObj (<["data" := default VUndefined (payload !! "response")]>
          (<["nonce" := default VUndefined (payload !! "nonce")]>
             (<["message" := default VUndefined (payload !! "message")]>
                (<["success" := default VUndefined (payload !! "success")]> ∅)))).

Definition client_not_set_up (time : Z) : value :=
  VObj (<["time" := VNum (inject_Z time)]>
          (<["message" := VStr "Keyauth API client not set up correctly!"]>
             (<["success" := VBool false]> ∅))).

(** The world after [_checkInitialization] has reported a client that
    is not initialized: one log entry, one ["error"] notification. *)
Definition reported_uninitialized (w : World) : World :=
  deliver
    (EVENT_TYPE.ERROR,
     VObj (error_payload (VStr EVENT_TYPE.INIT) (VStr INIT_REQUIRED) ERROR_CODE.K_NI))
    (add_logged {| level := "error"; tag := EVENT_TYPE.INIT; text := INIT_REQUIRED |} w).

(** The result of [init] on a client that is initialized already. *)
Definition already_initialized (time : Z) : value :=
  VObj (<["time" := VNum (inject_Z time)]>
          (<["message" := VStr "Already initialized"]>
             (<["success" := VBool true]> ∅))).

(* ================================================================== *)
(** * Part III.  Concrete limiters, clocks, transports and clients      *)
(* ================================================================== *)

(** The scenario of the specification: capacity 2, one token per 1000 ms. *)
Definition bucket_2_1000 : RateLimiter :=
  {| tokens := 2; lastRefillTime := 0; refillRate := 1000; maxTokens := 2 |}.

(** Numbers print as the decimal digits of their integer part. *)
Definition show_number (q : Q) : string := pretty (Qfloor q).

(** A clock that advances one millisecond per reading. *)
Definition clock_ms (n : nat) : Z := Z.of_nat n.

(** A transport that is down, and one that answers a dead session. *)
Definition axios_down (n : nat) (params : gmap string value) : transport :=
  Failed "AxiosError" "Network Error".

Definition axios_session_not_found (n : nat) (params : gmap string value) : transport :=
  Responded {| status := 200;
               data := VObj (<["message" := VStr "Session not found. Use latest code."]>
                               (<["success" := VBool false]> ∅)) |}.

Definition parse_identity (v : value) : completion value := Normal v.

Definition demo_app : App := {| name := "exampleName"; ownerid := "exampleOwnerID"; ver := "1.0" |}.

Definition demo_limiter (tokens0 : Q) : RateLimiter :=
  {| tokens := tokens0; lastRefillTime := 0; refillRate := 5000; maxTokens := 10 |}.

Definition demo_world (tokens0 : Q) (initialized : bool) : World :=
  {| this := {| _axiosInstance := Some {| baseURL := BASE_URL |};
                _logger := Some {| logger_name := "Keyauth API";
                                   logger_active := None; logger_level := None |};
                _app := Some demo_app;
                _initializedClient := initialized;
                _rateLimiter := Some (demo_limiter tokens0);
                _convertTimes := false |};
     ticks := 1;
     emitted := [];
     logged := [{| level := "debug"; tag := "instance";
                   text := "Keyauth instance created." |}];
     sent := [];
     slept := [];
     listeners := {| on_ := ∅; once_ := ∅ |} |}.

(** The same client once its user has called [on("error", ...)]. *)
Definition demo_listening (tokens0 : Q) (initialized : bool) : World :=
  set_listeners {| on_ := {["error" := 1%nat]}; once_ := ∅ |}
    (demo_world tokens0 initialized).

(** Payloads print as a fixed text. *)
Definition show_value (v : value) : string := "[payload]".

Definition demo_login : gmap string value := loginParams "user" "secret" VUndefined "".

Definition session_not_found_payload : value :=
  VObj (<["message" := VStr "Session not found. Use latest code."]>
          (<["success" := VBool false]> ∅)).

(* ================================================================== *)
(** * Part IV.  Further behaviour of the limiter                        *)
(* ================================================================== *)

(** The answers of successive calls of [hasHitRateLimit], one per clock
    reading: [true] for a call that is admitted. *)
Fixpoint admissions (nows : list Z) (rl : RateLimiter) : list bool :=
  match nows with
  | [] => []
  | now :: rest =>
      negb (fst (hasHitRateLimit now rl))
      :: admissions rest (snd (hasHitRateLimit now rl))
  end.

(** Every reading comes less than [rate] milliseconds after the one
    before it, the first one after [t]. *)
Fixpoint polled_within (rate : Q) (t : Z) (nows : list Z) : Prop :=
  match nows with
  | [] => True
  | x :: rest =>
      (t <= x)%Z /\ (inject_Z (x - t) < rate)%Q /\ polled_within rate x rest
  end.

(* ================================================================== *)
(** * Part V.  Time and download helpers (utils/helpers)                *)
(* ================================================================== *)

(** The argument of [timeSince] and [timeUntilExpiry]: a [Date] object,
    given by its time value in milliseconds ([None] for an invalid
    date), or a string holding a count of seconds. *)
Inductive date_input : Type :=
| DateObject (time : option Z)
| Timestamp (text : string).

(** Truncation towards zero. *)
Definition Qtruncate (x : Q) : Z := Z.quot (Qnum x) (Zpos (Qden x)).

(** [TimeClip]: the time value that [new Date(x)] keeps of a number. *)
Definition TimeClip (x : Q) : option Z :=
  if Qle_bool (- 8640000000000000) x && Qle_bool x 8640000000000000
  then Some (Qtruncate x) else None.

Section Dates.

(** The runtime's [Number::toString]. *)
Variable numToString : Q -> string.

(** The runtime's conversion of a string to a number; [None] when the
    result is [NaN] or infinite. *)
Variable Number_ : string -> option Q.

(** [new Date(d instanceof Date ? d : d * 1000)] *)
Definition new_Date (d : date_input) : option Z :=
  match d with
  | DateObject time => time
  | Timestamp text_ =>
      match Number_ text_ with
      | Some q => TimeClip (q * 1000)
      | None => None
      end
  end.

(** [timeSince(timeSince)]; [currentDate] is the time value of
    [new Date()].  The result is a string or the number 0. *)
Definition timeSince (currentDate : Z) (d : date_input) : value :=
  match new_Date d with
  | None => VNum 0
  | Some joinDate =>
      let timeDifference := (currentDate - joinDate)%Z in
      let seconds := (timeDifference / 1000)%Z in
      let minutes := (seconds / 60)%Z in
      let hours := (minutes / 60)%Z in
      let days := (hours / 24)%Z in
      if (0 <? days)%Z then VStr (plural numToString days "day" ++ " ago")
      else if (0 <? hours)%Z then VStr (plural numToString hours "hour" ++ " ago")
      else if (0 <? minutes)%Z then VStr (plural numToString minutes "minute" ++ " ago")
      else VNum 0
  end.

(** [timeUntilExpiry(expiry)] *)
Definition timeUntilExpiry (currentDate : Z) (d : date_input) : string :=
  match new_Date d with
  | None => "NaN seconds left"
  | Some expiryDate =>
      let timeDifference := (expiryDate - currentDate)%Z in
      let seconds := (timeDifference / 1000)%Z in
      let minutes := (seconds / 60)%Z in
      let hours := (minutes / 60)%Z in
      let days := (hours / 24)%Z in
      if (0 <? days)%Z then plural numToString days "day" ++ " left"
      else if (0 <? hours)%Z then plural numToString hours "hour" ++ " left"
      else if (0 <? minutes)%Z then plural numToString minutes "minute" ++ " left"
      else plural numToString seconds "second" ++ " left"
  end.

End Dates.

(** ** Hexadecimal contents of a download

    Strings are sequences of code units below 256. *)

(** The line terminators that [.] does not match. *)
Definition is_line_terminator (c : ascii) : bool :=
  (nat_of_ascii c =? 10)%nat || (nat_of_ascii c =? 13)%nat.

(** [contents.match(/.{1,2}/g)]: the matches in order; the empty list
    stands for [null]. *)
Fixpoint match_pairs (s : string) : list string :=
  match s with
  | EmptyString => []
  | String c rest =>
      if is_line_terminator c then match_pairs rest
      else
        match rest with
        | EmptyString => [String c EmptyString]
        | String c2 rest2 =>
            if is_line_terminator c2 then String c EmptyString :: match_pairs rest2
            else String c (String c2 EmptyString) :: match_pairs rest2
        end
  end.

(** White space that [parseInt] skips at the start. *)
Definition is_white_space (c : ascii) : bool :=
  let n := nat_of_ascii c in
  ((9 <=? n) && (n <=? 13) || (n =? 32) || (n =? 160))%nat.

Fixpoint trim_start (s : string) : string :=
  match s with
  | String c rest => if is_white_space c then trim_start rest else s
  | EmptyString => s
  end.

(** The value of a digit in radix 16. *)
Definition hex_digit (c : ascii) : option Z :=
  let n := nat_of_ascii c in
  if ((48 <=? n) && (n <=? 57))%nat then Some (Z.of_nat (n - 48))
  else if ((97 <=? n) && (n <=? 102))%nat then Some (Z.of_nat (n - 87))
  else if ((65 <=? n) && (n <=? 70))%nat then Some (Z.of_nat (n - 55))
  else None.

(** The number written by the longest prefix of digits, [None] when
    that prefix is empty and nothing was read before. *)
Fixpoint hex_prefix (s : string) (read : option Z) : option Z :=
  match s with
  | String c rest =>
      match hex_digit c with
      | Some d => hex_prefix rest (Some (16 * default 0%Z read + d)%Z)
      | None => read
      end
  | EmptyString => read
  end.

(** [parseInt(s, 16)]; [None] is [NaN]. *)
Definition parseInt16 (s : string) : option Z :=
  let s1 := trim_start s in
  let '(sign, s2) :=
    match s1 with
    | String "-" rest => ((-1)%Z, rest)
    | String "+" rest => (1%Z, rest)
    | _ => (1%Z, s1)
    end in
  let s3 :=
    match s2 with
    | String "0" (String "x" rest) => rest
    | String "0" (String "X" rest) => rest
    | _ => s2
    end in
  option_map (Z.mul sign) (hex_prefix s3 None).

(** The element that a [Uint8Array] stores for a number. *)
Definition to_uint8 (n : option Z) : Z :=
  match n with
  | Some z => (z mod 256)%Z
  | None => 0%Z
  end.

(** The byte array of [downloadToString] and [downloadToFile]:
    [new Uint8Array(contents.match(/.{1,2}/g)!.map(b => parseInt(b, 16)))]. *)
Definition download_bytes (contents : string) : completion (list Z) :=
  match match_pairs contents with
  | [] => Throw (type_error_read "null" "map")
  | pairs => Normal (map (fun pair => to_uint8 (parseInt16 pair)) pairs)
  end.

(** Contents without a line break, and contents made of line breaks. *)
Fixpoint no_line_terminator (s : string) : Prop :=
  match s with
  | EmptyString => True
  | String c rest => is_line_terminator c = false /\ no_line_terminator rest
  end.

Fixpoint only_line_terminators (s : string) : Prop :=
  match s with
  | EmptyString => True
  | String c rest => is_line_terminator c = true /\ only_line_terminators rest
  end.

Section Download.

(** [new TextDecoder().decode]. *)
Variable TextDecoder_decode : list Z -> string.

(** [downloadToString(downloadResponse)], on [downloadResponse.contents]. *)
Definition downloadToString (contents : string) : completion string :=
  match download_bytes contents with
  | Normal bytes => Normal (TextDecoder_decode bytes)
  | Throw e => Throw e
  | OutOfFuel => OutOfFuel
  end.

End Download.

(** Two lower-case digits for a byte, as the service writes them. *)
Definition hex_char (n : Z) : ascii :=
  ascii_of_nat (Z.to_nat (if (n <? 10)%Z then n + 48 else n + 87)%Z).

Definition hex_pair (b : Z) : string :=
  String (hex_char (b / 16)) (String (hex_char (b mod 16)) EmptyString).

Fixpoint hex_encode (bytes : list Z) : string :=
  match bytes with
  | [] => EmptyString
  | b :: rest => hex_pair b ++ hex_encode rest
  end.

(* ================================================================== *)
(** * Part VI.  Further adapters and descriptions of a dispatch         *)
(* ================================================================== *)

Module MORE_EVENT_TYPE.
Definition LOG_OUT := "logout".
Definition FETCH_ONLINE := "fetchOnline".
Definition CHAT_GET := "chatget".
End MORE_EVENT_TYPE.

(** [response.users.length ?? 0] *)
Definition users_count (response : value) : completion value :=
  match get_prop response "users" with
  | Normal VUndefined => Throw (type_error_read "undefined" "length")
  | Normal VNull => Throw (type_error_read "null" "length")
  | Normal (VArr l) => Normal (VNum (inject_Z (Z.of_nat (length l))))
  | Normal (VStr s) => Normal (VNum (inject_Z (Z.of_nat (String.length s))))
  | Normal (VObj o) =>
      Normal (match default VUndefined (o !! "length") with
              | VUndefined | VNull => VNum 0
              | v => v
              end)
  | Normal _ => Normal (VNum 0)
  | Throw e => Throw e
  | OutOfFuel => OutOfFuel
  end.

(** The notifications of [execute] for a request that the transport
    answered: ["response"] unless skipped, then ["request"]. *)
Definition answer_notifications (axios : AxiosInstance)
    (params : gmap string value) (sr : bool) (d : value) (rt : Z)
  : list (string * value) :=
  ((if sr then []
    else [(EVENT_TYPE.RESPONSE,
           VObj (<["type" := param params "type"]> (timed_result d rt)))])
   ++ [(EVENT_TYPE.REQUEST,
        VObj (<["response" := VObj (timed_result d rt)]>
                (<["request" := VObj (<["params" := VObj params]>
                                        (<["url" := VStr (baseURL axios)]> ∅))]>
                   (<["type" := param params "type"]> ∅))))])%list.

(** The world once [execute] has sent the request, read the clock and
    emitted those notifications. *)
Definition answered_world (axios : AxiosInstance) (app : App)
    (params : gmap string value) (sr : bool) (d : value) (rt : Z) (w : World) : World :=
  fold_left (fun w' e => deliver e w') (answer_notifications axios params sr d rt)
    (set_ticks (S (ticks w)) (add_sent (outbound app params) w)).

(** The ["error"] notification of kind [unknown]. *)
Definition unknown_error (params : gmap string value) (message : string)
  : string * value :=
  (EVENT_TYPE.ERROR,
   VObj (error_payload (param params "type") (VStr message) ERROR_CODE.K_U)).

(** No ["error"] notification among these. *)
Definition no_error_among (events : list (string * value)) : Prop :=
  Forall (fun e => fst e <> EVENT_TYPE.ERROR) events.

(** The shape of what admission emits before the request is sent:
    nothing, or the one notification of the rate-limit branch. *)
Definition admission_prelude (earlier : list (string * value)) : Prop :=
  earlier = [] \/
  exists wait_text time,
    earlier = [(EVENT_TYPE.RESPONSE, VObj (rate_limit_payload wait_text time))].

(** What [_checkInitialization] emits: nothing on an initialized
    client, else the ["error"] notification of kind [notInitialized]. *)
Definition guard_notifications (w : World) : list (string * value) :=
  if _initializedClient (this w) then []
  else [(EVENT_TYPE.ERROR,
         VObj (error_payload (VStr EVENT_TYPE.INIT) (VStr INIT_REQUIRED) ERROR_CODE.K_NI))].

(** The ["error"] notification of [_checkUserLogin]. *)
Definition not_logged_in_error : string * value :=
  (EVENT_TYPE.ERROR,
   VObj (error_payload (VStr EVENT_TYPE.LOG_IN) (VStr NOT_LOGGED_IN) ERROR_CODE.K_NLI)).

(** [initParams] of [init] and [checkParams] of [check]. *)
Definition initParams (app : App) : gmap string value :=
  <["ownerid" := VStr (ownerid app)]>
    (<["name" := VStr (name app)]>
     (<["ver" := VStr (ver app)]>
      (<["type" := VStr EVENT_TYPE.INIT]> ∅))).

Definition checkParams (sessionId : string) : gmap string value :=
  <["sessionid" := VStr sessionId]> (<["type" := VStr EVENT_TYPE.CHECK]> ∅).

Section Adapters.

Variable numToString : Q -> string.
Variable inspect : value -> string.
Variable clock : nat -> Z.
Variable axios_request : nat -> gmap string value -> transport.

#[local] Abbreviation _makeRequest :=
  (_makeRequest numToString inspect clock axios_request).
#[local] Abbreviation _checkUserLogin :=
  (_checkUserLogin numToString inspect clock axios_request).

Definition chatGetParams (channel sessionId : string) : gmap string value :=
  <["channel" := VStr channel]>
    (<["sessionid" := VStr sessionId]>
     (<["type" := VStr MORE_EVENT_TYPE.CHAT_GET]> ∅)).

(** [chat.get({ channel, sessionId })] *)
Definition chat_get (fuel : nat) (channel sessionId : string) : M value :=
  logger_call "debug" MORE_EVENT_TYPE.CHAT_GET "Running get chat.";;
  let* ok := _checkInitialization in
  if negb ok then rejected_uninitialized
  else
    logger_call "debug" MORE_EVENT_TYPE.CHAT_GET "Sending get chat request.";;
    let* response := _makeRequest fuel (chatGetParams channel sessionId) false false in
    let* success := lift (get_prop response "success") in
    (if truthy success then emit MORE_EVENT_TYPE.CHAT_GET (spread response)
     else ret tt);;
    logger_call "debug" MORE_EVENT_TYPE.CHAT_GET
      "Get chat request complete, Returning response.";;
    ret (VObj (spread response)).

Definition fetchOnlineUsersParams (sessionId : string) : gmap string value :=
  <["sessionid" := VStr sessionId]>
    (<["type" := VStr MORE_EVENT_TYPE.FETCH_ONLINE]> ∅).

(** [fetchOnlineUsers({ sessionId })] *)
Definition fetchOnlineUsers (fuel : nat) (sessionId : string) : M value :=
  logger_call "debug" MORE_EVENT_TYPE.FETCH_ONLINE "Fetching all current online users.";;
  let* ok := _checkInitialization in
  if negb ok then rejected_uninitialized
  else
    logger_call "debug" MORE_EVENT_TYPE.FETCH_ONLINE "Sending fetch online users request.";;
    let* response := _makeRequest fuel (fetchOnlineUsersParams sessionId) false false in
    emit MORE_EVENT_TYPE.FETCH_ONLINE (spread response);;
    logger_call "debug" MORE_EVENT_TYPE.FETCH_ONLINE
      "Fetch online users complete, Returning response.";;
    let* count := lift (users_count response) in
    ret (VObj (<["count" := count]> (spread response))).

Definition logoutParams (sessionId : string) : gmap string value :=
  <["sessionid" := VStr sessionId]> (<["type" := VStr MORE_EVENT_TYPE.LOG_OUT]> ∅).

(** [logout({ sessionId })] *)
Definition logout (fuel : nat) (sessionId : string) : M value :=
  logger_call "debug" MORE_EVENT_TYPE.LOG_OUT "Logging out user.";;
  let* logged_in := _checkUserLogin fuel sessionId in
  if negb logged_in then throw (Rejected VUndefined)
  else
    logger_call "debug" MORE_EVENT_TYPE.LOG_OUT "Sending logout request.";;
    let* response := _makeRequest fuel (logoutParams sessionId) false false in
    logger_call "debug" MORE_EVENT_TYPE.LOG_OUT "Clearing user info and updating nonce.";;
    emit MORE_EVENT_TYPE.LOG_OUT (<["sessionId" := VStr sessionId]> (spread response));;
    logger_call "debug" MORE_EVENT_TYPE.LOG_OUT "Logout complete. Returning response.";;
    ret (VObj (spread response)).

(** The world in which an adapter goes on after its first log entry,
    its initialization guard and its second log entry. *)
Definition guarded_world (tag_ first second : string) (w : World) : World :=
  let w_a := add_logged {| level := "debug"; tag := tag_; text := first |} w in
  add_logged {| level := "debug"; tag := tag_; text := second |}
    (if _initializedClient (this w) then w_a else reported_uninitialized w_a).

End Adapters.


(* ================================================================== *)
(** * Part VII.  Further concrete inputs                                 *)
(* ================================================================== *)

(** An empty bucket of capacity 2, one token per 1000 ms. *)
Definition bucket_empty_1000 : RateLimiter :=
  {| tokens := 0; lastRefillTime := 0; refillRate := 1000; maxTokens := 2 |}.

(** Four polls within 1.2 s, none a whole interval after the one before. *)
Definition polling_times : list Z := [100; 600; 900; 1200]%Z.

Definition no_number (text_ : string) : option Q := None.

Definition demo_axios : AxiosInstance := {| baseURL := BASE_URL |}.

(** A transport that answers with two online users, and one that
    answers with [null]. *)
Definition online_users : gmap string value :=
  <["users" := VArr [VObj (<["credential" := VStr "ann"]> ∅);
                     VObj (<["credential" := VStr "bob"]> ∅)]]>
    (<["message" := VStr "Successfully fetched online users."]>
       (<["success" := VBool true]> ∅)).

Definition axios_online_users (n : nat) (params : gmap string value) : transport :=
  Responded {| status := 200; data := VObj online_users |}.

Definition axios_null_payload (n : nat) (params : gmap string value) : transport :=
  Responded {| status := 200; data := VNull |}.

Definition session_not_found : gmap string value :=
  <["message" := VStr "Session not found. Use latest code."]>
    (<["success" := VBool false]> ∅).
(* ================================================================== *)
(** * Theorems: the rate limiter                                        *)
(* ================================================================== *)

Section LimiterFacts.
#[local] Open Scope Q_scope.

Lemma Qpositive_true x : Qpositive x = true <-> 0 < x.
Proof.
  unfold Qpositive. rewrite negb_true_iff.
  split; intros H.
  - apply Qnot_le_lt. intros Hle. apply Qle_bool_iff in Hle. congruence.
  - destruct (Qle_bool x 0) eqn:E; [|reflexivity].
    apply Qle_bool_iff in E. exfalso. lra.
Qed.

Lemma Qpositive_false x : Qpositive x = false <-> x <= 0.
Proof.
  unfold Qpositive. rewrite negb_false_iff. apply Qle_bool_iff.
Qed.

(** Elapsed time that is not negative adds a number of tokens that is
    not negative. *)
Lemma tokensToAdd_nonneg (rate : Q) (last now : Z) :
  0 < rate -> (last <= now)%Z ->
  (0 <= Qfloor (inject_Z (now - last) / rate))%Z.
Proof.
  intros Hrate Hle.
  change 0%Z with (Qfloor (inject_Z 0)).
  apply Qfloor_resp_le.
  apply Qle_shift_div_l; [assumption|].
  change (inject_Z 0) with 0. rewrite Qmult_0_l.
  change 0 with (inject_Z 0). rewrite <- Zle_Qle. lia.
Qed.

Lemma whole_plus x z : whole x -> whole (x + inject_Z z).
Proof.
  unfold whole. intros Hx.
  assert (E : x + inject_Z z == inject_Z (Qfloor x + z)).
  { rewrite inject_Z_plus. lra. }
  rewrite (Qfloor_comp _ _ E), Qfloor_Z. exact E.
Qed.

Lemma whole_minus_1 x : whole x -> whole (x - 1).
Proof.
  unfold whole. intros Hx.
  assert (E : x - 1 == inject_Z (Qfloor x - 1)).
  { unfold Z.sub. rewrite inject_Z_plus, inject_Z_opp.
    change (inject_Z 1) with 1. lra. }
  rewrite (Qfloor_comp _ _ E), Qfloor_Z. exact E.
Qed.

Lemma whole_min x y : whole x -> whole y -> whole (Qmin x y).
Proof.
  unfold whole. intros Hx Hy.
  destruct (Q.min_spec x y) as [[_ E]|[_ E]];
    rewrite (Qfloor_comp _ _ E); lra.
Qed.

(** A whole number above zero is at least one. *)
Lemma whole_positive_ge_1 x : whole x -> 0 < x -> 1 <= x.
Proof.
  unfold whole. intros Hx Hpos.
  assert (Hz : (0 < Qfloor x)%Z).
  { rewrite Zlt_Qlt. change (inject_Z 0) with 0. lra. }
  assert (H1 : inject_Z 1 <= inject_Z (Qfloor x)) by (rewrite <- Zle_Qle; lia).
  change (inject_Z 1) with 1 in H1. lra.
Qed.

Lemma refill_inv now rl :
  configured rl -> bucket_inv rl -> (lastRefillTime rl <= now)%Z ->
  bucket_inv (refill now rl).
Proof.
  intros [Hrate Hmax] [Hlo Hhi] Hnow. unfold bucket_inv, refill.
  cbn [tokens maxTokens].
  pose proof (tokensToAdd_nonneg _ _ _ Hrate Hnow) as Hadd.
  rewrite Zle_Qle in Hadd. change (inject_Z 0) with 0 in Hadd.
  split.
  - apply Q.min_glb; lra.
  - apply Q.le_min_r.
Qed.

Lemma refill_whole now rl :
  whole (maxTokens rl) -> whole (tokens rl) -> whole (tokens (refill now rl)).
Proof. intros Hm Ht. simpl. apply whole_min; [apply whole_plus|]; assumption. Qed.

(** Every step keeps the two fixed fields. *)
Lemma step_fixed o rl :
  refillRate (step o rl) = refillRate rl /\ maxTokens (step o rl) = maxTokens rl.
Proof.
  destruct o; simpl; unfold hasHitRateLimit, getTimeUntilCanMakeRequest;
    try destruct (Qpositive _); simpl; split; reflexivity.
Qed.

Lemma run_fixed ops : forall rl,
  refillRate (run ops rl) = refillRate rl /\ maxTokens (run ops rl) = maxTokens rl.
Proof.
  induction ops as [|o ops IH]; intros rl; simpl; [split; reflexivity|].
  destruct (IH (step o rl)) as [-> ->]. apply step_fixed.
Qed.

Lemma hasHitRateLimit_whole_bucket now rl :
  whole_bucket rl -> (lastRefillTime rl <= now)%Z ->
  whole_bucket (snd (hasHitRateLimit now rl)).
Proof.
  intros (Hc & Hwm & Hwt & Hinv) Hnow.
  pose proof (refill_inv now rl Hc Hinv Hnow) as [Hlo Hhi].
  pose proof (refill_whole now rl Hwm Hwt) as Hw.
  unfold hasHitRateLimit.
  destruct (Qpositive (tokens (refill now rl))) eqn:E; simpl snd.
  - apply Qpositive_true in E.
    pose proof (whole_positive_ge_1 _ Hw E) as H1.
    repeat split; try apply Hc; try assumption.
    + apply whole_minus_1. exact Hw.
    + simpl in *. lra.
    + simpl in *. lra.
  - repeat split; try apply Hc; assumption.
Qed.

Lemma getTimeUntilCanMakeRequest_whole_bucket now now2 rl :
  whole_bucket rl -> (lastRefillTime rl <= now)%Z ->
  whole_bucket (snd (getTimeUntilCanMakeRequest now now2 rl)).
Proof.
  intros (Hc & Hwm & Hwt & Hinv) Hnow.
  pose proof (refill_inv now rl Hc Hinv Hnow) as Hb.
  pose proof (refill_whole now rl Hwm Hwt) as Hw.
  unfold getTimeUntilCanMakeRequest.
  destruct (Qpositive (tokens (refill now rl))); simpl snd;
    repeat split; try apply Hc; try apply Hb; assumption.
Qed.

Lemma reset_tokens_whole_bucket rl : whole_bucket rl -> whole_bucket (reset_tokens rl).
Proof.
  intros ([Hr Hm] & Hwm & Hwt & Hinv).
  repeat split; simpl; try assumption; lra.
Qed.

Lemma run_whole_bucket ops : forall rl t,
  whole_bucket rl -> (lastRefillTime rl <= t)%Z ->
  nondecreasing t (readings ops) ->
  whole_bucket (run ops rl).
Proof.
  induction ops as [|o ops IH]; intros rl t Hwb Hlast Hmono; [exact Hwb|].
  destruct o as [now|now now2|now now2|]; simpl in Hmono |- *.
  - destruct Hmono as [Ht Hmono].
    apply (IH _ now); [apply hasHitRateLimit_whole_bucket; [assumption|lia]| |assumption].
    unfold hasHitRateLimit. destruct (Qpositive _); simpl; lia.
  - destruct Hmono as [Ht [Ht2 Hmono]].
    apply (IH _ now2); [apply getTimeUntilCanMakeRequest_whole_bucket; [assumption|lia]| |assumption].
    unfold getTimeUntilCanMakeRequest. destruct (Qpositive _); simpl; lia.
  - destruct Hmono as [Ht [Ht2 Hmono]].
    apply (IH _ now2); [apply getTimeUntilCanMakeRequest_whole_bucket; [assumption|lia]| |assumption].
    unfold getTimeUntilCanMakeRequest. destruct (Qpositive _); simpl; lia.
  - apply (IH _ t); [apply reset_tokens_whole_bucket; assumption|assumption|assumption].
Qed.


(** A full bucket admits the next call. *)
Lemma full_bucket_admits rl now :
  configured rl -> tokens rl = maxTokens rl -> (lastRefillTime rl <= now)%Z ->
  fst (hasHitRateLimit now rl) = false.
Proof.
  intros [Hrate Hmax] Hfull Hnow. unfold hasHitRateLimit.
  assert (Hpos : Qpositive (tokens (refill now rl)) = true).
  { apply Qpositive_true. unfold refill. cbn [tokens].
    pose proof (tokensToAdd_nonneg _ _ _ Hrate Hnow) as Hadd.
    rewrite Zle_Qle in Hadd. change (inject_Z 0) with 0%Q in Hadd.
    rewrite Hfull. apply Q.min_glb_lt; lra. }
  rewrite Hpos. reflexivity.
Qed.

Lemma getTimeUntilCanMakeRequest_fields now now2 rl :
  snd (getTimeUntilCanMakeRequest now now2 rl) = refill now rl.
Proof.
  unfold getTimeUntilCanMakeRequest. destruct (Qpositive _); reflexivity.
Qed.

Lemma waitUntilCanMakeRequest_fields now now2 rl :
  snd (waitUntilCanMakeRequest now now2 rl) = reset_tokens (refill now rl).
Proof.
  unfold waitUntilCanMakeRequest.
  rewrite (surjective_pairing (getTimeUntilCanMakeRequest now now2 rl)).
  cbn [snd]. now rewrite getTimeUntilCanMakeRequest_fields.
Qed.

Lemma hasHitRateLimit_fields now rl :
  lastRefillTime (snd (hasHitRateLimit now rl)) = now /\
  refillRate (snd (hasHitRateLimit now rl)) = refillRate rl /\
  maxTokens (snd (hasHitRateLimit now rl)) = maxTokens rl.
Proof. unfold hasHitRateLimit. destruct (Qpositive _); repeat split. Qed.

End LimiterFacts.

Section LimiterClaims.
#[local] Open Scope Q_scope.


(** C4, as it holds.  When the capacity is a whole number above zero
    and the refill interval is a number above zero, the constructor
    returns a limiter, and the predicate [0 <= tokens <= maxTokens]
    holds after construction and after every sequence of limiter steps
    whose clock readings never decrease: admissions, wait estimates, and
    both halves of [waitUntilCanMakeRequest] in any interleaving. *)
Theorem bucket_inv_whole_capacity
    (maxT rate : Q) (t0 : Z) (ops : list limiter_op) :
  whole maxT -> 0 < maxT -> 0 < rate ->
  nondecreasing t0 (readings ops) ->
  exists rl,
    RateLimiter_new maxT rate t0 = Normal rl /\
    bucket_inv rl /\ bucket_inv (run ops rl).
Proof.
  intros Hw Hmax Hrate Hmono.
  exists {| tokens := maxT; lastRefillTime := t0; refillRate := rate; maxTokens := maxT |}.
  split.
  { unfold RateLimiter_new.
    apply Qpositive_true in Hmax. apply Qpositive_true in Hrate.
    unfold Qpositive in Hmax, Hrate.
    destruct (Qle_bool rate 0); [discriminate|].
    destruct (Qle_bool maxT 0); [discriminate|]. reflexivity. }
  assert (Hwb : whole_bucket
    {| tokens := maxT; lastRefillTime := t0; refillRate := rate; maxTokens := maxT |}).
  { repeat split; simpl; try assumption; lra. }
  split; [apply Hwb|].
  apply (run_whole_bucket ops _ t0 Hwb); [simpl; lia|assumption].
Qed.

(** C7.  Once [waitUntilCanMakeRequest] resolves, [tokens] is exactly
    [maxTokens], for every bucket state and all clock readings, hence
    whatever the natural refill would have added; this also holds when
    other steps ran between suspension and resumption. *)
Theorem waitUntilCanMakeRequest_full_refill (rl : RateLimiter) (now now2 : Z) :
  tokens (snd (waitUntilCanMakeRequest now now2 rl)) = maxTokens rl /\
  maxTokens (snd (waitUntilCanMakeRequest now now2 rl)) = maxTokens rl /\
  forall between : list limiter_op,
    tokens (run (OpAwaitSuspend now now2 :: between ++ [OpAwaitResume]) rl)
    = maxTokens rl.
Proof.
  unfold waitUntilCanMakeRequest, getTimeUntilCanMakeRequest.
  repeat split.
  - destruct (Qpositive (tokens (refill now rl))); reflexivity.
  - destruct (Qpositive (tokens (refill now rl))); reflexivity.
  - intros between.
    assert (Hrun : forall ops r, run (ops ++ [OpAwaitResume]) r = reset_tokens (run ops r)).
    { induction ops as [|o ops IH]; intros r; simpl; [reflexivity|apply IH]. }
    change (run (OpAwaitSuspend now now2 :: between ++ [OpAwaitResume]) rl)
      with (run (between ++ [OpAwaitResume]) (step (OpAwaitSuspend now now2) rl)).
    rewrite Hrun. cbn [reset_tokens tokens].
    destruct (run_fixed between (step (OpAwaitSuspend now now2) rl)) as [_ ->].
    apply step_fixed.
Qed.


End LimiterClaims.

(** ** Concrete runs of the limiter *)

Example scenario_two_admits :
  run [OpTryAdmit 0; OpTryAdmit 0] bucket_2_1000
  = {| tokens := 2 - 1 - 1; lastRefillTime := 0; refillRate := 1000; maxTokens := 2 |}
  /\ fst (hasHitRateLimit 0 (run [OpTryAdmit 0; OpTryAdmit 0] bucket_2_1000)) = true.
Proof. split; vm_compute; reflexivity. Qed.

Example scenario_refill_after_2500 :
  let drained := run [OpTryAdmit 0; OpTryAdmit 0; OpTryAdmit 0] bucket_2_1000 in
  fst (hasHitRateLimit 2500 drained) = false /\
  (tokens (refill 2500 drained) == 2)%Q /\
  (tokens (snd (hasHitRateLimit 2500 drained)) == 1)%Q.
Proof. repeat split. Qed.


Lemma bucket_inv_whole_capacity_witness :
  bucket_inv (run [OpTryAdmit 0; OpTryAdmit 0; OpTryAdmit 0; OpAwaitSuspend 5 7;
                   OpTryAdmit 2500; OpAwaitResume; OpTimeUntil 2600 2600]
                  bucket_2_1000).
Proof.
  destruct (bucket_inv_whole_capacity 2 1000 0
              [OpTryAdmit 0; OpTryAdmit 0; OpTryAdmit 0; OpAwaitSuspend 5 7;
               OpTryAdmit 2500; OpAwaitResume; OpTimeUntil 2600 2600])
    as (rl & Hnew & _ & Hinv).
  - reflexivity.
  - reflexivity.
  - reflexivity.
  - simpl. lia.
  - injection Hnew as <-. exact Hinv.
Defined.

(** C4 as stated fails.  A capacity of one half passes the constructor's
    guard, and the first admission leaves [tokens] at minus one half.  A
    refill interval that is [NaN] passes the guard too, and the first
    refill leaves [tokens] [NaN], for which [0 <= tokens] is false. *)
Lemma bucket_inv_fails_outside_whole_numbers :
  ~ (forall (maxT rate : Q) (t0 : Z) (rl : RateLimiter) (ops : list limiter_op),
       RateLimiter_new maxT rate t0 = Normal rl ->
       nondecreasing t0 (readings ops) ->
       bucket_inv (run ops rl)) /\
  exists rl,
    Binary64.RateLimiter_new 10 nan 0 = Normal rl /\
    (0 <=? Binary64.tokens (snd (Binary64.hasHitRateLimit 5000 rl)))%float = false.
Proof.
  split.
  - intros H.
    specialize (H (1 # 2)%Q 1000%Q 0%Z
                  {| tokens := 1 # 2; lastRefillTime := 0; refillRate := 1000;
                     maxTokens := 1 # 2 |}
                  [OpTryAdmit 0] eq_refl).
    destruct H as [Hlo _]; [simpl; lia|].
    vm_compute in Hlo. apply Hlo. reflexivity.
  - eexists. split; reflexivity.
Qed.



(** The guard of the constructor lets [NaN] through: the first refill
    then makes [tokens] [NaN], [0 <= tokens] is false and every call is
    rejected. *)
Example constructor_accepts_NaN :
  exists rl,
    Binary64.RateLimiter_new 10 nan 0 = Normal rl /\
    fst (Binary64.hasHitRateLimit 5000 rl) = true /\
    (0 <=? Binary64.tokens (snd (Binary64.hasHitRateLimit 5000 rl)))%float = false /\
    fst (Binary64.hasHitRateLimit 10000 (snd (Binary64.hasHitRateLimit 5000 rl))) = true.
Proof. eexists. split; [reflexivity|]. repeat split. Qed.

(* ================================================================== *)
(** * Theorems: response normalisation                                  *)
(* ================================================================== *)

Lemma is_string_spec v s : is_string v s = true <-> v = VStr s.
Proof.
  destruct v; simpl; try (split; [discriminate|intros [=]]).
  rewrite String.eqb_eq. split; [intros ->; reflexivity|intros [= ->]; reflexivity].
Qed.

Lemma rule_guard_false (ty : value) (st : Z) (s : string) :
  ~ (ty = VStr s /\ st = 200%Z) -> is_string ty s && (st =? 200)%Z = false.
Proof.
  intros H. apply andb_false_iff.
  destruct (is_string ty s) eqn:E; [right|left; reflexivity].
  apply is_string_spec in E. apply Z.eqb_neq. intros ->. apply H. split; [exact E|reflexivity].
Qed.

(** C6, as it holds.  [normalize] applies three rewritings, in the
    order sentinel, log, webhook, and no other.  A ["log"] request
    answered with status 200 yields exactly
    [{success: true, message: "Log successfully sent."}], whatever the
    payload.  A ["webhook"] request answered with status 200 yields
    [{success, message, nonce, data}] read from what the sentinel rule
    left: from the payload's [success], [message], [nonce] and
    [response] when it is an object; from the synthesized object, hence
    without [time] and with [nonce] and [data] undefined, when it is
    ["KeyAuth_Invalid"]; four times [undefined] when it is any other
    string, a number, a boolean or an array; and a [TypeError] is thrown
    when it is [null] or [undefined].  For every other request the
    payload ["KeyAuth_Invalid"] yields
    [{success: false, message: "Keyauth API client not set up correctly!",
    time}] and any other payload is returned as it is. *)
Theorem normalize_rules :
  (forall (payload : value) (responseTime : Z),
     normalize (VStr EVENT_TYPE.LOG) 200 payload responseTime = Normal log_result) /\
  (forall (payload : gmap string value) (responseTime : Z),
     normalize (VStr EVENT_TYPE.WEBHOOK) 200 (VObj payload) responseTime
     = Normal (webhook_result payload)) /\
  (forall responseTime : Z,
     normalize (VStr EVENT_TYPE.WEBHOOK) 200 (VStr "KeyAuth_Invalid") responseTime
     = Normal (VObj (<["data" := VUndefined]>
                       (<["nonce" := VUndefined]>
                          (<["message" := VStr "Keyauth API client not set up correctly!"]>
                             (<["success" := VBool false]> ∅)))))) /\
  (forall responseTime : Z,
     normalize (VStr EVENT_TYPE.WEBHOOK) 200 VUndefined responseTime
     = Throw (type_error_read "undefined" "success") /\
     normalize (VStr EVENT_TYPE.WEBHOOK) 200 VNull responseTime
     = Throw (type_error_read "null" "success")) /\
  (forall (payload : value) (responseTime : Z),
     payload <> VStr "KeyAuth_Invalid" ->
     payload <> VUndefined -> payload <> VNull ->
     (forall o, payload <> VObj o) ->
     normalize (VStr EVENT_TYPE.WEBHOOK) 200 payload responseTime
     = Normal (VObj (<["data" := VUndefined]>
                       (<["nonce" := VUndefined]>
                          (<["message" := VUndefined]>
                             (<["success" := VUndefined]> ∅)))))) /\
  (forall (type_ : value) (status_ responseTime : Z),
     ~ (type_ = VStr EVENT_TYPE.LOG /\ status_ = 200%Z) ->
     ~ (type_ = VStr EVENT_TYPE.WEBHOOK /\ status_ = 200%Z) ->
     normalize type_ status_ (VStr "KeyAuth_Invalid") responseTime
     = Normal (client_not_set_up responseTime)) /\
  (forall (type_ payload : value) (status_ responseTime : Z),
     payload <> VStr "KeyAuth_Invalid" ->
     ~ (type_ = VStr EVENT_TYPE.LOG /\ status_ = 200%Z) ->
     ~ (type_ = VStr EVENT_TYPE.WEBHOOK /\ status_ = 200%Z) ->
     normalize type_ status_ payload responseTime = Normal payload).
Proof.
  split; [|split; [|split; [|split; [|split; [|split]]]]].
  - intros payload rt. reflexivity.
  - intros payload rt. reflexivity.
  - intros rt. unfold normalize, webhook_rule, log_rule, sentinel_rule.
    cbn [is_string String.eqb Ascii.eqb Bool.eqb andb Z.eqb Pos.eqb
         EVENT_TYPE.LOG EVENT_TYPE.WEBHOOK get_prop].
    repeat first [rewrite lookup_insert_eq
                 |rewrite lookup_insert_ne by discriminate
                 |rewrite lookup_empty].
    reflexivity.
  - intros rt. split; reflexivity.
  - intros payload rt Hsent Hu Hn Ho.
    unfold normalize, webhook_rule, log_rule, sentinel_rule.
    destruct (is_string payload "KeyAuth_Invalid") eqn:E;
      [apply is_string_spec in E; contradiction|].
    cbn [is_string String.eqb Ascii.eqb Bool.eqb andb Z.eqb Pos.eqb
         EVENT_TYPE.LOG EVENT_TYPE.WEBHOOK].
    destruct payload as [| |b|q|s|l|o]; try reflexivity; try contradiction.
    exfalso. exact (Ho o eq_refl).
  - intros ty st rt Hlog Hweb.
    unfold normalize, webhook_rule, log_rule.
    rewrite (rule_guard_false ty st _ Hlog), (rule_guard_false ty st _ Hweb).
    reflexivity.
  - intros ty payload st rt Hsent Hlog Hweb.
    unfold normalize, webhook_rule, log_rule, sentinel_rule.
    rewrite (rule_guard_false ty st _ Hlog), (rule_guard_false ty st _ Hweb).
    destruct (is_string payload "KeyAuth_Invalid") eqn:E; [|reflexivity].
    apply is_string_spec in E. contradiction.
Qed.

Lemma normalize_rules_witness :
  normalize (VStr "login") 200 (VStr "KeyAuth_Invalid") 7 = Normal (client_not_set_up 7) /\
  normalize (VStr "webhook") 200 (VStr "abc") 7
  = Normal (VObj (<["data" := VUndefined]>
                    (<["nonce" := VUndefined]>
                       (<["message" := VUndefined]>
                          (<["success" := VUndefined]> ∅))))).
Proof.
  split.
  - apply (proj1 (proj2 (proj2 (proj2 (proj2 (proj2 normalize_rules)))))).
    + intros [H _]. discriminate H.
    + intros [H _]. discriminate H.
  - apply (proj1 (proj2 (proj2 (proj2 (proj2 normalize_rules))))).
    + discriminate.
    + discriminate.
    + discriminate.
    + discriminate.
Defined.

(** C6 as stated fails on a ["webhook"] request answered with the
    sentinel: the synthesized object is rewritten by the webhook rule,
    which drops [time] and adds [nonce] and [data]. *)
Lemma sentinel_webhook_not_client_not_set_up :
  normalize (VStr EVENT_TYPE.WEBHOOK) 200 (VStr "KeyAuth_Invalid") 7
  <> Normal (client_not_set_up 7).
Proof.
  intros H.
  apply (f_equal (fun c => match c with
                           | Normal (VObj o) => o !! "nonce"
                           | _ => None
                           end)) in H.
  vm_compute in H. discriminate H.
Qed.

Example sentinel_log_result :
  normalize (VStr EVENT_TYPE.LOG) 200 (VStr "KeyAuth_Invalid") 7 = Normal log_result.
Proof. reflexivity. Qed.

Example webhook_reshaping :
  normalize (VStr EVENT_TYPE.WEBHOOK) 200
    (VObj (<["response" := VObj (<["x" := VNum 1]> ∅)]>
             (<["nonce" := VStr "n1"]>
                (<["message" := VStr "ok"]> (<["success" := VBool true]> ∅))))) 3
  = Normal (VObj (<["data" := VObj (<["x" := VNum 1]> ∅)]>
                    (<["nonce" := VStr "n1"]>
                       (<["message" := VStr "ok"]> (<["success" := VBool true]> ∅))))).
Proof. vm_compute. reflexivity. Qed.

(* ================================================================== *)
(** * Theorems: the dispatcher                                          *)
(* ================================================================== *)

Section ClientFacts.

Variable numToString : Q -> string.
Variable inspect : value -> string.
Variable clock : nat -> Z.
Variable axios_request : nat -> gmap string value -> transport.
Variable JSON_parse : value -> completion value.
Variable convertTimestampsToLocalDates : value -> completion value.

(** Wall-clock time never goes back. *)
Hypothesis clock_monotone : forall i j, (i <= j)%nat -> (clock i <= clock j)%Z.

#[local] Open Scope js_scope.

#[local] Abbreviation attempt_request :=
  (attempt_request numToString inspect clock axios_request).
#[local] Abbreviation _makeRequest :=
  (_makeRequest numToString inspect clock axios_request).
#[local] Abbreviation execute := (execute numToString clock axios_request).
#[local] Abbreviation handle_failure := (handle_failure numToString inspect).
#[local] Abbreviation unhandled_message := (unhandled_message inspect).
#[local] Abbreviation error_message := (error_message inspect).
#[local] Abbreviation classify := (classify numToString).
#[local] Abbreviation operational := (operational clock).
#[local] Abbreviation admitted_world := (admitted_world clock).
#[local] Abbreviation dispatched := (dispatched clock).
#[local] Abbreviation init := (init numToString inspect clock axios_request).
#[local] Abbreviation check := (check numToString inspect clock axios_request).
#[local] Abbreviation login :=
  (login numToString inspect clock axios_request JSON_parse
     convertTimestampsToLocalDates).
#[local] Abbreviation login_after_response :=
  (login_after_response numToString inspect clock axios_request JSON_parse
     convertTimestampsToLocalDates).
#[local] Abbreviation _checkUserLogin :=
  (_checkUserLogin numToString inspect clock axios_request).
#[local] Abbreviation metaData_get :=
  (metaData_get numToString inspect clock axios_request JSON_parse).
#[local] Abbreviation log := (log numToString inspect clock axios_request).
#[local] Abbreviation chat_get := (chat_get numToString inspect clock axios_request).
#[local] Abbreviation fetchOnlineUsers :=
  (fetchOnlineUsers numToString inspect clock axios_request).
#[local] Abbreviation logout := (logout numToString inspect clock axios_request).

Ltac js_unfold :=
  unfold attempt_request, rate_limited, rl_waitUntilCanMakeRequest,
    rl_getTimeUntilCanMakeRequestString, rl_timed, rl_hasHitRateLimit,
    axios_instance_request,
    logger_call, emit, field, Date_now, try_catch, lift, throw, bind, ret,
    get_initializedClient, set_initializedClient, get_convertTimes.

Ltac js_reduce :=
  cbn [this ticks emitted logged sent slept listeners set_this set_ticks
       add_emitted add_logged add_sent add_slept set_listeners deliver
       with_rateLimiter with_initializedClient
       _axiosInstance _logger _app _initializedClient _rateLimiter
       _convertTimes fst snd andb].

Ltac js_reduce_in H :=
  cbn [this ticks emitted logged sent slept listeners set_this set_ticks
       add_emitted add_logged add_sent add_slept set_listeners deliver
       with_rateLimiter with_initializedClient
       _axiosInstance _logger _app _initializedClient _rateLimiter
       _convertTimes fst snd andb] in H.

(** The test [event === "error"] of [emit], on the name of an event. *)
Ltac emit_names :=
  repeat match goal with
         | |- context [String.eqb ?e "error"] =>
             let b := eval vm_compute in (String.eqb e "error") in
             change (String.eqb e "error") with b
         end.

(** Property reads and the normalisation complete normally or throw a
    [TypeError]; they never exhaust fuel. *)
Lemma get_prop_cases v k :
  (exists x, get_prop v k = Normal x) \/
  (exists m, get_prop v k = Throw (ErrorObject "TypeError" m)).
Proof. destruct v; simpl; eauto. Qed.

Lemma get_prop_false_object d :
  get_prop d "success" = Normal (VBool false) ->
  exists o, d = VObj o /\ o !! "success" = Some (VBool false).
Proof.
  destruct d; simpl; try discriminate. intros [= H]. exists o. split; [reflexivity|].
  destruct (o !! "success"); simpl in H; congruence.
Qed.

Lemma webhook_rule_cases ty st d :
  (exists x, webhook_rule ty st d = Normal x) \/
  (exists m, webhook_rule ty st d = Throw (ErrorObject "TypeError" m)).
Proof.
  unfold webhook_rule.
  destruct (is_string ty EVENT_TYPE.WEBHOOK && (st =? 200)%Z); [|eauto].
  destruct d; simpl; eauto.
Qed.

Lemma normalize_cases ty st d rt :
  (exists x, normalize ty st d rt = Normal x) \/
  (exists m, normalize ty st d rt = Throw (ErrorObject "TypeError" m)).
Proof. apply webhook_rule_cases. Qed.

(** ** The registry of listeners *)

Lemma listener_count_drop_once l event :
  event <> "error" ->
  listener_count (drop_once event l) "error" = listener_count l "error".
Proof.
  intros H. unfold listener_count, drop_once. cbn [on_ once_].
  now rewrite lookup_delete_ne.
Qed.

(** After [on("error", ...)] the client has an ["error"] listener that
    no [emit] removes. *)
Lemma on_error_subscribed w : subscribed (snd (on "error" w)).
Proof.
  unfold subscribed, on. cbn [snd listeners set_listeners on_].
  rewrite lookup_insert_eq. cbn. lia.
Qed.

Lemma subscribed_count w :
  subscribed w -> (listener_count (listeners w) "error" =? 0)%nat = false.
Proof. unfold subscribed, listener_count. intros H. apply Nat.eqb_neq. lia. Qed.

Lemma unheard_count w :
  unheard w -> (listener_count (listeners w) "error" =? 0)%nat = true.
Proof. unfold unheard. intros ->. reflexivity. Qed.

Lemma subscribed_heard w : subscribed w -> ~ unheard w.
Proof. unfold subscribed, unheard, listener_count. lia. Qed.

Lemma count_unheard w :
  (listener_count (listeners w) "error" =? 0)%nat = true -> ~ subscribed w.
Proof.
  intros H Hs. apply subscribed_count in Hs. congruence.
Qed.

Lemma keeps_listeners_refl w w' :
  listeners w' = listeners w -> keeps_listeners w w'.
Proof. intros H. unfold keeps_listeners. rewrite H. split; [reflexivity|lia]. Qed.

Lemma keeps_listeners_trans w1 w2 w3 :
  keeps_listeners w1 w2 -> keeps_listeners w2 w3 -> keeps_listeners w1 w3.
Proof.
  intros [H1 H2] [H3 H4]. split; [congruence|].
  intros event. specialize (H2 event). specialize (H4 event). lia.
Qed.

Lemma keeps_listeners_deliver e w :
  keeps_listeners w (deliver e w).
Proof.
  split; [reflexivity|]. intros event. cbn.
  destruct (decide (fst e = event)) as [->|Hne].
  - rewrite lookup_delete_eq. cbn. lia.
  - rewrite lookup_delete_ne by exact Hne. lia.
Qed.

Lemma subscribed_keeps w w' : keeps_listeners w w' -> subscribed w -> subscribed w'.
Proof. intros [H _]. unfold subscribed. now rewrite H. Qed.

Lemma unheard_keeps w w' : keeps_listeners w w' -> unheard w -> unheard w'.
Proof.
  intros [H1 H2]. unfold unheard, listener_count. rewrite H1.
  specialize (H2 "error"). lia.
Qed.

Lemma not_subscribed_keeps w w' :
  keeps_listeners w w' -> ~ subscribed w' -> ~ subscribed w.
Proof. intros H Hn Hs. apply Hn. exact (subscribed_keeps _ _ H Hs). Qed.

(** ** Single steps *)

Lemma bind_run {A B} (c : M A) (k : A -> M B) w a w' :
  c w = (Normal a, w') -> bind c k w = k a w'.
Proof. intros H. unfold bind. now rewrite H. Qed.

Lemma bind_throw {A B} (c : M A) (k : A -> M B) w e w' :
  c w = (Throw e, w') -> bind c k w = (Throw e, w').
Proof. intros H. unfold bind. now rewrite H. Qed.

Lemma logger_call_run level_ tag_ message w lg :
  _logger (this w) = Some lg ->
  logger_call level_ tag_ message w
  = (Normal tt, add_logged {| level := level_; tag := tag_; text := message |} w).
Proof. intros H. js_unfold. now rewrite H. Qed.

Lemma emit_plain event payload w :
  event <> "error" ->
  emit event payload w = (Normal tt, deliver (event, VObj payload) w).
Proof.
  intros H. unfold emit.
  destruct (String.eqb_spec event "error"); [contradiction|reflexivity].
Qed.

Lemma emit_error_heard payload w :
  subscribed w ->
  emit EVENT_TYPE.ERROR payload w
  = (Normal tt, deliver (EVENT_TYPE.ERROR, VObj payload) w).
Proof.
  intros H. unfold emit. emit_names. cbn [andb].
  change EVENT_TYPE.ERROR with "error".
  now rewrite (subscribed_count w H).
Qed.

Lemma emit_error_unheard payload w :
  unheard w ->
  emit EVENT_TYPE.ERROR payload w = (Throw (Unhandled (VObj payload)), w).
Proof.
  intros H. unfold emit. emit_names. cbn [andb].
  change EVENT_TYPE.ERROR with "error".
  now rewrite (unheard_count w H).
Qed.

(** An ["error"] notification is published or it is unhandled. *)
Lemma emit_error_cases payload w :
  (emit EVENT_TYPE.ERROR payload w
   = (Normal tt, deliver (EVENT_TYPE.ERROR, VObj payload) w) /\ ~ unheard w) \/
  (emit EVENT_TYPE.ERROR payload w = (Throw (Unhandled (VObj payload)), w) /\
   unheard w).
Proof.
  unfold emit. emit_names. cbn [andb]. change EVENT_TYPE.ERROR with "error".
  destruct (listener_count (listeners w) "error" =? 0)%nat eqn:E.
  - right. split; [reflexivity|]. apply Nat.eqb_eq. exact E.
  - left. split; [reflexivity|]. apply Nat.eqb_neq. exact E.
Qed.

Lemma emit_error_listened payload w :
  ~ unheard w ->
  emit EVENT_TYPE.ERROR payload w
  = (Normal tt, deliver (EVENT_TYPE.ERROR, VObj payload) w).
Proof.
  intros H. destruct (emit_error_cases payload w) as [[-> _]|[_ Hu]];
    [reflexivity|contradiction].
Qed.

(** With an ["error"] listener registered by [on], every notification is
    published. *)
Lemma emit_heard event payload w :
  subscribed w ->
  emit event payload w = (Normal tt, deliver (event, VObj payload) w).
Proof.
  intros H. unfold emit.
  destruct (String.eqb_spec event "error") as [->|Hne]; [|reflexivity].
  cbn [andb]. now rewrite (subscribed_count w H).
Qed.

Lemma once_drop_le l ev event :
  (default 0%nat (once_ (drop_once ev l) !! event)
   <= default 0%nat (once_ l !! event))%nat.
Proof.
  cbn [once_ drop_once].
  destruct (decide (ev = event)) as [->|Hne].
  - rewrite lookup_delete_eq. cbn. lia.
  - rewrite lookup_delete_ne by exact Hne. lia.
Qed.

Lemma emitted_fold_deliver evs w :
  emitted (fold_left (fun w' e => deliver e w') evs w) = (emitted w ++ evs)%list /\
  this (fold_left (fun w' e => deliver e w') evs w) = this w /\
  ticks (fold_left (fun w' e => deliver e w') evs w) = ticks w /\
  logged (fold_left (fun w' e => deliver e w') evs w) = logged w /\
  sent (fold_left (fun w' e => deliver e w') evs w) = sent w /\
  slept (fold_left (fun w' e => deliver e w') evs w) = slept w /\
  keeps_listeners w (fold_left (fun w' e => deliver e w') evs w).
Proof.
  revert w. induction evs as [|e evs IH]; intros w.
  - cbn [fold_left]. rewrite app_nil_r. repeat split; lia.
  - cbn [fold_left]. destruct (IH (deliver e w)) as (H1 & H2 & H3 & H4 & H5 & H6 & H7).
    rewrite H1, H2, H3, H4, H5, H6. cbn [deliver add_emitted set_listeners emitted this
      ticks logged sent slept]. rewrite <- app_assoc.
    repeat split; try reflexivity.
    + destruct H7 as [H7 _]. exact H7.
    + intros event. destruct H7 as [_ H7]. specialize (H7 event).
      pose proof (once_drop_le (listeners w) (fst e) event). cbn in *. lia.
Qed.

(** ** The body of the [try] statement *)

Ltac keeps_tac :=
  unfold keeps_listeners; js_reduce;
  split; [reflexivity|];
  let event := fresh "event" in
  intros event;
  repeat (eapply Nat.le_trans; [apply once_drop_le|]);
  apply Nat.le_refl.

Ltac extends_tac :=
  unfold extends_with; js_reduce;
  repeat match goal with
         | |- keeps_listeners _ _ /\ _ => split; [keeps_tac|]
         | |- _ /\ _ => split
         end;
  try lia; try reflexivity;
  try (eexists; rewrite <- ?app_assoc; try reflexivity;
       symmetry; apply app_nil_r).

Ltac same_count_tac :=
  js_reduce; rewrite ?listener_count_drop_once by discriminate; reflexivity.

Ltac unheard_tac E :=
  unfold unheard; apply Nat.eqb_eq in E; js_reduce; js_reduce_in E;
  rewrite ?listener_count_drop_once in E by discriminate; exact E.

(** [execute] hands one request to axios and completes: normally, or
    with a throw that is an [Error] object or, when no ["error"]
    listener is registered, the emitter's unhandled error. *)
Lemma execute_completes startTime params se sr w axios app :
  _axiosInstance (this w) = Some axios -> _app (this w) = Some app ->
  match execute startTime params se sr w with
  | (Normal _, w') => extends_with [outbound app params] w w'
  | (Throw e, w') =>
      ((exists c m, e = ErrorObject c m) \/ (exists p, e = Unhandled p /\ unheard w)) /\
      listener_count (listeners w') "error" = listener_count (listeners w) "error" /\
      extends_with [outbound app params] w w'
  | (OutOfFuel, _) => False
  end.
Proof.
  intros Hax Happ.
  destruct w as [[ax lg app' ini rl ct] t ev lgd snt slp ls].
  cbn [this _axiosInstance _app] in *. subst.
  unfold execute. js_unfold. js_reduce. fold (outbound app params).
  destruct (axios_request (length snt) (outbound app params)) as [r|c m].
  2:{ js_reduce. split; [eauto|]. split; [same_count_tac|extends_tac]. }
  js_reduce.
  destruct (normalize_cases (param params "type") (status r) (data r)
              (clock t - startTime)) as [[d ->]|[m ->]].
  2:{ split; [eauto|]. split; [same_count_tac|extends_tac]. }
  emit_names. js_reduce.
  destruct (get_prop_cases d "success") as [[s ->]|[m ->]];
    destruct sr; js_reduce;
    try (split; [eauto|]; split; [same_count_tac|extends_tac]).
  - destruct (is_false s); [destruct se|]; try extends_tac.
    destruct (get_prop_cases d "message") as [[msg ->]|[m ->]];
      [|split; [eauto|]; split; [same_count_tac|extends_tac]].
    js_reduce.
    destruct (listener_count _ _ =? 0)%nat eqn:E; js_reduce.
    + split; [right; eexists; split; [reflexivity|unheard_tac E]|].
      split; [same_count_tac|extends_tac].
    + extends_tac.
  - destruct (is_false s); [destruct se|]; try extends_tac.
    destruct (get_prop_cases d "message") as [[msg ->]|[m ->]];
      [|split; [eauto|]; split; [same_count_tac|extends_tac]].
    js_reduce.
    destruct (listener_count _ _ =? 0)%nat eqn:E; js_reduce.
    + split; [right; eexists; split; [reflexivity|unheard_tac E]|].
      split; [same_count_tac|extends_tac].
    + extends_tac.
Qed.

(** [execute] when the transport fails. *)
Lemma execute_transport_failure startTime params se sr w axios app c m :
  _axiosInstance (this w) = Some axios -> _app (this w) = Some app ->
  axios_request (length (sent w)) (outbound app params) = Failed c m ->
  execute startTime params se sr w
  = (Throw (ErrorObject c m), add_sent (outbound app params) w).
Proof.
  intros Hax Happ Hfail.
  unfold execute. js_unfold. rewrite Hax, Happ. js_reduce.
  fold (outbound app params). rewrite Hfail. reflexivity.
Qed.

(** [execute] on a request that the transport answers and whose
    payload normalises: the notifications, then the test on [success]. *)
Lemma execute_answered startTime params se sr w axios app r d :
  _axiosInstance (this w) = Some axios -> _app (this w) = Some app ->
  axios_request (length (sent w)) (outbound app params) = Responded r ->
  let rt := (clock (ticks w) - startTime)%Z in
  normalize (param params "type") (status r) (data r) rt = Normal d ->
  let w1 := answered_world axios app params sr d rt w in
  execute startTime params se sr w =
  match get_prop d "success" with
  | Normal success =>
      if is_false success then
        if se then (Normal VUndefined, w1)
        else
          match get_prop d "message" with
          | Normal message =>
              (emit EVENT_TYPE.ERROR (classify params message);;
               ret (VObj (timed_result d rt))) w1
          | Throw e => (Throw e, w1)
          | OutOfFuel => (OutOfFuel, w1)
          end
      else (Normal (VObj (timed_result d rt)), w1)
  | Throw e => (Throw e, w1)
  | OutOfFuel => (OutOfFuel, w1)
  end.
Proof.
  intros Hax Happ Hresp rt Hnorm w1. subst w1 rt.
  destruct w as [[ax lg app' ini rl ct] t ev lgd snt slp ls].
  cbn [this _axiosInstance _app sent ticks] in *. subst.
  unfold execute, answered_world, answer_notifications. js_unfold. js_reduce.
  fold (outbound app params). rewrite Hresp. js_reduce.
  rewrite Hnorm. js_reduce. emit_names. js_reduce.
  destruct sr; js_reduce; cbn [fold_left Datatypes.app]; js_reduce;
    destruct (get_prop d "success") as [s| |]; try reflexivity;
    destruct (is_false s); try destruct se; try reflexivity;
    destruct (get_prop d "message"); try reflexivity;
    js_reduce; destruct (listener_count _ _ =? 0)%nat; reflexivity.
Qed.

(** ** The [catch] block *)

(** On what the [try] body can throw, the [catch] block logs one entry
    and calls [emit] for an ["error"] notification of kind [unknown]
    that carries the error's message. *)
Lemma handle_failure_run params e m w lg :
  _logger (this w) = Some lg -> error_message e = Some m ->
  exists entry,
    handle_failure params e w
    = (emit EVENT_TYPE.ERROR
         (error_payload (param params "type") (VStr m) ERROR_CODE.K_U);;
       ret VUndefined) (add_logged entry w).
Proof.
  intros Hlg Hm. unfold handle_failure.
  destruct e as [c m'|context|v]; cbn in Hm; try discriminate;
    injection Hm as <-.
  - destruct (String.eqb c "AxiosError");
      erewrite bind_run by (apply (logger_call_run _ _ _ _ lg); exact Hlg);
      eexists; reflexivity.
  - erewrite bind_run by (apply (logger_call_run _ _ _ _ lg); exact Hlg).
    eexists; reflexivity.
Qed.

(** ** One pass through the [try] statement *)

Lemma attempt_request_admitted params se sr w lg rl :
  _logger (this w) = Some lg -> _rateLimiter (this w) = Some rl ->
  fst (hasHitRateLimit (clock (S (ticks w))) rl) = false ->
  attempt_request params se sr w =
  match execute (clock (ticks w)) params se sr (admitted_world w rl) with
  | (Normal v, w') => (Normal (Finished v), w')
  | (Throw e, w') => (let* v := handle_failure params e in ret (Finished v)) w'
  | (OutOfFuel, w') => (OutOfFuel, w')
  end.
Proof.
  intros Hlg Hrl Hhit.
  destruct w as [[ax lg' app ini rl' ct] t ev lgd snt slp ls].
  cbn [this _logger _rateLimiter ticks] in *. subst.
  unfold admitted_world.
  js_unfold. js_reduce. rewrite Hhit. js_reduce.
  destruct (execute _ _ _ _ _) as [[v|e|] w']; reflexivity.
Qed.

Lemma drop_once_keeps w w1 ev :
  listeners w1 = drop_once ev (listeners w) -> keeps_listeners w w1.
Proof.
  intros H. unfold keeps_listeners. rewrite H. split; [reflexivity|].
  intros event. apply once_drop_le.
Qed.

Lemma drop_once_count w w1 ev :
  ev <> "error" -> listeners w1 = drop_once ev (listeners w) ->
  listener_count (listeners w1) "error" = listener_count (listeners w) "error".
Proof. intros Hne ->. now apply listener_count_drop_once. Qed.

Lemma getTimeUntilCanMakeRequestString_fields now now2 rl :
  snd (getTimeUntilCanMakeRequestString numToString now now2 rl) = refill now rl.
Proof.
  unfold getTimeUntilCanMakeRequestString.
  rewrite (surjective_pairing (getTimeUntilCanMakeRequest now now2 rl)).
  cbn [snd]. apply getTimeUntilCanMakeRequest_fields.
Qed.

(** The rate-limit branch: what [attempt_request] does when the
    limiter rejects. *)
Lemma attempt_request_rejected params se sr w rl :
  operational w -> _rateLimiter (this w) = Some rl ->
  fst (hasHitRateLimit (clock (S (ticks w))) rl) = true ->
  exists w1 rl1 time,
    let wait_text :=
      fst (getTimeUntilCanMakeRequestString numToString
             (clock (S (S (ticks w)))) (clock (S (S (S (ticks w)))))
             (snd (hasHitRateLimit (clock (S (ticks w))) rl))) in
    attempt_request params se sr w = (Normal Retry, w1) /\
    operational w1 /\
    _rateLimiter (this w1) = Some rl1 /\ tokens rl1 = maxTokens rl1 /\
    _axiosInstance (this w1) = _axiosInstance (this w) /\
    _app (this w1) = _app (this w) /\
    _logger (this w1) = _logger (this w) /\
    _initializedClient (this w1) = _initializedClient (this w) /\
    emitted w1 = (emitted w ++
       [(EVENT_TYPE.RESPONSE, VObj (rate_limit_payload wait_text time))])%list /\
    sent w1 = sent w /\
    (length (slept w1) <= S (length (slept w)))%nat /\
    (time <= 0)%Z /\
    listeners w1 = drop_once EVENT_TYPE.RESPONSE (listeners w).
Proof.
  intros (Hax & [lg Hlg] & Happ & rl0 & Hrl0 & [Hrate Hmax] & Hlast) Hrl Hhit.
  rewrite Hrl in Hrl0. injection Hrl0 as <-.
  destruct w as [[ax lg' app ini rl' ct] t ev lgd snt slp ls].
  cbn [this _logger _rateLimiter _axiosInstance _app ticks] in *. subst.
  js_unfold. js_reduce. rewrite Hhit. js_reduce. emit_names. js_reduce.
  unfold rate_limit_payload.
  do 3 eexists. split; [reflexivity|]. js_reduce.
  rewrite waitUntilCanMakeRequest_fields, !getTimeUntilCanMakeRequestString_fields.
  split.
  { unfold operational. js_reduce.
    repeat split; try assumption; try (eexists; reflexivity).
    eexists. split; [reflexivity|].
    unfold configured.
    cbn [lastRefillTime refillRate maxTokens reset_tokens refill].
    destruct (hasHitRateLimit_fields (clock (S t)) rl) as (_ & -> & ->).
    split; [split; assumption|].
    apply clock_monotone. lia. }
  do 8 (split; [reflexivity|]).
  split; [|split; [|reflexivity]].
  - rewrite length_app.
    destruct (waitUntilCanMakeRequest _ _ _).1; cbn [length]; lia.
  - assert (H : (clock t <= clock (S (S t) +
       (if Qpositive (tokens (refill (clock (S (S t)))
                                (snd (hasHitRateLimit (clock (S t)) rl))))
        then 1 else 2)))%Z) by (apply clock_monotone; lia).
    lia.
Qed.

(** An admitted pass is the last one: it returns, or, when no ["error"]
    listener is registered, it throws the emitter's unhandled error.
    Either way the request has been handed to axios. *)
Lemma attempt_request_admitted_outcome params se sr w rl app :
  operational w -> _rateLimiter (this w) = Some rl -> _app (this w) = Some app ->
  fst (hasHitRateLimit (clock (S (ticks w))) rl) = false ->
  exists c w',
    attempt_request params se sr w = (c, w') /\
    ((exists v, c = Normal (Finished v)) \/
     (exists p, c = Throw (Unhandled p) /\ unheard w)) /\
    dispatched app params w w'.
Proof.
  intros Hop Hrl Happ Hhit.
  pose proof Hop as ([ax Hax] & [lg Hlg] & _ & rl0 & Hrl0 & [Hrate Hmax] & Hlast).
  rewrite Hrl in Hrl0. injection Hrl0 as <-.
  rewrite (attempt_request_admitted params se sr w lg rl Hlg Hrl Hhit).
  assert (Haw : operational (admitted_world w rl) /\
                this (admitted_world w rl)
                = with_rateLimiter (snd (hasHitRateLimit (clock (S (ticks w))) rl)) (this w) /\
                emitted (admitted_world w rl) = emitted w /\
                sent (admitted_world w rl) = sent w /\
                slept (admitted_world w rl) = slept w /\
                ticks (admitted_world w rl) = S (S (ticks w)) /\
                listeners (admitted_world w rl) = listeners w).
  { unfold admitted_world, operational. js_reduce.
    rewrite Hax, Hlg, Happ.
    repeat split; try (eexists; reflexivity).
    eexists. split; [reflexivity|]. unfold configured.
    destruct (hasHitRateLimit_fields (clock (S (ticks w))) rl) as (-> & -> & ->).
    split; [split; assumption|]. apply clock_monotone. lia. }
  destruct Haw as (Hop2 & Hthis & Hev & Hsent & Hslept & Hticks & Hls).
  assert (Hax2 : _axiosInstance (this (admitted_world w rl)) = Some ax)
    by (rewrite Hthis; exact Hax).
  assert (Happ2 : _app (this (admitted_world w rl)) = Some app)
    by (rewrite Hthis; exact Happ).
  assert (Hkeep : forall w', this w' = this (admitted_world w rl) ->
                  (ticks (admitted_world w rl) <= ticks w')%nat -> operational w').
  { intros w' Hw' Ht.
    destruct Hop2 as (H1 & H2 & H3 & rl2 & H4 & H5 & H6).
    unfold operational. rewrite Hw'. repeat split; try assumption.
    exists rl2. repeat split; try apply H5; try assumption.
    etransitivity; [exact H6|]. apply clock_monotone. exact Ht. }
  assert (Hkl : forall w', keeps_listeners (admitted_world w rl) w' -> keeps_listeners w w').
  { intros w'. unfold keeps_listeners. rewrite Hls. tauto. }
  pose proof (execute_completes (clock (ticks w)) params se sr _ ax app Hax2 Happ2) as Hex.
  destruct (execute _ _ _ _ _) as [[v|e|] w'].
  - exists (Normal (Finished v)), w'. split; [reflexivity|]. split; [eauto|].
    destruct Hex as (Hthis' & Hsent' & Hslept' & Hticks' & Hkl' & evs & Hev').
    unfold dispatched. rewrite Hsent', Hslept', Hev', Hev, Hsent, Hslept.
    split; [apply Hkeep; [exact Hthis'|lia]|].
    rewrite Hthis', Hthis. repeat split; [apply Hkl; apply Hkl'|apply Hkl; apply Hkl'|eauto].
  - destruct Hex as (Hkind & Hcount & Hthis' & Hsent' & Hslept' & Hticks' & Hkl' & evs & Hev').
    rewrite Hls in Hcount.
    assert (Hlg' : _logger (this w') = Some lg) by (rewrite Hthis', Hthis; exact Hlg).
    assert (Hm : exists m, error_message e = Some m)
      by (destruct Hkind as [(c & m & ->)|(p & -> & _)]; cbn; eauto).
    destruct Hm as [m Hm].
    destruct (handle_failure_run params e m w' lg Hlg' Hm) as [entry Hh].
    unfold bind at 1. rewrite Hh.
    assert (Hdisp : forall w2, this w2 = this w' -> ticks w2 = ticks w' ->
              sent w2 = sent w' -> slept w2 = slept w' ->
              keeps_listeners w' w2 ->
              (exists evs2, emitted w2 = (emitted w' ++ evs2)%list) ->
              dispatched app params w w2).
    { intros w2 H1 H2 H3 H4 H5 [evs2 H6]. unfold dispatched.
      rewrite H3, H4, H6, Hsent', Hslept', Hev', Hev, Hsent, Hslept.
      split; [apply Hkeep; [rewrite H1; exact Hthis'|rewrite H2; lia]|].
      rewrite H1, Hthis', Hthis.
      repeat split;
        try (apply Hkl; apply (keeps_listeners_trans _ w'); [apply Hkl'|apply H5]).
      eexists. rewrite <- app_assoc. reflexivity. }
    destruct (emit_error_cases
                (error_payload (param params "type") (VStr m) ERROR_CODE.K_U)
                (add_logged entry w')) as [[He _]|[He Hu]];
      unfold bind at 1; rewrite He.
    + eexists _, _. split; [reflexivity|]. split; [left; eauto|].
      apply Hdisp; try reflexivity.
      * apply (keeps_listeners_deliver _ (add_logged entry w')).
      * eexists. reflexivity.
    + eexists _, _. split; [reflexivity|]. split.
      * right. eexists. split; [reflexivity|].
        unfold unheard in *. rewrite <- Hcount. exact Hu.
      * apply Hdisp; try reflexivity.
        -- apply keeps_listeners_refl. reflexivity.
        -- exists []. symmetry. apply app_nil_r.
  - contradiction.
Qed.

(** Unfolding of [_makeRequest] by one pass. *)
Lemma makeRequest_unfold n params se sr w :
  _makeRequest (S n) params se sr w =
  match attempt_request params se sr w with
  | (Normal (Finished v), w') => (Normal v, w')
  | (Normal Retry, w') => _makeRequest n params se sr w'
  | (Throw e, w') => (Throw e, w')
  | (OutOfFuel, w') => (OutOfFuel, w')
  end.
Proof.
  change (_makeRequest (S n) params se sr w)
    with (bind (attempt_request params se sr)
            (fun a => match a with
                      | Finished v => ret v
                      | Retry => _makeRequest n params se sr
                      end) w).
  unfold bind. destruct (attempt_request params se sr w) as [[[v|]|e|] w']; reflexivity.
Qed.

(** With fuel for two passes, [_makeRequest] is the [try] statement
    around [execute], run in the world that admission leaves: the
    starting world when the limiter admits at once, else the world after
    one rate-limit notification and one wait, with a full bucket. *)
Lemma makeRequest_settles n params se sr w rl :
  operational w -> _rateLimiter (this w) = Some rl ->
  exists w0 rl0 earlier,
    operational w0 /\
    _rateLimiter (this w0) = Some rl0 /\
    fst (hasHitRateLimit (clock (S (ticks w0))) rl0) = false /\
    _axiosInstance (this w0) = _axiosInstance (this w) /\
    _app (this w0) = _app (this w) /\
    _logger (this w0) = _logger (this w) /\
    _initializedClient (this w0) = _initializedClient (this w) /\
    sent w0 = sent w /\
    emitted w0 = (emitted w ++ earlier)%list /\
    (length (slept w0) <= S (length (slept w)))%nat /\
    keeps_listeners w w0 /\
    listener_count (listeners w0) "error" = listener_count (listeners w) "error" /\
    (if fst (hasHitRateLimit (clock (S (ticks w))) rl)
     then tokens rl0 = maxTokens rl0 /\
          exists wait_text time,
            earlier = [(EVENT_TYPE.RESPONSE, VObj (rate_limit_payload wait_text time))]
     else w0 = w /\ earlier = []) /\
    _makeRequest (S (S n)) params se sr w
    = try_catch (execute (clock (ticks w0)) params se sr) (handle_failure params)
        (admitted_world w0 rl0) /\
    _makeRequest (S (S n)) params se sr w
    = match attempt_request params se sr w0 with
      | (Normal (Finished v), w') => (Normal v, w')
      | (Normal Retry, w') => _makeRequest n params se sr w'
      | (Throw e, w') => (Throw e, w')
      | (OutOfFuel, w') => (OutOfFuel, w')
      end.
Proof.
  intros Hop Hrl.
  pose proof Hop as (_ & [lg Hlg] & _ & rl' & Hrl' & Hconf & Hlast).
  rewrite Hrl in Hrl'. injection Hrl' as <-.
  assert (Hfinish : forall k w0 rl0 lg0,
            _logger (this w0) = Some lg0 -> _rateLimiter (this w0) = Some rl0 ->
            fst (hasHitRateLimit (clock (S (ticks w0))) rl0) = false ->
            _makeRequest (S k) params se sr w0
            = try_catch (execute (clock (ticks w0)) params se sr) (handle_failure params)
                (admitted_world w0 rl0)).
  { intros k w0 rl0 lg0 Hlg0 Hrl0 Hadm.
    rewrite makeRequest_unfold.
    rewrite (attempt_request_admitted params se sr w0 lg0 rl0 Hlg0 Hrl0 Hadm).
    unfold try_catch, bind, ret.
    destruct (execute _ _ _ _ _) as [[v|e|] w']; try reflexivity.
    destruct (handle_failure params e w') as [[v|e'|] w'']; reflexivity. }
  assert (Hlast_pass : forall k w0 rl0 lg0,
            _logger (this w0) = Some lg0 -> _rateLimiter (this w0) = Some rl0 ->
            fst (hasHitRateLimit (clock (S (ticks w0))) rl0) = false ->
            match attempt_request params se sr w0 with
            | (Normal (Finished v), w') => (Normal v, w')
            | (Normal Retry, w') => _makeRequest k params se sr w'
            | (Throw e, w') => (Throw e, w')
            | (OutOfFuel, w') => (OutOfFuel, w')
            end
            = match attempt_request params se sr w0 with
              | (Normal (Finished v), w') => (Normal v, w')
              | (Normal Retry, w') => _makeRequest n params se sr w'
              | (Throw e, w') => (Throw e, w')
              | (OutOfFuel, w') => (OutOfFuel, w')
              end).
  { intros k w0 rl0 lg0 Hlg0 Hrl0 Hadm.
    rewrite (attempt_request_admitted params se sr w0 lg0 rl0 Hlg0 Hrl0 Hadm).
    unfold bind, ret.
    destruct (execute _ _ _ _ _) as [[v|e|] w']; try reflexivity.
    destruct (handle_failure params e w') as [[v|e'|] w'']; reflexivity. }
  destruct (fst (hasHitRateLimit (clock (S (ticks w))) rl)) eqn:Hhit.
  - destruct (attempt_request_rejected params se sr w rl Hop Hrl Hhit)
      as (w1 & rl1 & time & Hrun & Hop1 & Hrl1 & Hfull & Hax1 & Happ1 & Hlg1 &
          Hini1 & Hev1 & Hsent1 & Hslept1 & _ & Hls1).
    pose proof Hop1 as (_ & _ & _ & rl1' & Hrl1' & Hconf1 & Hlast1).
    rewrite Hrl1 in Hrl1'. injection Hrl1' as <-.
    assert (Hadm : fst (hasHitRateLimit (clock (S (ticks w1))) rl1) = false).
    { apply full_bucket_admits; try assumption.
      etransitivity; [exact Hlast1|]. apply clock_monotone. lia. }
    exists w1, rl1. eexists.
    split; [exact Hop1|]. split; [exact Hrl1|]. split; [exact Hadm|].
    do 5 (split; [assumption|]). split; [exact Hev1|].
    split; [exact Hslept1|].
    split; [exact (drop_once_keeps _ _ _ Hls1)|].
    split; [apply (drop_once_count _ _ EVENT_TYPE.RESPONSE); [discriminate|exact Hls1]|].
    split; [split; [exact Hfull|eauto]|].
    split.
    + rewrite makeRequest_unfold, Hrun.
      apply (Hfinish n w1 rl1 lg); [rewrite Hlg1; exact Hlg|exact Hrl1|exact Hadm].
    + rewrite makeRequest_unfold, Hrun, makeRequest_unfold.
      apply (Hlast_pass _ w1 rl1 lg); [rewrite Hlg1; exact Hlg|exact Hrl1|exact Hadm].
  - exists w, rl, []. split; [exact Hop|]. split; [exact Hrl|]. split; [exact Hhit|].
    do 5 (split; [reflexivity|]). split; [symmetry; apply app_nil_r|].
    split; [lia|].
    split; [apply keeps_listeners_refl; reflexivity|].
    split; [reflexivity|].
    split; [split; reflexivity|].
    split.
    + apply (Hfinish (S n) w rl lg); assumption.
    + rewrite makeRequest_unfold.
      apply (Hlast_pass _ w rl lg); assumption.
Qed.

(** Two passes are enough: [_makeRequest] settles, having handed
    exactly one request to axios and slept at most once.  It resolves,
    or, when no ["error"] listener is registered, it rejects with the
    emitter's unhandled error. *)
Lemma makeRequest_outcome n params se sr w app :
  operational w -> _app (this w) = Some app ->
  exists c w',
    _makeRequest (S (S n)) params se sr w = (c, w') /\
    ((exists v, c = Normal v) \/ (exists p, c = Throw (Unhandled p) /\ unheard w)) /\
    operational w' /\
    _app (this w') = _app (this w) /\
    _initializedClient (this w') = _initializedClient (this w) /\
    sent w' = (sent w ++ [outbound app params])%list /\
    (length (slept w') <= S (length (slept w)))%nat /\
    keeps_listeners w w' /\
    exists evs, emitted w' = (emitted w ++ evs)%list.
Proof.
  intros Hop Happ.
  pose proof Hop as (_ & _ & _ & rl & Hrl & Hconf & Hlast).
  destruct (makeRequest_settles n params se sr w rl Hop Hrl)
    as (w0 & rl0 & earlier & Hop0 & Hrl0 & Hadm & _ & Happ0 & _ & Hini0 &
        Hsent0 & Hev0 & Hslept0 & Hkl0 & Hcount0 & _ & _ & Hrun).
  assert (Happ0' : _app (this w0) = Some app) by (rewrite Happ0; exact Happ).
  destruct (attempt_request_admitted_outcome params se sr w0 rl0 app Hop0 Hrl0 Happ0' Hadm)
    as (c & w' & Hatt & Hc & Hop' & Happ' & Hini' & Hsent' & Hslept' & Hkl' & evs & Hev').
  rewrite Hatt in Hrun.
  assert (Hfacts : operational w' /\
    _app (this w') = _app (this w) /\
    _initializedClient (this w') = _initializedClient (this w) /\
    sent w' = (sent w ++ [outbound app params])%list /\
    (length (slept w') <= S (length (slept w)))%nat /\
    keeps_listeners w w' /\
    exists evs, emitted w' = (emitted w ++ evs)%list).
  { split; [exact Hop'|]. split; [congruence|]. split; [congruence|].
    split; [rewrite Hsent', Hsent0; reflexivity|].
    split; [rewrite Hslept'; exact Hslept0|].
    split; [exact (keeps_listeners_trans _ _ _ Hkl0 Hkl')|].
    eexists. rewrite Hev', Hev0, <- app_assoc. reflexivity. }
  destruct Hc as [(v & ->)|(p & -> & Hu)].
  - exists (Normal v), w'. split; [exact Hrun|]. split; [eauto|exact Hfacts].
  - exists (Throw (Unhandled p)), w'. split; [exact Hrun|].
    split; [|exact Hfacts].
    right. exists p. split; [reflexivity|].
    unfold unheard in *. rewrite <- Hcount0. exact Hu.
Qed.

(** With an ["error"] listener, [_makeRequest] resolves. *)
Lemma makeRequest_completes n params se sr w app :
  operational w -> ~ unheard w -> _app (this w) = Some app ->
  exists v w',
    _makeRequest (S (S n)) params se sr w = (Normal v, w') /\
    operational w' /\
    _app (this w') = _app (this w) /\
    _initializedClient (this w') = _initializedClient (this w) /\
    sent w' = (sent w ++ [outbound app params])%list /\
    (length (slept w') <= S (length (slept w)))%nat /\
    keeps_listeners w w' /\
    exists evs, emitted w' = (emitted w ++ evs)%list.
Proof.
  intros Hop Hsub Happ.
  destruct (makeRequest_outcome n params se sr w app Hop Happ)
    as (c & w' & Hrun & [(v & ->)|(p & -> & Hu)] & Hfacts).
  - exists v, w'. split; [exact Hrun|exact Hfacts].
  - contradiction.
Qed.

(** ** The world in which [execute] runs, and the one it leaves *)

Lemma admitted_world_operational w rl :
  operational w -> _rateLimiter (this w) = Some rl ->
  operational (admitted_world w rl).
Proof.
  intros (H1 & H2 & H3 & rl' & H4 & [Hrate Hmax] & H6) Hrl.
  rewrite Hrl in H4. injection H4 as <-.
  unfold operational, admitted_world. js_reduce.
  repeat split; try assumption.
  eexists. split; [reflexivity|]. unfold configured.
  destruct (hasHitRateLimit_fields (clock (S (ticks w))) rl) as (-> & -> & ->).
  split; [split; assumption|]. apply clock_monotone. lia.
Qed.

Lemma admission_prelude_no_error earlier :
  admission_prelude earlier -> no_error_among earlier.
Proof.
  intros [->|(wait_text & time & ->)]; [constructor|].
  constructor; [|constructor]. cbn [fst]. discriminate.
Qed.

Lemma answer_notifications_no_error axios params sr d rt :
  no_error_among (answer_notifications axios params sr d rt).
Proof.
  unfold answer_notifications, no_error_among.
  destruct sr; cbn [Datatypes.app]; repeat constructor; cbn [fst]; discriminate.
Qed.

Lemma count_fold_deliver evs w :
  no_error_among evs ->
  listener_count (listeners (fold_left (fun w' e => deliver e w') evs w)) "error"
  = listener_count (listeners w) "error".
Proof.
  revert w. induction evs as [|e evs IH]; intros w H; [reflexivity|].
  inversion H as [|? ? He Hrest]; subst.
  cbn [fold_left]. rewrite (IH _ Hrest). js_reduce.
  apply listener_count_drop_once. exact He.
Qed.

Lemma answered_world_facts axios app params sr d rt w :
  this (answered_world axios app params sr d rt w) = this w /\
  ticks (answered_world axios app params sr d rt w) = S (ticks w) /\
  emitted (answered_world axios app params sr d rt w)
  = (emitted w ++ answer_notifications axios params sr d rt)%list /\
  logged (answered_world axios app params sr d rt w) = logged w /\
  sent (answered_world axios app params sr d rt w)
  = (sent w ++ [outbound app params])%list /\
  slept (answered_world axios app params sr d rt w) = slept w /\
  keeps_listeners w (answered_world axios app params sr d rt w) /\
  listener_count (listeners (answered_world axios app params sr d rt w)) "error"
  = listener_count (listeners w) "error".
Proof.
  unfold answered_world.
  destruct (emitted_fold_deliver (answer_notifications axios params sr d rt)
              (set_ticks (S (ticks w)) (add_sent (outbound app params) w)))
    as (H1 & H2 & H3 & H4 & H5 & H6 & H7).
  rewrite H1, H2, H3, H4, H5, H6.
  rewrite count_fold_deliver by apply answer_notifications_no_error.
  repeat split; try reflexivity; apply H7.
Qed.

(** [_makeRequest] on a request that the transport answers: the run is
    the [try] statement around [execute] in the world [wa] left by
    admission, and [execute] there emits its notifications and branches
    on [success] of the normalised payload. *)
Lemma makeRequest_responded n params se sr w axios app r :
  operational w ->
  _axiosInstance (this w) = Some axios -> _app (this w) = Some app ->
  axios_request (length (sent w)) (outbound app params) = Responded r ->
  exists wa lg earlier startTime,
    _logger (this wa) = Some lg /\
    _initializedClient (this wa) = _initializedClient (this w) /\
    _app (this wa) = Some app /\
    _axiosInstance (this wa) = Some axios /\
    operational wa /\
    sent wa = sent w /\
    emitted wa = (emitted w ++ earlier)%list /\
    admission_prelude earlier /\
    keeps_listeners w wa /\
    listener_count (listeners wa) "error" = listener_count (listeners w) "error" /\
    _makeRequest (S (S n)) params se sr w
    = try_catch (execute startTime params se sr) (handle_failure params) wa /\
    forall d,
      normalize (param params "type") (status r) (data r) (clock (ticks wa) - startTime)
      = Normal d ->
      execute startTime params se sr wa =
      let rt := (clock (ticks wa) - startTime)%Z in
      let w1 := answered_world axios app params sr d rt wa in
      match get_prop d "success" with
      | Normal success =>
          if is_false success then
            if se then (Normal VUndefined, w1)
            else
              match get_prop d "message" with
              | Normal message =>
                  (emit EVENT_TYPE.ERROR (classify params message);;
                   ret (VObj (timed_result d rt))) w1
              | Throw e => (Throw e, w1)
              | OutOfFuel => (OutOfFuel, w1)
              end
          else (Normal (VObj (timed_result d rt)), w1)
      | Throw e => (Throw e, w1)
      | OutOfFuel => (OutOfFuel, w1)
      end.
Proof.
  intros Hop Hax Happ Hresp.
  pose proof Hop as (_ & [lg Hlg] & _ & rl & Hrl & _).
  destruct (makeRequest_settles n params se sr w rl Hop Hrl)
    as (w0 & rl0 & earlier & Hop0 & Hrl0 & Hadm & Hax0 & Happ0 & Hlg0 & Hini0 &
        Hsent0 & Hev0 & _ & Hkl0 & Hcount0 & Hshape & Hrun & _).
  exists (admitted_world w0 rl0), lg, earlier, (clock (ticks w0)).
  assert (Hax_a : _axiosInstance (this (admitted_world w0 rl0)) = Some axios)
    by (cbn; rewrite Hax0; exact Hax).
  assert (Happ_a : _app (this (admitted_world w0 rl0)) = Some app)
    by (cbn; rewrite Happ0; exact Happ).
  split; [cbn; rewrite Hlg0; exact Hlg|].
  split; [cbn; exact Hini0|].
  split; [exact Happ_a|].
  split; [exact Hax_a|].
  split; [apply admitted_world_operational; assumption|].
  split; [exact Hsent0|]. split; [exact Hev0|].
  split.
  { destruct (fst (hasHitRateLimit (clock (S (ticks w))) rl)).
    - right. apply Hshape.
    - left. apply Hshape. }
  split; [exact Hkl0|]. split; [exact Hcount0|].
  split; [exact Hrun|].
  intros d Hnorm.
  apply (execute_answered (clock (ticks w0)) params se sr (admitted_world w0 rl0)
           axios app r d Hax_a Happ_a).
  - change (sent (admitted_world w0 rl0)) with (sent w0). rewrite Hsent0. exact Hresp.
  - exact Hnorm.
Qed.

(** [_makeRequest] when the outbound call throws: the [catch] block
    logs and calls [emit] for an ["error"] notification of kind
    [unknown], in a world [wf] to which the request has been added. *)
Lemma makeRequest_failed n params se sr w app c m :
  operational w -> _app (this w) = Some app ->
  axios_request (length (sent w)) (outbound app params) = Failed c m ->
  exists wf earlier,
    operational wf /\
    _app (this wf) = Some app /\
    _initializedClient (this wf) = _initializedClient (this w) /\
    sent wf = (sent w ++ [outbound app params])%list /\
    emitted wf = (emitted w ++ earlier)%list /\
    admission_prelude earlier /\
    keeps_listeners w wf /\
    listener_count (listeners wf) "error" = listener_count (listeners w) "error" /\
    _makeRequest (S (S n)) params se sr w
    = (emit EVENT_TYPE.ERROR
         (error_payload (param params "type") (VStr m) ERROR_CODE.K_U);;
       ret VUndefined) wf.
Proof.
  intros Hop Happ Hfail.
  pose proof Hop as ([ax Hax] & [lg Hlg] & _ & rl & Hrl & _).
  destruct (makeRequest_settles n params se sr w rl Hop Hrl)
    as (w0 & rl0 & earlier & Hop0 & Hrl0 & Hadm & Hax0 & Happ0 & Hlg0 & Hini0 &
        Hsent0 & Hev0 & _ & Hkl0 & Hcount0 & Hshape & Hrun & _).
  assert (Hex : execute (clock (ticks w0)) params se sr (admitted_world w0 rl0)
                = (Throw (ErrorObject c m),
                   add_sent (outbound app params) (admitted_world w0 rl0))).
  { apply (execute_transport_failure _ _ _ _ _ ax app).
    - cbn. rewrite Hax0. exact Hax.
    - cbn. rewrite Happ0. exact Happ.
    - change (sent (admitted_world w0 rl0)) with (sent w0). rewrite Hsent0. exact Hfail. }
  assert (Hlg' : _logger (this (add_sent (outbound app params) (admitted_world w0 rl0)))
                 = Some lg) by (cbn; rewrite Hlg0; exact Hlg).
  destruct (handle_failure_run params (ErrorObject c m) m _ lg Hlg' eq_refl)
    as [entry Hh].
  eexists. exists earlier.
  split; [|split; [|split; [|split; [|split; [|split; [|split; [|split]]]]]]].
  9:{ rewrite Hrun. unfold try_catch. rewrite Hex. exact Hh. }
  - exact (admitted_world_operational w0 rl0 Hop0 Hrl0).
  - cbn. rewrite Happ0. exact Happ.
  - cbn. exact Hini0.
  - js_reduce. change (sent (admitted_world w0 rl0)) with (sent w0).
    rewrite Hsent0. reflexivity.
  - js_reduce. exact Hev0.
  - destruct (fst (hasHitRateLimit (clock (S (ticks w))) rl)).
    + right. apply Hshape.
    + left. apply Hshape.
  - exact Hkl0.
  - exact Hcount0.
Qed.

(** The error kind of the notification that [classify] builds. *)
Lemma classify_errorCode params message :
  let text_ := String_ numToString message in
  let session_not_found := String.prefix "Session not found." text_ in
  classify params message !! "errorCode" = Some (VStr (
    if is_string (param params "sessionid") "" && session_not_found
    then ERROR_CODE.K_NSID
    else if session_not_found then ERROR_CODE.K_SK
    else if String.eqb text_ "Chat channel not found" then ERROR_CODE.K_NCC
    else if String.prefix "Keyauth API client" text_ then ERROR_CODE.K_ICA
    else ERROR_CODE.K_U)).
Proof.
  intros text_ snf. unfold classify. fold text_. fold snf.
  destruct (is_string (param params "sessionid") "" && snf);
    [|destruct snf; [|destruct (String.eqb text_ "Chat channel not found");
                       [|destruct (String.prefix "Keyauth API client" text_)]]];
    unfold error_payload; apply lookup_insert_eq.
Qed.

Lemma is_string_empty v : is_string v "" = true <-> v = VStr "".
Proof.
  destruct v; simpl; try (split; [discriminate|intros [=]]).
  rewrite String.eqb_eq. split; [intros ->; reflexivity|intros [= ->]; reflexivity].
Qed.

(** C2, as it holds.  Whatever the state of the limiter, when the
    transport answers a request and the normalised result has
    [success === false] with [skipError] off, [_makeRequest] calls
    [emit] for one ["error"] notification whose [errorCode] is chosen
    from the text [String(message)] by the first rule that applies: the
    prefix "Session not found." with [sessionid === ""] gives
    [noSessionID]; the same prefix with any other session id gives
    [seesionKilled]; otherwise the text "Chat channel not found" gives
    [noChatChannel]; otherwise the prefix "Keyauth API client" gives
    [invalidClientApi]; anything else gives [unknown].  With an
    ["error"] listener the notification is published last and the
    promise resolves with the result.  Without one, [emit] throws, the
    [catch] block's own [emit] throws in turn, no ["error"] notification
    is published, and the promise rejects with an unhandled error of
    kind [unknown] whose message prints the classified notification. *)
Theorem failing_result_classification
    (n : nat) (params : gmap string value) (sr : bool) (w : World)
    (axios : AxiosInstance) (app : App) (r : AxiosResponse) :
  operational w ->
  _axiosInstance (this w) = Some axios ->
  _app (this w) = Some app ->
  axios_request (length (sent w)) (outbound app params) = Responded r ->
  (forall rt, exists d,
     normalize (param params "type") (status r) (data r) rt = Normal d /\
     get_prop d "success" = Normal (VBool false)) ->
  exists rt d message c w' evs,
    normalize (param params "type") (status r) (data r) rt = Normal d /\
    get_prop d "message" = Normal message /\
    _makeRequest (S (S n)) params false sr w = (c, w') /\
    emitted w' = (emitted w ++ evs)%list /\
    let payload := classify params message in
    (~ unheard w ->
       c = Normal (VObj (timed_result d rt)) /\
       exists earlier,
         evs = (earlier ++ [(EVENT_TYPE.ERROR, VObj payload)])%list /\
         no_error_among earlier) /\
    (unheard w ->
       c = Throw (Unhandled
                    (VObj (error_payload (param params "type")
                             (VStr (unhandled_message (VObj payload)))
                             ERROR_CODE.K_U))) /\
       no_error_among evs) /\
    payload !! "type" = Some (param params "type") /\
    let text_ := String_ numToString message in
    let sessionid := param params "sessionid" in
    let kind := payload !! "errorCode" in
    (String.prefix "Session not found." text_ = true -> sessionid = VStr "" ->
       kind = Some (VStr ERROR_CODE.K_NSID)) /\
    (String.prefix "Session not found." text_ = true -> sessionid <> VStr "" ->
       kind = Some (VStr ERROR_CODE.K_SK)) /\
    (String.prefix "Session not found." text_ = false ->
     text_ = "Chat channel not found" ->
       kind = Some (VStr ERROR_CODE.K_NCC)) /\
    (String.prefix "Session not found." text_ = false ->
     text_ <> "Chat channel not found" ->
     String.prefix "Keyauth API client" text_ = true ->
       kind = Some (VStr ERROR_CODE.K_ICA)) /\
    (String.prefix "Session not found." text_ = false ->
     text_ <> "Chat channel not found" ->
     String.prefix "Keyauth API client" text_ = false ->
       kind = Some (VStr ERROR_CODE.K_U)).
Proof.
  clear JSON_parse convertTimestampsToLocalDates.
  intros Hop Hax Happ Hresp Hnorm.
  destruct (makeRequest_responded n params false sr w axios app r Hop Hax Happ Hresp)
    as (wa & lg & earlier & st & Hlg & _ & _ & _ & _ & _ & Hev & Hshape & _ & Hcount &
        Hrun & Hex).
  destruct (Hnorm (clock (ticks wa) - st)%Z) as (d & Hd & Hsucc).
  specialize (Hex d Hd). cbv zeta in Hex.
  destruct (get_prop_false_object d Hsucc) as (o & -> & Ho).
  set (message := default VUndefined (o !! "message")).
  set (rt := (clock (ticks wa) - st)%Z) in Hex, Hd.
  set (w1 := answered_world axios app params sr (VObj o) rt wa) in Hex.
  assert (Hmsg : get_prop (VObj o) "message" = Normal message) by reflexivity.
  rewrite Hsucc, Hmsg in Hex. cbn [is_false] in Hex.
  destruct (answered_world_facts axios app params sr (VObj o) rt wa)
    as (Hthis1 & _ & Hev1 & _ & _ & _ & _ & Hcount1).
  fold w1 in Hthis1, Hev1, Hcount1.
  assert (Hquiet : no_error_among
                     (earlier ++ answer_notifications axios params sr (VObj o) rt)).
  { apply Forall_app. split;
      [apply admission_prelude_no_error; exact Hshape
      |apply answer_notifications_no_error]. }
  assert (Hlg1 : _logger (this w1) = Some lg) by (rewrite Hthis1; exact Hlg).
  destruct (handle_failure_run params (Unhandled (VObj (classify params message)))
              (unhandled_message (VObj (classify params message))) w1 lg Hlg1 eq_refl)
    as [entry Hh].
  assert (Hrules :
    classify params message !! "type" = Some (param params "type") /\
    let text_ := String_ numToString message in
    let sessionid := param params "sessionid" in
    let kind := classify params message !! "errorCode" in
    (String.prefix "Session not found." text_ = true -> sessionid = VStr "" ->
       kind = Some (VStr ERROR_CODE.K_NSID)) /\
    (String.prefix "Session not found." text_ = true -> sessionid <> VStr "" ->
       kind = Some (VStr ERROR_CODE.K_SK)) /\
    (String.prefix "Session not found." text_ = false ->
     text_ = "Chat channel not found" ->
       kind = Some (VStr ERROR_CODE.K_NCC)) /\
    (String.prefix "Session not found." text_ = false ->
     text_ <> "Chat channel not found" ->
     String.prefix "Keyauth API client" text_ = true ->
       kind = Some (VStr ERROR_CODE.K_ICA)) /\
    (String.prefix "Session not found." text_ = false ->
     text_ <> "Chat channel not found" ->
     String.prefix "Keyauth API client" text_ = false ->
       kind = Some (VStr ERROR_CODE.K_U))).
  { split.
    { unfold classify.
      repeat match goal with |- context [if ?c then _ else _] => destruct c end;
        unfold error_payload; rewrite !lookup_insert_ne by discriminate;
        apply lookup_insert_eq. }
    intros text_ sessionid kind. subst kind.
    rewrite classify_errorCode. fold text_. fold sessionid.
    repeat split.
    - intros -> ->. reflexivity.
    - intros -> Hsid. rewrite andb_true_r.
      destruct (is_string sessionid "") eqn:E; [|reflexivity].
      apply is_string_empty in E. contradiction.
    - intros -> ->. rewrite andb_false_r. reflexivity.
    - intros -> Hne ->. rewrite andb_false_r.
      destruct (String.eqb_spec text_ "Chat channel not found"); [contradiction|reflexivity].
    - intros -> Hne ->. rewrite andb_false_r.
      destruct (String.eqb_spec text_ "Chat channel not found"); [contradiction|reflexivity]. }
  assert (Hsame : unheard w1 <-> unheard w)
    by (unfold unheard; rewrite Hcount1, Hcount; tauto).
  exists rt, (VObj o), message.
  destruct (emit_error_cases (classify params message) w1) as [[He Hn]|[He Hu]].
  - exists (Normal (VObj (timed_result (VObj o) rt))),
           (deliver (EVENT_TYPE.ERROR, VObj (classify params message)) w1).
    exists ((earlier ++ answer_notifications axios params sr (VObj o) rt)
            ++ [(EVENT_TYPE.ERROR, VObj (classify params message))])%list.
    split; [exact Hd|]. split; [exact Hmsg|].
    split.
    { rewrite Hrun. unfold try_catch. rewrite Hex. unfold bind at 1. rewrite He.
      reflexivity. }
    split; [js_reduce; rewrite Hev1, Hev, <- !app_assoc; reflexivity|].
    cbv zeta. split; [|split; [|exact Hrules]].
    + intros _. split; [reflexivity|]. eexists. split; [reflexivity|exact Hquiet].
    + intros Hu. apply Hsame in Hu. contradiction.
  - pose proof (emit_error_unheard
                  (error_payload (param params "type")
                     (VStr (unhandled_message (VObj (classify params message))))
                     ERROR_CODE.K_U)
                  (add_logged entry w1) Hu) as He2.
    eexists _, (add_logged entry w1).
    exists (earlier ++ answer_notifications axios params sr (VObj o) rt)%list.
    split; [exact Hd|]. split; [exact Hmsg|].
    split.
    { rewrite Hrun. unfold try_catch. rewrite Hex. unfold bind at 1. rewrite He.
      rewrite Hh. unfold bind at 1. rewrite He2. reflexivity. }
    split; [js_reduce; rewrite Hev1, Hev, <- !app_assoc; reflexivity|].
    cbv zeta. split; [|split; [|exact Hrules]].
    + intros Hn. apply Hsame in Hu. contradiction.
    + intros _. split; [reflexivity|exact Hquiet].
Qed.

(** C3, as it holds.  With an ["error"] listener no [throw] leaves
    [_makeRequest], whatever the transport does; when the outbound call
    throws, the failure is logged and reported by one ["error"]
    notification of kind [unknown] carrying the error's message, and the
    promise resolves with [undefined], not with a result.  Without an
    ["error"] listener the [emit] of the [catch] block throws: no
    notification is published and the promise rejects with the
    emitter's unhandled error, whose context is that notification. *)
Theorem transport_failure_contained
    (params : gmap string value) (se sr : bool) (w : World) :
  operational w ->
  (~ unheard w -> forall fuel e, fst (_makeRequest fuel params se sr w) <> Throw e) /\
  (forall n app c m,
     _app (this w) = Some app ->
     axios_request (length (sent w)) (outbound app params) = Failed c m ->
     let notification :=
       error_payload (param params "type") (VStr m) ERROR_CODE.K_U in
     exists w' earlier,
       sent w' = (sent w ++ [outbound app params])%list /\
       no_error_among earlier /\
       (~ unheard w ->
          _makeRequest (S (S n)) params se sr w = (Normal VUndefined, w') /\
          emitted w' =
            (emitted w ++ earlier ++ [(EVENT_TYPE.ERROR, VObj notification)])%list) /\
       (unheard w ->
          _makeRequest (S (S n)) params se sr w
          = (Throw (Unhandled (VObj notification)), w') /\
          emitted w' = (emitted w ++ earlier)%list)).
Proof.
  intros Hop. split.
  - intros Hn fuel. revert w Hop Hn.
    induction fuel as [|fuel IH]; intros w Hop Hn e; [discriminate|].
    rewrite makeRequest_unfold.
    pose proof Hop as (_ & _ & [app Happ] & rl & Hrl & _).
    destruct (fst (hasHitRateLimit (clock (S (ticks w))) rl)) eqn:Hhit.
    + destruct (attempt_request_rejected params se sr w rl Hop Hrl Hhit)
        as (w1 & rl1 & time & Hrun & Hop1 & H).
      rewrite Hrun. apply IH; [exact Hop1|].
      destruct H as (_ & _ & _ & _ & _ & _ & _ & _ & _ & _ & Hls).
      unfold unheard in *.
      rewrite (drop_once_count w w1 EVENT_TYPE.RESPONSE ltac:(discriminate) Hls).
      exact Hn.
    + destruct (attempt_request_admitted_outcome params se sr w rl app Hop Hrl Happ Hhit)
        as (c & w2 & Hrun & [(v & ->)|(p & -> & Hu)] & _).
      * rewrite Hrun. discriminate.
      * contradiction.
  - intros n app c m Happ Hfail notification.
    destruct (makeRequest_failed n params se sr w app c m Hop Happ Hfail)
      as (wf & earlier & _ & _ & _ & Hsent & Hev & Hshape & _ & Hcount & Hrun).
    assert (Hsame : unheard wf <-> unheard w)
      by (unfold unheard; rewrite Hcount; tauto).
    destruct (emit_error_cases notification wf) as [[He Hn]|[He Hu]].
    + exists (deliver (EVENT_TYPE.ERROR, VObj notification) wf), earlier.
      split; [exact Hsent|]. split; [apply admission_prelude_no_error; exact Hshape|].
      split.
      * intros _. split.
        -- rewrite Hrun. unfold bind at 1. fold notification. rewrite He. reflexivity.
        -- js_reduce. rewrite Hev, <- app_assoc. reflexivity.
      * intros Hu. apply Hsame in Hu. contradiction.
    + exists wf, earlier.
      split; [exact Hsent|]. split; [apply admission_prelude_no_error; exact Hshape|].
      split.
      * intros Hn. apply Hsame in Hu. contradiction.
      * intros _. split; [|exact Hev].
        rewrite Hrun. unfold bind at 1. fold notification. rewrite He. reflexivity.
Qed.

(** C5, as it holds.  When the limiter rejects, the pass emits on the
    ["response"] channel a notification whose [type] is ["ratelimit"],
    with a message that ends with the wait estimate of
    [getTimeUntilCanMakeRequestString]; it then waits, which refills
    the bucket, and retries.  The retry is admitted: with fuel for two
    passes [_makeRequest] settles, the request has been handed to axios
    once and [sleep] was called at most once.  The retried pass returns,
    unless it reaches an ["error"] notification on a client without an
    ["error"] listener: then it throws the emitter's unhandled error. *)
Theorem rate_limited_dispatch_retries
    (n : nat) (params : gmap string value) (se sr : bool) (w : World)
    (rl : RateLimiter) (app : App) :
  operational w ->
  _rateLimiter (this w) = Some rl ->
  _app (this w) = Some app ->
  fst (hasHitRateLimit (clock (S (ticks w))) rl) = true ->
  exists w1 rl1 time c w2,
    let wait_text :=
      fst (getTimeUntilCanMakeRequestString numToString
             (clock (S (S (ticks w)))) (clock (S (S (S (ticks w)))))
             (snd (hasHitRateLimit (clock (S (ticks w))) rl))) in
    attempt_request params se sr w = (Normal Retry, w1) /\
    emitted w1 = (emitted w ++
       [(EVENT_TYPE.RESPONSE, VObj (rate_limit_payload wait_text time))])%list /\
    rate_limit_payload wait_text time !! "type" = Some (VStr EVENT_TYPE.RATE_LIMIT) /\
    rate_limit_payload wait_text time !! "message"
      = Some (VStr ("Client Api rate limit hit please wait " ++ wait_text)) /\
    sent w1 = sent w /\
    _rateLimiter (this w1) = Some rl1 /\ tokens rl1 = maxTokens rl1 /\
    fst (hasHitRateLimit (clock (S (ticks w1))) rl1) = false /\
    _makeRequest (S (S n)) params se sr w = (c, w2) /\
    ((exists v, c = Normal v /\
                attempt_request params se sr w1 = (Normal (Finished v), w2)) \/
     (exists p, c = Throw (Unhandled p) /\
                attempt_request params se sr w1 = (Throw (Unhandled p), w2) /\
                unheard w)) /\
    sent w2 = (sent w ++ [outbound app params])%list /\
    (length (slept w2) <= S (length (slept w)))%nat.
Proof.
  intros Hop Hrl Happ Hhit.
  destruct (attempt_request_rejected params se sr w rl Hop Hrl Hhit)
    as (w1 & rl1 & time & Hrun & Hop1 & Hrl1 & Hfull & _ & Happ1 & _ &
        _ & Hev1 & Hsent1 & Hslept1 & _ & Hls1).
  pose proof Hop1 as (_ & _ & _ & rl1' & Hrl1' & Hconf1 & Hlast1).
  rewrite Hrl1 in Hrl1'. injection Hrl1' as <-.
  assert (Hadm : fst (hasHitRateLimit (clock (S (ticks w1))) rl1) = false).
  { apply full_bucket_admits; try assumption.
    etransitivity; [exact Hlast1|]. apply clock_monotone. lia. }
  assert (Happ1' : _app (this w1) = Some app) by (rewrite Happ1; exact Happ).
  destruct (attempt_request_admitted_outcome params se sr w1 rl1 app Hop1 Hrl1 Happ1' Hadm)
    as (c2 & w2 & Hrun2 & Hc2 & _ & _ & _ & Hsent2 & Hslept2 & _).
  exists w1, rl1, time.
  exists (match c2 with
          | Normal (Finished v) => Normal v
          | Normal Retry => OutOfFuel
          | Throw e => Throw e
          | OutOfFuel => OutOfFuel
          end), w2.
  intros wait_text.
  split; [exact Hrun|]. split; [exact Hev1|].
  split.
  { unfold rate_limit_payload. rewrite !lookup_insert_ne by discriminate.
    apply lookup_insert_eq. }
  split.
  { unfold rate_limit_payload. rewrite lookup_insert_ne by discriminate.
    apply lookup_insert_eq. }
  split; [exact Hsent1|]. split; [exact Hrl1|]. split; [exact Hfull|].
  split; [exact Hadm|].
  split.
  { rewrite makeRequest_unfold, Hrun, makeRequest_unfold, Hrun2.
    destruct Hc2 as [(v & ->)|(p & -> & _)]; reflexivity. }
  split.
  { destruct Hc2 as [(v & ->)|(p & -> & Hu)].
    - left. exists v. split; [reflexivity|exact Hrun2].
    - right. exists p. split; [reflexivity|]. split; [exact Hrun2|].
      unfold unheard in *.
      rewrite <- (drop_once_count w w1 EVENT_TYPE.RESPONSE ltac:(discriminate) Hls1).
      exact Hu. }
  split; [rewrite Hsent2, Hsent1; reflexivity|].
  rewrite Hslept2. exact Hslept1.
Qed.

(** ** The initialization guard *)

Lemma checkInitialization_run w :
  operational w ->
  _checkInitialization w
  = if _initializedClient (this w) then (Normal true, w)
    else (emit EVENT_TYPE.ERROR
            (error_payload (VStr EVENT_TYPE.INIT) (VStr INIT_REQUIRED) ERROR_CODE.K_NI);;
          ret true)
           (add_logged {| level := "error"; tag := EVENT_TYPE.INIT;
                          text := INIT_REQUIRED |} w).
Proof.
  intros ([ax Hax] & [lg Hlg] & [app Happ] & rl & Hrl & _).
  unfold _checkInitialization. rewrite Hax, Hlg, Happ, Hrl.
  destruct (_initializedClient (this w)); cbn [negb].
  - reflexivity.
  - unfold bind at 1. unfold bind at 1.
    rewrite (logger_call_run _ _ _ _ lg Hlg).
    unfold bind, ret. destruct (emit _ _ _) as [[[]| |] w']; reflexivity.
Qed.

(** When the notification can be published, the guard answers [true]. *)
Lemma checkInitialization_heard w :
  operational w -> (_initializedClient (this w) = false -> ~ unheard w) ->
  _checkInitialization w
  = (Normal true, if _initializedClient (this w) then w else reported_uninitialized w).
Proof.
  intros Hop Hn. rewrite (checkInitialization_run w Hop).
  destruct (_initializedClient (this w)); [reflexivity|].
  unfold bind at 1. rewrite emit_error_listened by (apply Hn; reflexivity).
  reflexivity.
Qed.





(** C10.  On a client whose [_initializedClient] flag is set, [init]
    returns [{success: true, message: "Already initialized", time}]
    with [time <= 0]; the client's fields, the limiter among them, are
    unchanged, nothing is emitted, nothing is handed to axios, there is
    no sleep, and the clock was read by [init] itself only. *)
Theorem init_already_initialized (fuel : nat) (w : World) (lg : Logger) :
  _logger (this w) = Some lg ->
  _initializedClient (this w) = true ->
  exists time w',
    init fuel w = (Normal (already_initialized time), w') /\
    (time <= 0)%Z /\
    this w' = this w /\
    emitted w' = emitted w /\
    sent w' = sent w /\
    slept w' = slept w /\
    ticks w' = S (S (ticks w)).
Proof.
  intros Hlg Hini.
  exists (clock (ticks w) - clock (S (ticks w)))%Z.
  destruct w as [[ax lg' app ini rl ct] t ev lgd snt slp ls].
  cbn [this _logger _initializedClient ticks] in *. subst.
  unfold init. js_unfold. js_reduce.
  eexists. split; [reflexivity|]. js_reduce.
  split; [|repeat split].
  pose proof (clock_monotone t (S t)). lia.
Qed.

(** ** Further facts about a dispatch *)

Lemma operational_later w w' :
  operational w -> this w' = this w -> (ticks w <= ticks w')%nat -> operational w'.
Proof.
  intros (H1 & H2 & H3 & rl & H4 & H5 & H6) Hthis Ht.
  unfold operational. rewrite Hthis. repeat split; try assumption.
  exists rl. repeat split; try apply H5; try assumption.
  etransitivity; [exact H6|]. apply clock_monotone. exact Ht.
Qed.

(** [_makeRequest] on a request that the transport answers with a
    payload that normalises to [d] whatever the response time. *)
Lemma makeRequest_answered n params se sr w axios app r d :
  operational w ->
  _axiosInstance (this w) = Some axios -> _app (this w) = Some app ->
  axios_request (length (sent w)) (outbound app params) = Responded r ->
  (forall rt, normalize (param params "type") (status r) (data r) rt = Normal d) ->
  exists wa lg earlier startTime rt,
    _logger (this wa) = Some lg /\
    _initializedClient (this wa) = _initializedClient (this w) /\
    _app (this wa) = Some app /\
    _axiosInstance (this wa) = Some axios /\
    operational wa /\
    sent wa = sent w /\
    emitted wa = (emitted w ++ earlier)%list /\
    admission_prelude earlier /\
    keeps_listeners w wa /\
    listener_count (listeners wa) "error" = listener_count (listeners w) "error" /\
    _makeRequest (S (S n)) params se sr w
    = try_catch (execute startTime params se sr) (handle_failure params) wa /\
    execute startTime params se sr wa =
    let w1 := answered_world axios app params sr d rt wa in
    match get_prop d "success" with
    | Normal success =>
        if is_false success then
          if se then (Normal VUndefined, w1)
          else
            match get_prop d "message" with
            | Normal message =>
                (emit EVENT_TYPE.ERROR (classify params message);;
                 ret (VObj (timed_result d rt))) w1
            | Throw e => (Throw e, w1)
            | OutOfFuel => (OutOfFuel, w1)
            end
        else (Normal (VObj (timed_result d rt)), w1)
    | Throw e => (Throw e, w1)
    | OutOfFuel => (OutOfFuel, w1)
    end.
Proof.
  intros Hop Hax Happ Hresp Hnorm.
  destruct (makeRequest_responded n params se sr w axios app r Hop Hax Happ Hresp)
    as (wa & lg & earlier & st & H1 & H2 & H3 & H4 & H5 & H6 & H7 & H8 & H9 & H10 &
        Hrun & Hex).
  exists wa, lg, earlier, st, (clock (ticks wa) - st)%Z.
  do 10 (split; [assumption|]). split; [exact Hrun|].
  apply Hex. apply Hnorm.
Qed.

(** X10.  When the transport answers and the normalised payload does not
    have [success === false], [_makeRequest] resolves with the payload's
    properties and [time]; it emits ["response"] (unless [skipResponse])
    and then ["request"], and no ["error"] notification. *)
Theorem answered_request_result
    (n : nat) (params : gmap string value) (se sr : bool) (w : World)
    (axios : AxiosInstance) (app : App) (r : AxiosResponse) (d success : value) :
  operational w ->
  _axiosInstance (this w) = Some axios -> _app (this w) = Some app ->
  axios_request (length (sent w)) (outbound app params) = Responded r ->
  (forall rt, normalize (param params "type") (status r) (data r) rt = Normal d) ->
  get_prop d "success" = Normal success -> is_false success = false ->
  exists rt w' earlier,
    _makeRequest (S (S n)) params se sr w = (Normal (VObj (timed_result d rt)), w') /\
    emitted w' = (emitted w ++ earlier ++ answer_notifications axios params sr d rt)%list /\
    no_error_among (earlier ++ answer_notifications axios params sr d rt) /\
    sent w' = (sent w ++ [outbound app params])%list.
Proof.
  intros Hop Hax Happ Hresp Hnorm Hsucc Hnf.
  destruct (makeRequest_answered n params se sr w axios app r d Hop Hax Happ Hresp Hnorm)
    as (wa & lg & earlier & st & rt & _ & _ & _ & _ & _ & Hsent & Hev & Hshape & _ & _ &
        Hrun & Hex).
  cbv zeta in Hex. rewrite Hsucc, Hnf in Hex.
  destruct (answered_world_facts axios app params sr d rt wa)
    as (_ & _ & Hev1 & _ & Hsent1 & _).
  exists rt. eexists. exists earlier.
  split; [rewrite Hrun; unfold try_catch; rewrite Hex; reflexivity|].
  rewrite Hev1, Hsent1, Hev, Hsent, <- app_assoc.
  split; [reflexivity|]. split; [|reflexivity].
  apply Forall_app. split;
    [apply admission_prelude_no_error; exact Hshape|apply answer_notifications_no_error].
Qed.

(** X11.  With [skipError], a result that has [success === false] is
    dropped: [_makeRequest] resolves with [undefined] and emits no
    ["error"] notification, while ["response"] (unless [skipResponse])
    and ["request"] are emitted as for any answer. *)
Theorem skipError_drops_failing_result
    (n : nat) (params : gmap string value) (sr : bool) (w : World)
    (axios : AxiosInstance) (app : App) (r : AxiosResponse) (d : value) :
  operational w ->
  _axiosInstance (this w) = Some axios -> _app (this w) = Some app ->
  axios_request (length (sent w)) (outbound app params) = Responded r ->
  (forall rt, normalize (param params "type") (status r) (data r) rt = Normal d) ->
  get_prop d "success" = Normal (VBool false) ->
  exists rt w' earlier,
    _makeRequest (S (S n)) params true sr w = (Normal VUndefined, w') /\
    emitted w' = (emitted w ++ earlier ++ answer_notifications axios params sr d rt)%list /\
    no_error_among (earlier ++ answer_notifications axios params sr d rt) /\
    sent w' = (sent w ++ [outbound app params])%list.
Proof.
  intros Hop Hax Happ Hresp Hnorm Hsucc.
  destruct (makeRequest_answered n params true sr w axios app r d Hop Hax Happ Hresp Hnorm)
    as (wa & lg & earlier & st & rt & _ & _ & _ & _ & _ & Hsent & Hev & Hshape & _ & _ &
        Hrun & Hex).
  cbv zeta in Hex. rewrite Hsucc in Hex. cbn [is_false] in Hex.
  destruct (answered_world_facts axios app params sr d rt wa)
    as (_ & _ & Hev1 & _ & Hsent1 & _).
  exists rt. eexists. exists earlier.
  split; [rewrite Hrun; unfold try_catch; rewrite Hex; reflexivity|].
  rewrite Hev1, Hsent1, Hev, Hsent, <- app_assoc.
  split; [reflexivity|]. split; [|reflexivity].
  apply Forall_app. split;
    [apply admission_prelude_no_error; exact Hshape|apply answer_notifications_no_error].
Qed.

(** X12.  A [null] payload (for a request that is not a ["log"] or
    ["webhook"] request answered with 200) breaks the test on
    [response.data.success]: after the ["response"] and ["request"]
    notifications the [TypeError] is caught and handed to [emit] as an
    ["error"] notification of kind [unknown].  With an ["error"]
    listener it is published and [_makeRequest] resolves with
    [undefined]; without one [_makeRequest] rejects with the emitter's
    unhandled error. *)
Theorem null_payload_reported_unknown
    (n : nat) (params : gmap string value) (se sr : bool) (w : World)
    (axios : AxiosInstance) (app : App) (status_ : Z) :
  operational w ->
  _axiosInstance (this w) = Some axios -> _app (this w) = Some app ->
  axios_request (length (sent w)) (outbound app params)
  = Responded {| status := status_; data := VNull |} ->
  ~ (param params "type" = VStr EVENT_TYPE.LOG /\ status_ = 200%Z) ->
  ~ (param params "type" = VStr EVENT_TYPE.WEBHOOK /\ status_ = 200%Z) ->
  let report :=
    unknown_error params "Cannot read properties of null (reading 'success')" in
  exists rt w' earlier,
    sent w' = (sent w ++ [outbound app params])%list /\
    (~ unheard w ->
       _makeRequest (S (S n)) params se sr w = (Normal VUndefined, w') /\
       emitted w' =
         (emitted w ++ earlier ++ answer_notifications axios params sr VNull rt
          ++ [report])%list) /\
    (unheard w ->
       _makeRequest (S (S n)) params se sr w = (Throw (Unhandled (snd report)), w') /\
       emitted w' =
         (emitted w ++ earlier ++ answer_notifications axios params sr VNull rt)%list).
Proof.
  clear JSON_parse convertTimestampsToLocalDates.
  intros Hop Hax Happ Hresp Hlog Hweb report.
  assert (Hnorm : forall rt, normalize (param params "type") status_ VNull rt = Normal VNull).
  { intros rt. unfold normalize, webhook_rule, log_rule, sentinel_rule.
    rewrite (rule_guard_false _ _ _ Hlog), (rule_guard_false _ _ _ Hweb). reflexivity. }
  destruct (makeRequest_answered n params se sr w axios app _ VNull Hop Hax Happ Hresp Hnorm)
    as (wa & lg & earlier & st & rt & Hlg & _ & _ & _ & _ & Hsent & Hev & Hshape & _ &
        Hcount & Hrun & Hex).
  cbv zeta in Hex. cbn [get_prop] in Hex.
  destruct (answered_world_facts axios app params sr VNull rt wa)
    as (Hthis1 & _ & Hev1 & _ & Hsent1 & _ & _ & Hcount1).
  set (w1 := answered_world axios app params sr VNull rt wa) in Hex, Hthis1, Hev1,
    Hsent1, Hcount1.
  assert (Hlg1 : _logger (this w1) = Some lg) by (rewrite Hthis1; exact Hlg).
  destruct (handle_failure_run params
              (type_error_read "null" "success")
              "Cannot read properties of null (reading 'success')" w1 lg Hlg1 eq_refl)
    as [entry Hh].
  assert (Hsame : unheard (add_logged entry w1) <-> unheard w)
    by (unfold unheard; js_reduce; rewrite Hcount1, Hcount; tauto).
  exists rt.
  destruct (emit_error_cases (error_payload (param params "type")
              (VStr "Cannot read properties of null (reading 'success')") ERROR_CODE.K_U)
              (add_logged entry w1)) as [[He Hn]|[He Hu]].
  - eexists. exists earlier.
    split; [|split].
    2:{ intros _. split.
        - rewrite Hrun. unfold try_catch. rewrite Hex, Hh. unfold bind at 1.
          rewrite He. reflexivity.
        - js_reduce. rewrite Hev1, Hev. unfold report, unknown_error.
          rewrite <- !app_assoc. reflexivity. }
    + js_reduce. rewrite Hsent1, Hsent. reflexivity.
    + intros Hu. apply Hsame in Hu. contradiction.
  - exists (add_logged entry w1), earlier.
    split; [|split].
    3:{ intros _. split.
        - rewrite Hrun. unfold try_catch. rewrite Hex, Hh. unfold bind at 1.
          rewrite He. reflexivity.
        - js_reduce. rewrite Hev1, Hev, <- !app_assoc. reflexivity. }
    + js_reduce. rewrite Hsent1, Hsent. reflexivity.
    + intros Hn. apply Hsame in Hu. contradiction.
Qed.

(** [_makeRequest] when the outbound call throws, on a client with an
    ["error"] listener. *)
Lemma makeRequest_failed_heard n params se sr w app c m :
  operational w -> ~ unheard w -> _app (this w) = Some app ->
  axios_request (length (sent w)) (outbound app params) = Failed c m ->
  exists w' earlier,
    _makeRequest (S (S n)) params se sr w = (Normal VUndefined, w') /\
    operational w' /\
    _app (this w') = Some app /\
    _initializedClient (this w') = _initializedClient (this w) /\
    sent w' = (sent w ++ [outbound app params])%list /\
    emitted w' = (emitted w ++ earlier ++ [unknown_error params m])%list /\
    admission_prelude earlier /\
    keeps_listeners w w'.
Proof.
  intros Hop Hn Happ Hfail.
  destruct (makeRequest_failed n params se sr w app c m Hop Happ Hfail)
    as (wf & earlier & Hopf & Happf & Hinif & Hsent & Hev & Hshape & Hkl & Hcount & Hrun).
  assert (Hnf : ~ unheard wf) by (unfold unheard in *; rewrite Hcount; exact Hn).
  eexists. exists earlier.
  split.
  { rewrite Hrun. unfold bind at 1. rewrite emit_error_listened by exact Hnf.
    reflexivity. }
  split; [exact Hopf|]. split; [exact Happf|]. split; [exact Hinif|].
  split; [exact Hsent|].
  split; [js_reduce; rewrite Hev, <- app_assoc; reflexivity|].
  split; [exact Hshape|].
  apply (keeps_listeners_trans _ wf); [exact Hkl|apply keeps_listeners_deliver].
Qed.

(** The opening of an adapter on a client with an ["error"] listener: a
    log entry, the guard, a second log entry. *)
Lemma guarded_run {A} tag_ first second (k : M A) w :
  operational w -> subscribed w ->
  (logger_call "debug" tag_ first;;
   (let* ok := _checkInitialization in
    if negb ok then rejected_uninitialized
    else (logger_call "debug" tag_ second;; k))) w
  = k (guarded_world tag_ first second w).
Proof.
  intros Hop Hsub. pose proof Hop as (_ & [lg Hlg] & _).
  rewrite (bind_run _ _ w tt (add_logged {| level := "debug"; tag := tag_; text := first |} w))
    by (apply (logger_call_run _ _ _ _ lg); exact Hlg).
  erewrite bind_run
    by (apply checkInitialization_heard;
        [exact Hop|intros _; apply subscribed_heard; exact Hsub]).
  cbn [negb].
  erewrite bind_run.
  2:{ apply (logger_call_run _ _ _ _ lg).
      destruct (_initializedClient _); exact Hlg. }
  reflexivity.
Qed.

Lemma guarded_world_facts tag_ first second w :
  operational w -> subscribed w ->
  operational (guarded_world tag_ first second w) /\
  subscribed (guarded_world tag_ first second w) /\
  this (guarded_world tag_ first second w) = this w /\
  sent (guarded_world tag_ first second w) = sent w /\
  emitted (guarded_world tag_ first second w) = (emitted w ++ guard_notifications w)%list.
Proof.
  intros Hop Hsub. unfold guarded_world, guard_notifications.
  js_reduce. destruct (_initializedClient (this w)).
  - split; [exact Hop|]. split; [exact Hsub|]. split; [reflexivity|].
    split; [reflexivity|]. symmetry. apply app_nil_r.
  - split; [exact Hop|]. split; [exact Hsub|]. split; [reflexivity|]. split; reflexivity.
Qed.

Lemma checked_world_facts w :
  operational w -> subscribed w ->
  let w1 := if _initializedClient (this w) then w else reported_uninitialized w in
  operational w1 /\ subscribed w1 /\ this w1 = this w /\ sent w1 = sent w /\
  emitted w1 = (emitted w ++ guard_notifications w)%list.
Proof.
  intros Hop Hsub. unfold guard_notifications. cbv zeta.
  destruct (_initializedClient (this w)).
  - split; [exact Hop|]. split; [exact Hsub|]. split; [reflexivity|].
    split; [reflexivity|]. symmetry. apply app_nil_r.
  - split; [exact Hop|]. split; [exact Hsub|]. split; [reflexivity|]. split; reflexivity.
Qed.

Lemma guard_notifications_this w w' :
  this w' = this w -> guard_notifications w' = guard_notifications w.
Proof. intros H. unfold guard_notifications. now rewrite H. Qed.

(** [check] when the outbound call throws: it resolves with [{}]. *)
Lemma check_failed_run n sessionId sr w app c m :
  operational w -> subscribed w -> _app (this w) = Some app ->
  axios_request (length (sent w)) (outbound app (checkParams sessionId)) = Failed c m ->
  exists w' earlier,
    check (S (S n)) sessionId sr w = (Normal (VObj ∅), w') /\
    operational w' /\ subscribed w' /\
    _app (this w') = Some app /\
    _initializedClient (this w') = _initializedClient (this w) /\
    sent w' = (sent w ++ [outbound app (checkParams sessionId)])%list /\
    emitted w' = (emitted w ++ guard_notifications w ++ earlier
                    ++ [unknown_error (checkParams sessionId) m])%list /\
    admission_prelude earlier.
Proof.
  intros Hop Hsub Happ Hfail.
  set (first := "Checking if current session is validated.").
  set (second := "Sending check request.").
  destruct (guarded_world_facts EVENT_TYPE.CHECK first second w Hop Hsub)
    as (Hop1 & Hsub1 & Hthis1 & Hsent1 & Hev1).
  assert (Happ1 : _app (this (guarded_world EVENT_TYPE.CHECK first second w)) = Some app)
    by (rewrite Hthis1; exact Happ).
  rewrite <- Hsent1 in Hfail.
  destruct (makeRequest_failed_heard n (checkParams sessionId) false sr _ app c m Hop1
              (subscribed_heard _ Hsub1) Happ1 Hfail)
    as (w2 & earlier & Hrun & Hop2 & Happ2 & Hini2 & Hsent2 & Hev2 & Hshape & Hkl2).
  pose proof Hop2 as (_ & [lg Hlg] & _).
  unfold check. cbv zeta.
  rewrite (guarded_run EVENT_TYPE.CHECK first second _ w Hop Hsub).
  fold (checkParams sessionId).
  erewrite bind_run by exact Hrun.
  erewrite bind_run by (apply (logger_call_run _ _ _ _ lg); exact Hlg).
  eexists. exists earlier.
  split; [reflexivity|]. js_reduce.
  split; [exact Hop2|].
  split; [exact (subscribed_keeps _ _ Hkl2 Hsub1)|].
  split; [exact Happ2|].
  split; [rewrite Hini2, Hthis1; reflexivity|].
  split; [rewrite Hsent2, Hsent1; reflexivity|].
  split; [|exact Hshape].
  rewrite Hev2, Hev1, <- !app_assoc. reflexivity.
Qed.

Lemma checkUserLogin_failed_run n sessionId w app c m :
  operational w -> subscribed w -> _app (this w) = Some app ->
  axios_request (length (sent w)) (outbound app (checkParams sessionId)) = Failed c m ->
  exists w' earlier,
    _checkUserLogin (S (S n)) sessionId w = (Normal false, w') /\
    operational w' /\
    _app (this w') = Some app /\
    _initializedClient (this w') = _initializedClient (this w) /\
    sent w' = (sent w ++ [outbound app (checkParams sessionId)])%list /\
    emitted w' = (emitted w ++ guard_notifications w ++ guard_notifications w ++ earlier
                    ++ [unknown_error (checkParams sessionId) m; not_logged_in_error])%list /\
    admission_prelude earlier.
Proof.
  intros Hop Hsub Happ Hfail.
  destruct (checked_world_facts w Hop Hsub) as (Hop1 & Hsub1 & Hthis1 & Hsent1 & Hev1).
  set (w1 := if _initializedClient (this w) then w else reported_uninitialized w)
    in Hop1, Hsub1, Hthis1, Hsent1, Hev1.
  assert (Happ1 : _app (this w1) = Some app) by (rewrite Hthis1; exact Happ).
  rewrite <- Hsent1 in Hfail.
  destruct (check_failed_run n sessionId true w1 app c m Hop1 Hsub1 Happ1 Hfail)
    as (w2 & earlier & Hrun & Hop2 & Hsub2 & Happ2 & Hini2 & Hsent2 & Hev2 & Hshape).
  pose proof Hop2 as (_ & [lg Hlg] & _).
  unfold _checkUserLogin.
  erewrite bind_run
    by (apply checkInitialization_heard;
        [exact Hop|intros _; apply subscribed_heard; exact Hsub]).
  cbn [negb]. fold w1.
  erewrite bind_run by exact Hrun.
  unfold lift at 1. unfold bind at 1. cbn [get_prop].
  rewrite lookup_empty. cbn [default from_option truthy].
  erewrite bind_run by (apply (logger_call_run _ _ _ _ lg); exact Hlg).
  erewrite bind_run by (apply emit_heard; exact Hsub2).
  unfold ret.
  eexists. exists earlier.
  split; [reflexivity|]. js_reduce.
  split; [exact Hop2|]. split; [exact Happ2|].
  split; [rewrite Hini2, Hthis1; reflexivity|].
  split; [rewrite Hsent2, Hsent1; reflexivity|].
  split; [|exact Hshape].
  rewrite Hev2, Hev1, (guard_notifications_this w w1 Hthis1), <- !app_assoc.
  reflexivity.
Qed.

(** X13.  On a client with an ["error"] listener, when the session
    check of [logout] cannot reach the server, [logout] rejects with
    [undefined] after two ["error"] notifications, of kinds [unknown]
    and [notLoggedIn]; the check request is the only request handed to
    axios, the logout request is never sent and no ["logout"]
    notification is emitted. *)
Theorem logout_rejects_on_transport_failure
    (n : nat) (sessionId : string) (w : World) (app : App) (c m : string) :
  operational w -> subscribed w -> _app (this w) = Some app ->
  axios_request (length (sent w)) (outbound app (checkParams sessionId)) = Failed c m ->
  exists w' earlier,
    logout (S (S n)) sessionId w = (Throw (Rejected VUndefined), w') /\
    sent w' = (sent w ++ [outbound app (checkParams sessionId)])%list /\
    emitted w' = (emitted w ++ guard_notifications w ++ guard_notifications w ++ earlier
                    ++ [unknown_error (checkParams sessionId) m; not_logged_in_error])%list /\
    admission_prelude earlier.
Proof.
  intros Hop Hsub Happ Hfail.
  pose proof Hop as (_ & [lg Hlg] & _).
  set (w_a := add_logged {| level := "debug"; tag := MORE_EVENT_TYPE.LOG_OUT;
                           text := "Logging out user." |} w).
  assert (Hop_a : operational w_a) by exact Hop.
  assert (Hsub_a : subscribed w_a) by exact Hsub.
  assert (Happ_a : _app (this w_a) = Some app) by exact Happ.
  assert (Hfail_a : axios_request (length (sent w_a)) (outbound app (checkParams sessionId))
                    = Failed c m) by exact Hfail.
  destruct (checkUserLogin_failed_run n sessionId w_a app c m Hop_a Hsub_a Happ_a Hfail_a)
    as (w2 & earlier & Hrun & _ & _ & _ & Hsent2 & Hev2 & Hshape).
  unfold logout.
  rewrite (bind_run _ _ w tt w_a) by (apply (logger_call_run _ _ _ _ lg); exact Hlg).
  erewrite bind_run by exact Hrun.
  cbn [negb]. unfold throw.
  exists w2, earlier.
  split; [reflexivity|]. split; [exact Hsent2|]. split; [exact Hev2|exact Hshape].
Qed.

(** X14.  [metaData.get] goes through the same session check: on a
    client with an ["error"] listener, when the check cannot reach the
    server it rejects with [undefined] and the request for the user
    variable is never sent. *)
Theorem metaData_get_rejects_on_transport_failure
    (n : nat) (sessionId : string) (skipError skipResponse : bool)
    (w : World) (app : App) (c m : string) :
  operational w -> subscribed w -> _app (this w) = Some app ->
  axios_request (length (sent w)) (outbound app (checkParams sessionId)) = Failed c m ->
  exists w' earlier,
    metaData_get (S (S n)) sessionId skipError skipResponse w
    = (Throw (Rejected VUndefined), w') /\
    sent w' = (sent w ++ [outbound app (checkParams sessionId)])%list /\
    emitted w' = (emitted w ++ guard_notifications w ++ guard_notifications w
                    ++ guard_notifications w ++ earlier
                    ++ [unknown_error (checkParams sessionId) m; not_logged_in_error])%list /\
    admission_prelude earlier.
Proof.
  intros Hop Hsub Happ Hfail.
  destruct (checked_world_facts w Hop Hsub) as (Hop1 & Hsub1 & Hthis1 & Hsent1 & Hev1).
  set (w1 := if _initializedClient (this w) then w else reported_uninitialized w)
    in Hop1, Hsub1, Hthis1, Hsent1, Hev1.
  assert (Happ1 : _app (this w1) = Some app) by (rewrite Hthis1; exact Happ).
  rewrite <- Hsent1 in Hfail.
  destruct (checkUserLogin_failed_run n sessionId w1 app c m Hop1 Hsub1 Happ1 Hfail)
    as (w2 & earlier & Hrun & _ & _ & _ & Hsent2 & Hev2 & Hshape).
  unfold metaData_get.
  erewrite bind_run
    by (apply checkInitialization_heard;
        [exact Hop|intros _; apply subscribed_heard; exact Hsub]).
  cbn [negb]. fold w1.
  erewrite bind_run by exact Hrun.
  cbn [negb]. unfold throw.
  exists w2, earlier.
  split; [reflexivity|]. split; [rewrite Hsent2, Hsent1; reflexivity|].
  split; [|exact Hshape].
  rewrite Hev2, Hev1, (guard_notifications_this w w1 Hthis1), <- !app_assoc.
  reflexivity.
Qed.

(** [init] on a client whose flag is set. *)
Lemma init_initialized_run fuel w lg :
  _logger (this w) = Some lg -> _initializedClient (this w) = true ->
  exists time w',
    init fuel w = (Normal (already_initialized time), w') /\
    this w' = this w /\ emitted w' = emitted w /\ sent w' = sent w.
Proof.
  intros Hlg Hini.
  destruct w as [[ax lg' app ini rl ct] t ev lgd snt slp ls].
  cbn [this _logger _initializedClient] in *. subst.
  unfold init. js_unfold. js_reduce.
  eexists. eexists. split; [reflexivity|]. js_reduce. repeat split.
Qed.

(** X15.  On a client with an ["error"] listener, [init] on a client
    that is not initialized sends one request and then sets
    [_initializedClient], whatever the transport did with the request:
    also when the call threw or the server refused.  It emits ["init"]
    with a copy of the result last.  Any later [init] answers
    ["Already initialized"] and sends and emits nothing. *)
Theorem init_marks_initialized (n fuel : nat) (w : World) (app : App) :
  operational w -> subscribed w -> _app (this w) = Some app ->
  _initializedClient (this w) = false ->
  exists response w1 evs time w2,
    init (S (S n)) w = (Normal (VObj (spread response)), w1) /\
    _initializedClient (this w1) = true /\
    sent w1 = (sent w ++ [outbound app (initParams app)])%list /\
    emitted w1 = (emitted w ++ evs ++ [(EVENT_TYPE.INIT, VObj (spread response))])%list /\
    init fuel w1 = (Normal (already_initialized time), w2) /\
    sent w2 = sent w1 /\ emitted w2 = emitted w1.
Proof.
  intros Hop Hsub Happ Hini.
  pose proof Hop as (Hax & [lg Hlg] & _ & rl & Hrl & Hconf & Hlast).
  set (w_b := add_logged {| level := "debug"; tag := EVENT_TYPE.INIT;
                           text := "Sending initialization request." |}
                (add_logged {| level := "debug"; tag := EVENT_TYPE.INIT;
                               text := "Initializing the API." |}
                   (set_ticks (S (ticks w)) w))).
  assert (Hop_b : operational w_b).
  { split; [exact Hax|]. split; [eexists; exact Hlg|]. split; [eexists; exact Happ|].
    exists rl. split; [exact Hrl|]. split; [exact Hconf|].
    etransitivity; [exact Hlast|]. apply clock_monotone. cbn. lia. }
  assert (Happ_b : _app (this w_b) = Some app) by exact Happ.
  assert (Hn_b : ~ unheard w_b) by (apply subscribed_heard; exact Hsub).
  destruct (makeRequest_completes n (initParams app) false false w_b app Hop_b Hn_b Happ_b)
    as (response & w' & Hrun & Hop' & Happ' & Hini' & Hsent' & _ & _ & evs & Hev').
  pose proof Hop' as (_ & [lg' Hlg'] & _).
  set (w1 := add_logged {| level := "debug"; tag := EVENT_TYPE.INIT;
                          text := "Initialization complete. Returning response." |}
               (deliver (EVENT_TYPE.INIT, VObj (spread response))
                  (set_this (with_initializedClient true (this w')) w'))).
  assert (Hlg1 : _logger (this w1) = Some lg') by exact Hlg'.
  assert (Hini1 : _initializedClient (this w1) = true) by reflexivity.
  destruct (init_initialized_run fuel w1 lg' Hlg1 Hini1) as (time & w2 & Hrun2 & _ & Hev2 & Hsent2).
  exists response, w1, evs, time, w2.
  split.
  { unfold init.
    erewrite bind_run by reflexivity.
    erewrite bind_run by (apply (logger_call_run _ _ _ _ lg); exact Hlg).
    erewrite bind_run by reflexivity.
    js_reduce. rewrite Hini.
    erewrite bind_run by (unfold field; js_reduce; rewrite Happ; reflexivity).
    cbv zeta.
    erewrite bind_run by (apply (logger_call_run _ _ _ _ lg); exact Hlg).
    erewrite bind_run by exact Hrun.
    erewrite bind_run by reflexivity.
    erewrite bind_run by (apply emit_plain; discriminate).
    erewrite bind_run by (apply (logger_call_run _ _ _ _ lg'); exact Hlg').
    reflexivity. }
  split; [reflexivity|].
  split; [exact Hsent'|].
  split; [subst w1; js_reduce; rewrite Hev', <- app_assoc; reflexivity|].
  split; [exact Hrun2|]. split; [exact Hsent2|exact Hev2].
Qed.

(** X16.  [login] when the outbound call throws, on a client with an
    ["error"] listener: the dispatcher resolves with [undefined],
    [response?.success] is falsy, and [login] resolves with [{}]; no
    ["login"] notification is emitted and no further request is sent. *)
Theorem login_transport_failure
    (n : nat) (username password : string) (hwid : value) (sessionId : string)
    (w : World) (app : App) (c m : string) :
  operational w -> subscribed w -> _app (this w) = Some app ->
  axios_request (length (sent w))
    (outbound app (loginParams username password hwid sessionId)) = Failed c m ->
  exists w' earlier,
    login (S (S n)) username password hwid sessionId w = (Normal (VObj ∅), w') /\
    sent w' = (sent w ++ [outbound app (loginParams username password hwid sessionId)])%list /\
    emitted w' = (emitted w ++ guard_notifications w ++ earlier
                    ++ [unknown_error (loginParams username password hwid sessionId) m])%list /\
    admission_prelude earlier.
Proof.
  intros Hop Hsub Happ Hfail.
  set (first := "Logging in user.").
  set (second := "Sending login request.").
  destruct (guarded_world_facts EVENT_TYPE.LOG_IN first second w Hop Hsub)
    as (Hop1 & Hsub1 & Hthis1 & Hsent1 & Hev1).
  assert (Happ1 : _app (this (guarded_world EVENT_TYPE.LOG_IN first second w)) = Some app)
    by (rewrite Hthis1; exact Happ).
  rewrite <- Hsent1 in Hfail.
  destruct (makeRequest_failed_heard n _ false false _ app c m Hop1
              (subscribed_heard _ Hsub1) Happ1 Hfail)
    as (w2 & earlier & Hrun & Hop2 & _ & _ & Hsent2 & Hev2 & Hshape & _).
  pose proof Hop2 as (_ & [lg Hlg] & _).
  unfold login.
  rewrite (guarded_run EVENT_TYPE.LOG_IN first second _ w Hop Hsub).
  erewrite bind_run by exact Hrun.
  unfold login_after_response. cbn [get_prop_optional truthy].
  erewrite bind_run by (apply (logger_call_run _ _ _ _ lg); exact Hlg).
  eexists. exists earlier.
  split; [reflexivity|]. js_reduce.
  split; [rewrite Hsent2, Hsent1; reflexivity|].
  split; [|exact Hshape].
  rewrite Hev2, Hev1, <- !app_assoc. reflexivity.
Qed.

(** X17.  [chat.get] reads [response.success] without a guard: on a
    client with an ["error"] listener, when the outbound call throws,
    the dispatcher resolves with [undefined] and [chat.get] rejects with
    the [TypeError] of that read, after the ["error"] notification of
    the dispatcher. *)
Theorem chat_get_transport_failure
    (n : nat) (channel sessionId : string) (w : World) (app : App) (c m : string) :
  operational w -> subscribed w -> _app (this w) = Some app ->
  axios_request (length (sent w)) (outbound app (chatGetParams channel sessionId))
  = Failed c m ->
  exists w' earlier,
    chat_get (S (S n)) channel sessionId w
    = (Throw (ErrorObject "TypeError"
                "Cannot read properties of undefined (reading 'success')"), w') /\
    sent w' = (sent w ++ [outbound app (chatGetParams channel sessionId)])%list /\
    emitted w' = (emitted w ++ guard_notifications w ++ earlier
                    ++ [unknown_error (chatGetParams channel sessionId) m])%list /\
    admission_prelude earlier.
Proof.
  intros Hop Hsub Happ Hfail.
  set (first := "Running get chat.").
  set (second := "Sending get chat request.").
  destruct (guarded_world_facts MORE_EVENT_TYPE.CHAT_GET first second w Hop Hsub)
    as (Hop1 & Hsub1 & Hthis1 & Hsent1 & Hev1).
  assert (Happ1 : _app (this (guarded_world MORE_EVENT_TYPE.CHAT_GET first second w))
                  = Some app) by (rewrite Hthis1; exact Happ).
  rewrite <- Hsent1 in Hfail.
  destruct (makeRequest_failed_heard n _ false false _ app c m Hop1
              (subscribed_heard _ Hsub1) Happ1 Hfail)
    as (w2 & earlier & Hrun & _ & _ & _ & Hsent2 & Hev2 & Hshape & _).
  unfold chat_get.
  rewrite (guarded_run MORE_EVENT_TYPE.CHAT_GET first second _ w Hop Hsub).
  erewrite bind_run by exact Hrun.
  exists w2, earlier.
  split; [reflexivity|].
  split; [rewrite Hsent2, Hsent1; reflexivity|].
  split; [|exact Hshape].
  rewrite Hev2, Hev1, <- !app_assoc. reflexivity.
Qed.

(** X18.  [fetchOnlineUsers] when the outbound call throws, on a client
    with an ["error"] listener: it still emits ["fetchOnline"], with an
    empty object, and then rejects with the [TypeError] of reading
    [response.users]. *)
Theorem fetchOnlineUsers_transport_failure
    (n : nat) (sessionId : string) (w : World) (app : App) (c m : string) :
  operational w -> subscribed w -> _app (this w) = Some app ->
  axios_request (length (sent w)) (outbound app (fetchOnlineUsersParams sessionId))
  = Failed c m ->
  exists w' earlier,
    fetchOnlineUsers (S (S n)) sessionId w
    = (Throw (ErrorObject "TypeError"
                "Cannot read properties of undefined (reading 'users')"), w') /\
    sent w' = (sent w ++ [outbound app (fetchOnlineUsersParams sessionId)])%list /\
    emitted w' = (emitted w ++ guard_notifications w ++ earlier
                    ++ [unknown_error (fetchOnlineUsersParams sessionId) m;
                        (MORE_EVENT_TYPE.FETCH_ONLINE, VObj ∅)])%list /\
    admission_prelude earlier.
Proof.
  intros Hop Hsub Happ Hfail.
  set (first := "Fetching all current online users.").
  set (second := "Sending fetch online users request.").
  destruct (guarded_world_facts MORE_EVENT_TYPE.FETCH_ONLINE first second w Hop Hsub)
    as (Hop1 & Hsub1 & Hthis1 & Hsent1 & Hev1).
  assert (Happ1 : _app (this (guarded_world MORE_EVENT_TYPE.FETCH_ONLINE first second w))
                  = Some app) by (rewrite Hthis1; exact Happ).
  rewrite <- Hsent1 in Hfail.
  destruct (makeRequest_failed_heard n _ false false _ app c m Hop1
              (subscribed_heard _ Hsub1) Happ1 Hfail)
    as (w2 & earlier & Hrun & Hop2 & _ & _ & Hsent2 & Hev2 & Hshape & _).
  pose proof Hop2 as (_ & [lg Hlg] & _).
  unfold fetchOnlineUsers.
  rewrite (guarded_run MORE_EVENT_TYPE.FETCH_ONLINE first second _ w Hop Hsub).
  erewrite bind_run by exact Hrun.
  erewrite bind_run by (apply emit_plain; discriminate).
  erewrite bind_run by (apply (logger_call_run _ _ _ _ lg); exact Hlg).
  eexists. exists earlier.
  split; [reflexivity|]. js_reduce.
  split; [rewrite Hsent2, Hsent1; reflexivity|].
  split; [|exact Hshape].
  rewrite Hev2, Hev1, <- !app_assoc. reflexivity.
Qed.

(** [_makeRequest] without [skipError] on a request answered with a
    payload that normalises to an object, on a client with an ["error"]
    listener. *)
Lemma makeRequest_object_result n params sr w axios app r o :
  operational w -> ~ unheard w ->
  _axiosInstance (this w) = Some axios -> _app (this w) = Some app ->
  axios_request (length (sent w)) (outbound app params) = Responded r ->
  (forall rt, normalize (param params "type") (status r) (data r) rt = Normal (VObj o)) ->
  exists rt w' earlier,
    _makeRequest (S (S n)) params false sr w
    = (Normal (VObj (timed_result (VObj o) rt)), w') /\
    operational w' /\
    _app (this w') = Some app /\
    _axiosInstance (this w') = Some axios /\
    _initializedClient (this w') = _initializedClient (this w) /\
    sent w' = (sent w ++ [outbound app params])%list /\
    emitted w' =
      (emitted w ++ earlier ++ answer_notifications axios params sr (VObj o) rt
       ++ (if is_false (get_prop_optional (VObj o) "success")
           then [(EVENT_TYPE.ERROR,
                  VObj (classify params (get_prop_optional (VObj o) "message")))]
           else []))%list /\
    admission_prelude earlier /\
    keeps_listeners w w'.
Proof.
  intros Hop Hn Hax Happ Hresp Hnorm.
  destruct (makeRequest_answered n params false sr w axios app r (VObj o)
              Hop Hax Happ Hresp Hnorm)
    as (wa & lg & earlier & st & rt & _ & Hinia & Happa & Haxa & Hopa & Hsent & Hev &
        Hshape & Hkla & Hcount & Hrun & Hex).
  cbv zeta in Hex. cbn [get_prop] in Hex.
  destruct (answered_world_facts axios app params sr (VObj o) rt wa)
    as (Hthis1 & Hticks1 & Hev1 & _ & Hsent1 & _ & Hkl1 & Hcount1).
  set (w1 := answered_world axios app params sr (VObj o) rt wa)
    in Hex, Hthis1, Hticks1, Hev1, Hsent1, Hkl1, Hcount1.
  assert (Hn1 : ~ unheard w1) by (unfold unheard in *; rewrite Hcount1, Hcount; exact Hn).
  assert (Hop1 : operational w1)
    by (apply (operational_later wa); [exact Hopa|exact Hthis1|rewrite Hticks1; lia]).
  exists rt.
  cbn [get_prop_optional].
  destruct (is_false (default VUndefined (o !! "success"))).
  - unfold bind at 1 in Hex. rewrite emit_error_listened in Hex by exact Hn1.
    unfold ret in Hex.
    eexists. exists earlier.
    split; [rewrite Hrun; unfold try_catch; rewrite Hex; reflexivity|].
    js_reduce.
    split; [exact Hop1|]. split; [rewrite Hthis1; exact Happa|].
    split; [rewrite Hthis1; exact Haxa|]. split; [rewrite Hthis1; exact Hinia|].
    split; [rewrite Hsent1, Hsent; reflexivity|].
    split; [rewrite Hev1, Hev, <- !app_assoc; reflexivity|].
    split; [exact Hshape|].
    apply (keeps_listeners_trans _ wa); [exact Hkla|].
    apply (keeps_listeners_trans _ w1); [exact Hkl1|apply keeps_listeners_deliver].
  - exists w1, earlier.
    split; [rewrite Hrun; unfold try_catch; rewrite Hex; reflexivity|].
    split; [exact Hop1|]. split; [rewrite Hthis1; exact Happa|].
    split; [rewrite Hthis1; exact Haxa|]. split; [rewrite Hthis1; exact Hinia|].
    split; [rewrite Hsent1, Hsent; reflexivity|].
    split; [rewrite Hev1, Hev, <- !app_assoc, app_nil_r; reflexivity|].
    split; [exact Hshape|].
    apply (keeps_listeners_trans _ wa); [exact Hkla|exact Hkl1].
Qed.

Lemma normalize_object ty st o rt :
  ~ (ty = VStr EVENT_TYPE.LOG /\ st = 200%Z) ->
  ~ (ty = VStr EVENT_TYPE.WEBHOOK /\ st = 200%Z) ->
  normalize ty st (VObj o) rt = Normal (VObj o).
Proof.
  intros Hlog Hweb. unfold normalize, webhook_rule, log_rule, sentinel_rule.
  rewrite (rule_guard_false _ _ _ Hlog), (rule_guard_false _ _ _ Hweb). reflexivity.
Qed.

(** [check] on a request answered with an object. *)
Lemma check_object_run n sessionId sr w axios app r o :
  operational w -> subscribed w ->
  _axiosInstance (this w) = Some axios -> _app (this w) = Some app ->
  axios_request (length (sent w)) (outbound app (checkParams sessionId)) = Responded r ->
  data r = VObj o ->
  exists rt w' earlier,
    check (S (S n)) sessionId sr w = (Normal (VObj (timed_result (VObj o) rt)), w') /\
    operational w' /\ subscribed w' /\
    sent w' = (sent w ++ [outbound app (checkParams sessionId)])%list /\
    emitted w' =
      (emitted w ++ guard_notifications w ++ earlier
       ++ answer_notifications axios (checkParams sessionId) sr (VObj o) rt
       ++ (if is_false (get_prop_optional (VObj o) "success")
           then [(EVENT_TYPE.ERROR,
                  VObj (classify (checkParams sessionId)
                          (get_prop_optional (VObj o) "message")))]
           else []))%list /\
    admission_prelude earlier.
Proof.
  intros Hop Hsub Hax Happ Hresp Hdata.
  set (first := "Checking if current session is validated.").
  set (second := "Sending check request.").
  destruct (guarded_world_facts EVENT_TYPE.CHECK first second w Hop Hsub)
    as (Hop1 & Hsub1 & Hthis1 & Hsent1 & Hev1).
  assert (Happ1 : _app (this (guarded_world EVENT_TYPE.CHECK first second w)) = Some app)
    by (rewrite Hthis1; exact Happ).
  assert (Hax1 : _axiosInstance (this (guarded_world EVENT_TYPE.CHECK first second w))
                 = Some axios) by (rewrite Hthis1; exact Hax).
  rewrite <- Hsent1 in Hresp.
  assert (Hnorm : forall rt, normalize (param (checkParams sessionId) "type")
                               (status r) (data r) rt = Normal (VObj o)).
  { intros rt. rewrite Hdata.
    apply normalize_object; intros [Hty _]; discriminate Hty. }
  destruct (makeRequest_object_result n (checkParams sessionId) sr _ axios app r o
              Hop1 (subscribed_heard _ Hsub1) Hax1 Happ1 Hresp Hnorm)
    as (rt & w2 & earlier & Hrun & Hop2 & _ & _ & _ & Hsent2 & Hev2 & Hshape & Hkl2).
  pose proof Hop2 as (_ & [lg Hlg] & _).
  unfold check. cbv zeta.
  rewrite (guarded_run EVENT_TYPE.CHECK first second _ w Hop Hsub).
  fold (checkParams sessionId).
  erewrite bind_run by exact Hrun.
  erewrite bind_run by (apply (logger_call_run _ _ _ _ lg); exact Hlg).
  exists rt. eexists. exists earlier.
  split; [reflexivity|]. js_reduce.
  split; [exact Hop2|].
  split; [exact (subscribed_keeps _ _ Hkl2 Hsub1)|].
  split; [rewrite Hsent2, Hsent1; reflexivity|].
  split; [|exact Hshape].
  rewrite Hev2, Hev1, <- !app_assoc. reflexivity.
Qed.

(** X19.  On a client with an ["error"] listener, [_checkUserLogin]
    answers with the truthiness of the [success] property of the session
    check's result.  A result that is not truthy, also one that merely
    lacks [success], makes it log and emit the ["error"] notification of
    kind [notLoggedIn] last; a truthy one emits nothing after the
    ["request"] notification of the check ([skipResponse] is set, so
    there is no ["response"]). *)
Theorem checkUserLogin_follows_success
    (n : nat) (sessionId : string) (w : World) (axios : AxiosInstance) (app : App)
    (r : AxiosResponse) (o : gmap string value) :
  operational w -> subscribed w ->
  _axiosInstance (this w) = Some axios -> _app (this w) = Some app ->
  axios_request (length (sent w)) (outbound app (checkParams sessionId)) = Responded r ->
  data r = VObj o ->
  exists rt w' earlier,
    _checkUserLogin (S (S n)) sessionId w
    = (Normal (truthy (get_prop_optional (VObj o) "success")), w') /\
    sent w' = (sent w ++ [outbound app (checkParams sessionId)])%list /\
    emitted w' =
      (emitted w ++ guard_notifications w ++ guard_notifications w ++ earlier
       ++ answer_notifications axios (checkParams sessionId) true (VObj o) rt
       ++ (if is_false (get_prop_optional (VObj o) "success")
           then [(EVENT_TYPE.ERROR,
                  VObj (classify (checkParams sessionId)
                          (get_prop_optional (VObj o) "message")))]
           else [])
       ++ (if truthy (get_prop_optional (VObj o) "success") then []
           else [not_logged_in_error]))%list /\
    admission_prelude earlier.
Proof.
  intros Hop Hsub Hax Happ Hresp Hdata.
  destruct (checked_world_facts w Hop Hsub) as (Hop1 & Hsub1 & Hthis1 & Hsent1 & Hev1).
  set (w1 := if _initializedClient (this w) then w else reported_uninitialized w)
    in Hop1, Hsub1, Hthis1, Hsent1, Hev1.
  assert (Happ1 : _app (this w1) = Some app) by (rewrite Hthis1; exact Happ).
  assert (Hax1 : _axiosInstance (this w1) = Some axios) by (rewrite Hthis1; exact Hax).
  rewrite <- Hsent1 in Hresp.
  destruct (check_object_run n sessionId true w1 axios app r o Hop1 Hsub1 Hax1 Happ1
              Hresp Hdata)
    as (rt & w2 & earlier & Hrun & Hop2 & Hsub2 & Hsent2 & Hev2 & Hshape).
  pose proof Hop2 as (_ & [lg Hlg] & _).
  unfold _checkUserLogin.
  erewrite bind_run
    by (apply checkInitialization_heard;
        [exact Hop|intros _; apply subscribed_heard; exact Hsub]).
  cbn [negb]. fold w1.
  erewrite bind_run by exact Hrun.
  unfold lift at 1. unfold bind at 1. cbn [get_prop].
  unfold timed_result at 1. cbn [spread].
  rewrite lookup_insert_ne by discriminate.
  cbn [get_prop_optional].
  exists rt.
  destruct (truthy (default VUndefined (o !! "success"))).
  - exists w2, earlier.
    split; [reflexivity|].
    split; [rewrite Hsent2, Hsent1; reflexivity|].
    split; [|exact Hshape].
    rewrite Hev2, Hev1, (guard_notifications_this w w1 Hthis1), <- !app_assoc.
    rewrite app_nil_r. reflexivity.
  - erewrite bind_run by (apply (logger_call_run _ _ _ _ lg); exact Hlg).
    erewrite bind_run by (apply emit_heard; exact Hsub2).
    unfold ret.
    eexists. exists earlier.
    split; [reflexivity|]. js_reduce.
    split; [rewrite Hsent2, Hsent1; reflexivity|].
    split; [|exact Hshape].
    rewrite Hev2, Hev1, (guard_notifications_this w w1 Hthis1), <- !app_assoc.
    reflexivity.
Qed.

(** [fetchOnlineUsers] up to the read of [response.users], on a
    request answered with an object. *)
Lemma fetchOnlineUsers_object_run n sessionId w axios app r o :
  operational w -> subscribed w ->
  _axiosInstance (this w) = Some axios -> _app (this w) = Some app ->
  axios_request (length (sent w)) (outbound app (fetchOnlineUsersParams sessionId))
  = Responded r ->
  data r = VObj o ->
  exists rt w' earlier,
    fetchOnlineUsers (S (S n)) sessionId w
    = (match users_count (VObj (timed_result (VObj o) rt)) with
       | Normal count => Normal (VObj (<["count" := count]> (timed_result (VObj o) rt)))
       | Throw e => Throw e
       | OutOfFuel => OutOfFuel
       end, w') /\
    sent w' = (sent w ++ [outbound app (fetchOnlineUsersParams sessionId)])%list /\
    emitted w' =
      (emitted w ++ guard_notifications w ++ earlier
       ++ answer_notifications axios (fetchOnlineUsersParams sessionId) false (VObj o) rt
       ++ (if is_false (get_prop_optional (VObj o) "success")
           then [(EVENT_TYPE.ERROR,
                  VObj (classify (fetchOnlineUsersParams sessionId)
                          (get_prop_optional (VObj o) "message")))]
           else [])
       ++ [(MORE_EVENT_TYPE.FETCH_ONLINE, VObj (timed_result (VObj o) rt))])%list /\
    admission_prelude earlier.
Proof.
  intros Hop Hsub Hax Happ Hresp Hdata.
  set (first := "Fetching all current online users.").
  set (second := "Sending fetch online users request.").
  destruct (guarded_world_facts MORE_EVENT_TYPE.FETCH_ONLINE first second w Hop Hsub)
    as (Hop1 & Hsub1 & Hthis1 & Hsent1 & Hev1).
  assert (Happ1 : _app (this (guarded_world MORE_EVENT_TYPE.FETCH_ONLINE first second w))
                  = Some app) by (rewrite Hthis1; exact Happ).
  assert (Hax1 : _axiosInstance (this (guarded_world MORE_EVENT_TYPE.FETCH_ONLINE
                                         first second w))
                 = Some axios) by (rewrite Hthis1; exact Hax).
  rewrite <- Hsent1 in Hresp.
  assert (Hnorm : forall rt, normalize (param (fetchOnlineUsersParams sessionId) "type")
                               (status r) (data r) rt = Normal (VObj o)).
  { intros rt. rewrite Hdata.
    apply normalize_object; intros [Hty _]; discriminate Hty. }
  destruct (makeRequest_object_result n (fetchOnlineUsersParams sessionId) false _
              axios app r o Hop1 (subscribed_heard _ Hsub1) Hax1 Happ1 Hresp Hnorm)
    as (rt & w2 & earlier & Hrun & Hop2 & _ & _ & _ & Hsent2 & Hev2 & Hshape & _).
  pose proof Hop2 as (_ & [lg Hlg] & _).
  unfold fetchOnlineUsers.
  rewrite (guarded_run MORE_EVENT_TYPE.FETCH_ONLINE first second _ w Hop Hsub).
  erewrite bind_run by exact Hrun.
  erewrite bind_run by (apply emit_plain; discriminate).
  erewrite bind_run by (apply (logger_call_run _ _ _ _ lg); exact Hlg).
  exists rt. eexists. exists earlier.
  split.
  { unfold lift, bind, ret. cbn [spread].
    destruct (users_count _) as [count|e|]; reflexivity. }
  js_reduce.
  split; [rewrite Hsent2, Hsent1; reflexivity|].
  split; [|exact Hshape].
  rewrite Hev2, Hev1, <- !app_assoc. reflexivity.
Qed.

(** X20.  On a client with an ["error"] listener, when the server's
    object carries the array [users], [fetchOnlineUsers] resolves with
    the result and [count], the length of the array; the
    ["fetchOnline"] notification, emitted last, carries the result
    without [count]. *)
Theorem fetchOnlineUsers_counts_users
    (n : nat) (sessionId : string) (w : World) (axios : AxiosInstance) (app : App)
    (r : AxiosResponse) (o : gmap string value) (users : list value) :
  operational w -> subscribed w ->
  _axiosInstance (this w) = Some axios -> _app (this w) = Some app ->
  axios_request (length (sent w)) (outbound app (fetchOnlineUsersParams sessionId))
  = Responded r ->
  data r = VObj o -> o !! "users" = Some (VArr users) ->
  exists rt w' evs,
    fetchOnlineUsers (S (S n)) sessionId w
    = (Normal (VObj (<["count" := VNum (inject_Z (Z.of_nat (length users)))]>
                       (timed_result (VObj o) rt))), w') /\
    sent w' = (sent w ++ [outbound app (fetchOnlineUsersParams sessionId)])%list /\
    emitted w' =
      (emitted w ++ evs
       ++ [(MORE_EVENT_TYPE.FETCH_ONLINE, VObj (timed_result (VObj o) rt))])%list.
Proof.
  intros Hop Hsub Hax Happ Hresp Hdata Husers.
  destruct (fetchOnlineUsers_object_run n sessionId w axios app r o Hop Hsub Hax Happ
              Hresp Hdata)
    as (rt & w' & earlier & Hrun & Hsent & Hev & _).
  exists rt, w'.
  exists (guard_notifications w ++ earlier
          ++ answer_notifications axios (fetchOnlineUsersParams sessionId) false (VObj o) rt
          ++ (if is_false (get_prop_optional (VObj o) "success")
              then [(EVENT_TYPE.ERROR,
                     VObj (classify (fetchOnlineUsersParams sessionId)
                             (get_prop_optional (VObj o) "message")))]
              else []))%list.
  split.
  { rewrite Hrun. unfold users_count. cbn [get_prop]. unfold timed_result at 1.
    cbn [spread]. rewrite lookup_insert_ne by discriminate.
    rewrite Husers. reflexivity. }
  split; [exact Hsent|].
  rewrite Hev, <- !app_assoc. reflexivity.
Qed.

(** X21.  On a client with an ["error"] listener, when the server's
    object has no [users] property, as its refusals have not,
    [fetchOnlineUsers] rejects with the [TypeError] of reading [length]
    of [undefined], after having emitted ["fetchOnline"] with the
    result. *)
Theorem fetchOnlineUsers_without_users
    (n : nat) (sessionId : string) (w : World) (axios : AxiosInstance) (app : App)
    (r : AxiosResponse) (o : gmap string value) :
  operational w -> subscribed w ->
  _axiosInstance (this w) = Some axios -> _app (this w) = Some app ->
  axios_request (length (sent w)) (outbound app (fetchOnlineUsersParams sessionId))
  = Responded r ->
  data r = VObj o -> o !! "users" = None ->
  exists rt w' evs,
    fetchOnlineUsers (S (S n)) sessionId w
    = (Throw (ErrorObject "TypeError"
                "Cannot read properties of undefined (reading 'length')"), w') /\
    sent w' = (sent w ++ [outbound app (fetchOnlineUsersParams sessionId)])%list /\
    emitted w' =
      (emitted w ++ evs
       ++ [(MORE_EVENT_TYPE.FETCH_ONLINE, VObj (timed_result (VObj o) rt))])%list.
Proof.
  intros Hop Hsub Hax Happ Hresp Hdata Husers.
  destruct (fetchOnlineUsers_object_run n sessionId w axios app r o Hop Hsub Hax Happ
              Hresp Hdata)
    as (rt & w' & earlier & Hrun & Hsent & Hev & _).
  exists rt, w'.
  exists (guard_notifications w ++ earlier
          ++ answer_notifications axios (fetchOnlineUsersParams sessionId) false (VObj o) rt
          ++ (if is_false (get_prop_optional (VObj o) "success")
              then [(EVENT_TYPE.ERROR,
                     VObj (classify (fetchOnlineUsersParams sessionId)
                             (get_prop_optional (VObj o) "message")))]
              else []))%list.
  split.
  { rewrite Hrun. unfold users_count. cbn [get_prop]. unfold timed_result at 1.
    cbn [spread]. rewrite lookup_insert_ne by discriminate.
    rewrite Husers. reflexivity. }
  split; [exact Hsent|].
  rewrite Hev, <- !app_assoc. reflexivity.
Qed.

(** X22.  On a client with an ["error"] listener, a ["log"] request
    answered with HTTP 200 is a success whatever the payload is, also a
    refusal or the sentinel string: [log] resolves with
    [{success: true, message: "Log successfully sent.", time}], no
    ["error"] notification is emitted for the request, and the ["log"]
    notification, emitted last, adds [msg] and [pcUser] to the result. *)
Theorem log_reports_success_on_200
    (n : nat) (msg pcUser sessionId : string) (w : World) (axios : AxiosInstance)
    (app : App) (r : AxiosResponse) :
  operational w -> subscribed w ->
  _axiosInstance (this w) = Some axios -> _app (this w) = Some app ->
  axios_request (length (sent w)) (outbound app (logParams msg pcUser sessionId))
  = Responded r ->
  status r = 200%Z ->
  exists rt w' earlier,
    log (S (S n)) msg pcUser sessionId w
    = (Normal (VObj (timed_result log_result rt)), w') /\
    sent w' = (sent w ++ [outbound app (logParams msg pcUser sessionId)])%list /\
    emitted w' =
      (emitted w ++ guard_notifications w ++ earlier
       ++ answer_notifications axios (logParams msg pcUser sessionId) false log_result rt
       ++ [(EVENT_TYPE.LOG,
            VObj (timed_result log_result rt
                  ∪ <["pcUser" := VStr pcUser]> (<["msg" := VStr msg]> ∅)))])%list /\
    admission_prelude earlier.
Proof.
  intros Hop Hsub Hax Happ Hresp Hstatus.
  set (first := "Running log.").
  set (second := "Sending log request.").
  destruct (guarded_world_facts EVENT_TYPE.LOG first second w Hop Hsub)
    as (Hop1 & Hsub1 & Hthis1 & Hsent1 & Hev1).
  assert (Happ1 : _app (this (guarded_world EVENT_TYPE.LOG first second w)) = Some app)
    by (rewrite Hthis1; exact Happ).
  assert (Hax1 : _axiosInstance (this (guarded_world EVENT_TYPE.LOG first second w))
                 = Some axios) by (rewrite Hthis1; exact Hax).
  rewrite <- Hsent1 in Hresp.
  assert (Hnorm : forall rt, normalize (param (logParams msg pcUser sessionId) "type")
                               (status r) (data r) rt = Normal log_result).
  { intros rt. rewrite Hstatus. reflexivity. }
  destruct (makeRequest_object_result n (logParams msg pcUser sessionId) false _
              axios app r _ Hop1 (subscribed_heard _ Hsub1) Hax1 Happ1 Hresp Hnorm)
    as (rt & w2 & earlier & Hrun & Hop2 & _ & _ & _ & Hsent2 & Hev2 & Hshape & _).
  pose proof Hop2 as (_ & [lg Hlg] & _).
  change (is_false (get_prop_optional log_result "success")) with false in Hev2.
  rewrite app_nil_r in Hev2.
  unfold log.
  rewrite (guarded_run EVENT_TYPE.LOG first second _ w Hop Hsub).
  erewrite bind_run by exact Hrun.
  erewrite bind_run by (apply emit_plain; discriminate).
  erewrite bind_run by (apply (logger_call_run _ _ _ _ lg); exact Hlg).
  exists rt. eexists. exists earlier.
  split; [reflexivity|]. js_reduce.
  split; [rewrite Hsent2, Hsent1; reflexivity|].
  split; [|exact Hshape].
  rewrite Hev2, Hev1, <- !app_assoc. reflexivity.
Qed.


End ClientFacts.

(* ================================================================== *)
(** * Concrete runs of the client                                       *)
(* ================================================================== *)

Lemma clock_ms_monotone : forall i j, (i <= j)%nat -> (clock_ms i <= clock_ms j)%Z.
Proof. intros i j H. unfold clock_ms. lia. Qed.


Lemma demo_world_operational tokens0 initialized :
  operational clock_ms (demo_world tokens0 initialized).
Proof.
  unfold operational. simpl.
  repeat split; try (eexists; reflexivity).
  eexists. split; [reflexivity|]. split; [split; reflexivity|].
  simpl. unfold clock_ms. lia.
Qed.

(** [demo_listening] is [demo_world] after a call of [on("error", ...)]. *)
Example demo_listening_by_on tokens0 initialized :
  on "error" (demo_world tokens0 initialized)
  = (Normal tt, demo_listening tokens0 initialized).
Proof. reflexivity. Qed.

Lemma demo_listening_operational tokens0 initialized :
  operational clock_ms (demo_listening tokens0 initialized).
Proof. exact (demo_world_operational tokens0 initialized). Qed.

Lemma demo_listening_subscribed tokens0 initialized :
  subscribed (demo_listening tokens0 initialized).
Proof. unfold subscribed. vm_compute. lia. Qed.

Lemma demo_listening_heard tokens0 initialized :
  ~ unheard (demo_listening tokens0 initialized).
Proof. intros H. vm_compute in H. discriminate H. Qed.

Lemma demo_world_unheard tokens0 initialized :
  unheard (demo_world tokens0 initialized).
Proof. reflexivity. Qed.

(** A ["log"] request of a client that the service does not know: the
    sentinel is answered, and the caller is told that the log was sent. *)
Example log_of_unknown_client :
  fst (log show_number show_value clock_ms
         (fun _ _ => Responded {| status := 200; data := VStr "KeyAuth_Invalid" |})
         2 "started" "pc" "sid" (demo_world 10 true))
  = Normal (VObj (<["time" := VNum 2]> (spread log_result))).
Proof. vm_compute. reflexivity. Qed.

Lemma failing_result_classification_witness :
  exists w' earlier,
    _makeRequest show_number show_value clock_ms axios_session_not_found 2 demo_login
      false false (demo_listening 10 false)
    = (Normal (VObj (timed_result session_not_found_payload 2)), w') /\
    emitted w' =
      (earlier ++
       [(EVENT_TYPE.ERROR,
         VObj (error_payload (VStr "login") (VStr "Session not found. Use latest code.")
                 ERROR_CODE.K_NSID))])%list.
Proof.
  destruct (failing_result_classification show_number show_value clock_ms
              axios_session_not_found clock_ms_monotone
              0 demo_login false (demo_listening 10 false)
              {| baseURL := BASE_URL |} demo_app
              {| status := 200; data := session_not_found_payload |}
              (demo_listening_operational 10 false) eq_refl eq_refl eq_refl)
    as (rt & d & message & c & w' & evs & Hd & Hmsg & Hrun & Hev & Hheard & _).
  - intros rt. exists session_not_found_payload. split; reflexivity.
  - destruct (Hheard (demo_listening_heard 10 false)) as (-> & earlier & -> & _).
    injection Hd as <-. injection Hmsg as <-.
    exists w', (emitted (demo_listening 10 false) ++ earlier)%list.
    split.
    + rewrite Hrun. f_equal.
      assert (H : fst (_makeRequest show_number show_value clock_ms axios_session_not_found
                         2 demo_login false false (demo_listening 10 false))
                  = Normal (VObj (timed_result session_not_found_payload 2)))
        by (vm_compute; reflexivity).
      rewrite Hrun in H. exact H.
    + rewrite Hev, <- app_assoc. reflexivity.
Defined.

(** C2 as stated fails on the client that the constructor builds.  The
    server answers a login without session id with "Session not found.";
    the notification of kind [noSessionID] finds no ["error"] listener,
    [emit] throws, the [catch] block hands [emit] a notification of kind
    [unknown], which throws in turn: the request rejects with an
    unhandled error whose context has the kind [unknown], and no
    ["error"] notification has been published. *)
Lemma failing_result_unheard :
  Api_new clock_ms demo_app None = Normal (demo_world 10 false) /\
  param demo_login "sessionid" = VStr "" /\
  exists context w',
    _makeRequest show_number show_value clock_ms axios_session_not_found 2 demo_login
      false false (demo_world 10 false)
    = (Throw (Unhandled (VObj context)), w') /\
    context !! "errorCode" = Some (VStr ERROR_CODE.K_U) /\
    no_error_among (emitted w').
Proof.
  split; [reflexivity|]. split; [vm_compute; reflexivity|].
  eexists. eexists. split; [vm_compute; reflexivity|].
  split; [vm_compute; reflexivity|].
  repeat constructor; discriminate.
Qed.

Lemma transport_failure_contained_witness :
  exists w' earlier,
    _makeRequest show_number show_value clock_ms axios_down 2 demo_login false false
      (demo_listening 10 false)
    = (Normal VUndefined, w') /\
    emitted w' =
      (earlier ++ [(EVENT_TYPE.ERROR,
         VObj (error_payload (param demo_login "type") (VStr "Network Error")
                 ERROR_CODE.K_U))])%list.
Proof.
  destruct (proj2 (transport_failure_contained show_number show_value clock_ms axios_down
                     clock_ms_monotone demo_login false false (demo_listening 10 false)
                     (demo_listening_operational 10 false))
              0%nat demo_app "AxiosError" "Network Error" eq_refl eq_refl)
    as (w' & earlier & _ & _ & Hheard & _).
  destruct (Hheard (demo_listening_heard 10 false)) as [Hrun Hev].
  exists w', (emitted (demo_listening 10 false) ++ earlier)%list.
  split; [exact Hrun|]. rewrite Hev, <- app_assoc. reflexivity.
Defined.

(** C3 as stated fails.  On a client with an ["error"] listener the
    caller of a request whose transport throws receives [undefined],
    whose [success] cannot be read.  On a client as the constructor
    builds it, without an ["error"] listener, the [catch] block's [emit]
    throws and the throw reaches the caller. *)
Lemma transport_failure_reaches_caller :
  fst (_makeRequest show_number show_value clock_ms axios_down 2 demo_login false false
         (demo_listening 10 false))
  = Normal VUndefined /\
  get_prop VUndefined "success" = Throw (type_error_read "undefined" "success") /\
  Api_new clock_ms demo_app None = Normal (demo_world 10 false) /\
  fst (_makeRequest show_number show_value clock_ms axios_down 2 demo_login false false
         (demo_world 10 false))
  = Throw (Unhandled (VObj (error_payload (VStr "login") (VStr "Network Error")
                              ERROR_CODE.K_U))).
Proof.
  split; [vm_compute; reflexivity|]. split; [reflexivity|].
  split; [reflexivity|]. vm_compute. reflexivity.
Qed.

Lemma rate_limited_dispatch_retries_witness :
  exists c w2,
    _makeRequest show_number show_value clock_ms axios_session_not_found 2 demo_login
      false false (demo_listening 0 false)
    = (c, w2) /\
    c <> OutOfFuel /\
    length (sent w2) = 1%nat /\ (length (slept w2) <= 1)%nat.
Proof.
  destruct (rate_limited_dispatch_retries show_number show_value clock_ms
              axios_session_not_found
              clock_ms_monotone 0 demo_login false false (demo_listening 0 false)
              (demo_limiter 0) demo_app (demo_listening_operational 0 false)
              eq_refl eq_refl)
    as (w1 & rl1 & time & c & w2 & H).
  - vm_compute. reflexivity.
  - destruct H as (_ & _ & _ & _ & _ & _ & _ & _ & Hrun & Hc & Hsent & Hslept).
    exists c, w2. split; [exact Hrun|].
    split; [destruct Hc as [(v & -> & _)|(p & -> & _)]; discriminate|].
    split; [rewrite Hsent; reflexivity|exact Hslept].
Defined.

(** C5 as stated fails: the notification of the rate-limit branch of a
    ["login"] request has ["ratelimit"] for its [type], and none of its
    properties holds the operation type. *)
Lemma rate_limit_notification_lacks_operation_type :
  param demo_login "type" = VStr "login" /\
  exists w1 payload,
    attempt_request show_number show_value clock_ms axios_session_not_found demo_login
      false false (demo_world 0 false)
    = (Normal Retry, w1) /\
    emitted w1 = [(EVENT_TYPE.RESPONSE, VObj payload)] /\
    payload !! "type" = Some (VStr "ratelimit") /\
    forall k, payload !! k <> Some (VStr "login").
Proof.
  split; [vm_compute; reflexivity|].
  destruct (attempt_request_rejected show_number show_value clock_ms
              axios_session_not_found
              clock_ms_monotone demo_login false false (demo_world 0 false)
              (demo_limiter 0) (demo_world_operational 0 false) eq_refl)
    as (w1 & rl1 & time & H).
  - vm_compute. reflexivity.
  - cbv zeta in H. destruct H as (Hrun & _ & _ & _ & _ & _ & _ & _ & Hev & _).
    eexists w1, _. split; [exact Hrun|]. split; [exact Hev|].
    unfold rate_limit_payload. split.
    + rewrite !lookup_insert_ne by discriminate. apply lookup_insert_eq.
    + intros k Hk.
      repeat (apply lookup_insert_Some in Hk;
              destruct Hk as [[_ Hk]|[_ Hk]]; [discriminate Hk|]).
      rewrite lookup_empty in Hk. discriminate Hk.
Qed.



Lemma init_already_initialized_witness :
  exists time w',
    init show_number show_value clock_ms axios_down 0 (demo_world 10 true)
    = (Normal (already_initialized time), w') /\
    (time <= 0)%Z /\ sent w' = [] /\ emitted w' = [].
Proof.
  destruct (init_already_initialized show_number show_value clock_ms axios_down
              clock_ms_monotone
              0 (demo_world 10 true)
              {| logger_name := "Keyauth API"; logger_active := None; logger_level := None |}
              eq_refl eq_refl)
    as (time & w' & Hrun & Htime & _ & Hev & Hsent & _).
  exists time, w'. repeat split; assumption.
Defined.

(* ================================================================== *)
(** * Further theorems: the rate limiter                                *)
(* ================================================================== *)

Section LimiterBehaviour.
#[local] Open Scope Q_scope.

Lemma Qfloor_unit_interval x : 0 <= x -> x < 1 -> Qfloor x = 0%Z.
Proof.
  intros Hlo Hhi.
  assert (H0 : (0 <= Qfloor x)%Z).
  { change 0%Z with (Qfloor (inject_Z 0)). apply Qfloor_resp_le. exact Hlo. }
  assert (H1 : (Qfloor x < 1)%Z).
  { rewrite Zlt_Qlt. pose proof (Qfloor_le x). change (inject_Z 1) with 1. lra. }
  lia.
Qed.

(** Less than one interval of elapsed time adds no token. *)
Lemma tokensToAdd_zero (rate : Q) (last now : Z) :
  0 < rate -> (last <= now)%Z -> inject_Z (now - last) < rate ->
  Qfloor (inject_Z (now - last) / rate) = 0%Z.
Proof.
  intros Hrate Hle Hlt. apply Qfloor_unit_interval.
  - apply Qle_shift_div_l; [assumption|]. rewrite Qmult_0_l.
    change 0 with (inject_Z 0). rewrite <- Zle_Qle. lia.
  - apply Qlt_shift_div_r; [assumption|]. lra.
Qed.

Lemma Qpositive_of_nat (x : Q) (n : nat) :
  x == inject_Z (Z.of_nat n) -> Qpositive x = match n with O => false | S _ => true end.
Proof.
  intros Hx. destruct n as [|n].
  - apply Qpositive_false. change (inject_Z (Z.of_nat 0)) with 0 in Hx. lra.
  - apply Qpositive_true.
    assert (H : inject_Z 0 < inject_Z (Z.of_nat (S n))) by (rewrite <- Zlt_Qlt; lia).
    change (inject_Z 0) with 0 in H. lra.
Qed.

(** X1.  A caller that polls [hasHitRateLimit] more often than once per
    refill interval is admitted exactly as many times as the bucket
    holds tokens at the start, and never again: each poll moves
    [lastRefillTime] to the present, so the time elapsed between polls
    is never credited. *)
Theorem fast_polling_admits_capacity (n : nat) (nows : list Z) (rl : RateLimiter) :
  0 < refillRate rl ->
  tokens rl == inject_Z (Z.of_nat n) ->
  tokens rl <= maxTokens rl ->
  polled_within (refillRate rl) (lastRefillTime rl) nows ->
  admissions nows rl
  = (repeat true (Nat.min n (length nows)) ++ repeat false (length nows - n))%list.
Proof.
  revert n rl. induction nows as [|now rest IH]; intros n rl Hrate Htok Hcap Hpoll.
  - rewrite Nat.min_0_r. reflexivity.
  - destruct Hpoll as (Hle & Hlt & Hrest).
    assert (Hre : tokens (refill now rl) == inject_Z (Z.of_nat n)).
    { unfold refill. cbn [tokens].
      rewrite (tokensToAdd_zero _ _ _ Hrate Hle Hlt).
      change (inject_Z 0) with 0.
      destruct (Q.min_spec (tokens rl + 0) (maxTokens rl)) as [[_ E]|[Hge E]]; lra. }
    cbn [admissions]. unfold hasHitRateLimit.
    rewrite (Qpositive_of_nat _ _ Hre).
    destruct n as [|n]; cbn [fst snd negb length].
    + rewrite (IH 0%nat (refill now rl)); try assumption.
      * rewrite Nat.min_0_l. cbn [Nat.min repeat app Nat.sub].
        rewrite Nat.sub_0_r. reflexivity.
      * cbn [tokens refill]. apply Q.le_min_r.
    + rewrite (IH n (take_token (refill now rl))); try assumption.
      * reflexivity.
      * cbn [tokens take_token]. rewrite Hre.
        rewrite Nat2Z.inj_succ. unfold Z.succ. rewrite inject_Z_plus.
        change (inject_Z 1) with 1. lra.
      * cbn [tokens take_token maxTokens].
        pose proof (Q.le_min_r (tokens rl + inject_Z (Qfloor (inject_Z (now - lastRefillTime rl) / refillRate rl))) (maxTokens rl)).
        cbn [tokens refill maxTokens]. lra.
Qed.

(** X2.  Polling never gains tokens: with whole [tokens] and a whole
    refill interval, a refill at an intermediate time followed by a
    refill at [t2] leaves at most the tokens that a single refill at
    [t2] gives, because each refill rounds the elapsed intervals down
    and restarts the measurement. *)
Theorem intermediate_refill_never_gains (rl : RateLimiter) (t1 t2 : Z) :
  0 < refillRate rl -> whole (refillRate rl) -> whole (tokens rl) ->
  (lastRefillTime rl <= t1)%Z -> (t1 <= t2)%Z ->
  tokens (refill t2 (refill t1 rl)) <= tokens (refill t2 rl).
Proof.
  intros Hrate _ _ H1 H2.
  unfold refill. cbn [tokens lastRefillTime refillRate maxTokens].
  set (r := refillRate rl) in *. set (l := lastRefillTime rl) in *.
  set (a := Qfloor (inject_Z (t1 - l) / r)).
  set (b := Qfloor (inject_Z (t2 - t1) / r)).
  set (c := Qfloor (inject_Z (t2 - l) / r)).
  assert (Habc : (a + b <= c)%Z).
  { rewrite <- (Qfloor_Z (a + b)). apply Qfloor_resp_le.
    rewrite inject_Z_plus.
    pose proof (Qfloor_le (inject_Z (t1 - l) / r)) as Ha.
    pose proof (Qfloor_le (inject_Z (t2 - t1) / r)) as Hb.
    fold a in Ha. fold b in Hb.
    assert (E : inject_Z (t2 - l) / r == inject_Z (t1 - l) / r + inject_Z (t2 - t1) / r).
    { replace (t2 - l)%Z with ((t1 - l) + (t2 - t1))%Z by lia.
      rewrite inject_Z_plus. field. lra. }
    rewrite E. lra. }
  rewrite Zle_Qle, inject_Z_plus in Habc.
  apply Q.min_glb.
  - pose proof (Q.le_min_l (tokens rl + inject_Z a) (maxTokens rl)).
    destruct (Q.min_spec (Qmin (tokens rl + inject_Z a) (maxTokens rl) + inject_Z b)
                (maxTokens rl)) as [[_ E]|[Hge E]]; rewrite E; lra.
  - apply Q.le_min_r.
Qed.


(** X4.  The constructor throws when [refillRate] or [maxTokens] is a
    number that is not above zero; when both are numbers above zero it
    returns a limiter with a full bucket, which admits the first call
    whenever that call comes. *)
Theorem RateLimiter_new_guard (maxT rate : Q) (now : Z) :
  (rate <= 0 \/ maxT <= 0 ->
   RateLimiter_new maxT rate now
   = Throw (ErrorObject "Error" "Refill rate and max tokens must be greater than zero.")) /\
  (0 < rate -> 0 < maxT ->
   exists rl,
     RateLimiter_new maxT rate now = Normal rl /\
     tokens rl = maxT /\ maxTokens rl = maxT /\
     forall later, (now <= later)%Z -> fst (hasHitRateLimit later rl) = false).
Proof.
  split.
  - intros H. unfold RateLimiter_new.
    destruct H as [H|H]; apply Qle_bool_iff in H; rewrite H; [reflexivity|].
    now rewrite orb_true_r.
  - intros Hrate Hmax.
    exists {| tokens := maxT; lastRefillTime := now; refillRate := rate;
              maxTokens := maxT |}.
    split.
    { unfold RateLimiter_new.
      apply Qpositive_true in Hmax. apply Qpositive_true in Hrate.
      unfold Qpositive in Hmax, Hrate.
      destruct (Qle_bool rate 0); [discriminate|].
      destruct (Qle_bool maxT 0); [discriminate|]. reflexivity. }
    split; [reflexivity|]. split; [reflexivity|].
    intros later Hlater.
    apply full_bucket_admits; [split; assumption|reflexivity|exact Hlater].
Qed.

End LimiterBehaviour.

Section WaitTextFacts.
#[local] Open Scope Q_scope.

Variable numToString : Q -> string.

#[local] Abbreviation plural := (plural numToString).
#[local] Abbreviation getTimeUntilCanMakeRequestString :=
  (getTimeUntilCanMakeRequestString numToString).

(** Rounding down after a division by a whole number. *)
Lemma Qfloor_div_whole (x : Q) (a : Z) :
  (0 < a)%Z -> Qfloor (x / inject_Z a) = (Qfloor x / a)%Z.
Proof.
  intros Ha. destruct x as [p q]. destruct a as [|a|a]; try lia.
  unfold Qdiv, Qinv, Qmult, Qfloor, inject_Z. cbn [Qnum Qden].
  rewrite Z.mul_1_r, Pos2Z.inj_mul, Z.div_div by lia. reflexivity.
Qed.

Lemma Qfloor_bounds (x : Q) (a b : Z) :
  inject_Z a <= x -> x < inject_Z b -> (a <= Qfloor x < b)%Z.
Proof.
  intros Hlo Hhi. split.
  - rewrite <- (Qfloor_Z a). apply Qfloor_resp_le. exact Hlo.
  - rewrite Zlt_Qlt. pose proof (Qfloor_le x). lra.
Qed.

(** X5.  The wait estimate of [getTimeUntilCanMakeRequestString] names
    the largest of hour, minute and second that fits at least once in
    the wait, with the count rounded down; it is ["Now"] for no wait
    and a count of milliseconds under a second.  The call leaves the
    limiter as [refill] does. *)
Theorem wait_text_units (now now2 : Z) (rl : RateLimiter) :
  let t := fst (getTimeUntilCanMakeRequest now now2 rl) in
  let text_ := fst (getTimeUntilCanMakeRequestString now now2 rl) in
  snd (getTimeUntilCanMakeRequestString now now2 rl) = refill now rl /\
  (t == 0 -> text_ = "Now") /\
  (~ t == 0 -> t < 1000 -> text_ = numToString t ++ " milliseconds") /\
  (1000 <= t -> t < 60000 ->
     text_ = plural (Qfloor t / 1000) "second" /\ (1 <= Qfloor t / 1000 < 60)%Z) /\
  (60000 <= t -> t < 3600000 ->
     text_ = plural (Qfloor t / 60000) "minute" /\ (1 <= Qfloor t / 60000 < 60)%Z) /\
  (3600000 <= t ->
     text_ = plural (Qfloor t / 3600000) "hour" /\ (1 <= Qfloor t / 3600000)%Z).
Proof.
  cbv zeta. unfold getTimeUntilCanMakeRequestString.
  pose proof (getTimeUntilCanMakeRequest_fields now now2 rl) as Hsnd.
  destruct (getTimeUntilCanMakeRequest now now2 rl) as [t rl1].
  cbn [fst snd] in *. split; [exact Hsnd|].
  change (t / 1000) with (t / inject_Z 1000).
  rewrite (Qfloor_div_whole t 1000) by lia.
  change (inject_Z (Qfloor t / 1000) / 60)
    with (inject_Z (Qfloor t / 1000) / inject_Z 60).
  rewrite (Qfloor_div_whole _ 60), Qfloor_Z by lia.
  change (inject_Z (Qfloor t / 1000 / 60) / 60)
    with (inject_Z (Qfloor t / 1000 / 60) / inject_Z 60).
  rewrite (Qfloor_div_whole _ 60), Qfloor_Z by lia.
  rewrite !Z.div_div by lia. change (1000 * 60 * 60)%Z with 3600000%Z.
  change (1000 * 60)%Z with 60000%Z.
  destruct (Qeq_bool t 0) eqn:E0.
  { apply Qeq_bool_iff in E0.
    split; [reflexivity|]. split; [intros H; contradiction|].
    repeat split; intros; exfalso; lra. }
  assert (Hne : ~ t == 0) by (intros H; apply Qeq_bool_iff in H; congruence).
  split; [intros H; contradiction|].
  destruct (Qle_bool 1000 t) eqn:E1; cbn [negb].
  2:{ assert (Hlt : t < 1000).
      { apply Qnot_le_lt. intros H. apply Qle_bool_iff in H. congruence. }
      split; [reflexivity|]. repeat split; intros; exfalso; lra. }
  apply Qle_bool_iff in E1.
  split; [intros _ H; exfalso; lra|].
  destruct (Z.ltb_spec (Qfloor t / 1000) 60) as [Hs|Hs].
  { assert (Ht : t < 60000).
    { apply Qnot_le_lt. intros H.
      destruct (Qfloor_bounds t 60000 (Qfloor t + 1)) as [Hb _];
        [exact H|apply Qlt_floor|].
      assert (60 <= Qfloor t / 1000)%Z by (apply Z.div_le_lower_bound; lia). lia. }
    split; [intros _ _; split; [reflexivity|]|split; [intros; exfalso; lra|intros; exfalso; lra]].
    destruct (Qfloor_bounds t 1000 (Qfloor t + 1)) as [Hb _]; [exact E1|apply Qlt_floor|].
    split; [apply Z.div_le_lower_bound; lia|exact Hs]. }
  assert (Ht : 60000 <= t).
  { apply Qnot_lt_le. intros H.
    destruct (Qfloor_bounds t 0 60000) as [_ Hb]; [change (inject_Z 0) with 0; lra|exact H|].
    assert (Qfloor t / 1000 < 60)%Z by (apply Z.div_lt_upper_bound; lia). lia. }
  split; [intros _ H; exfalso; lra|].
  destruct (Qfloor_bounds t 60000 (Qfloor t + 1)) as [Hb _]; [exact Ht|apply Qlt_floor|].
  destruct (Z.ltb_spec (Qfloor t / 60000) 60) as [Hm|Hm].
  - assert (Ht2 : t < 3600000).
    { apply Qnot_le_lt. intros H.
      destruct (Qfloor_bounds t 3600000 (Qfloor t + 1)) as [Hb2 _];
        [exact H|apply Qlt_floor|].
      assert (60 <= Qfloor t / 60000)%Z by (apply Z.div_le_lower_bound; lia). lia. }
    split; [intros _ _; split; [reflexivity|]|intros; exfalso; lra].
    split; [apply Z.div_le_lower_bound; lia|exact Hm].
  - assert (Ht2 : 3600000 <= t).
    { apply Qnot_lt_le. intros H.
      destruct (Qfloor_bounds t 0 3600000) as [_ Hb2]; [change (inject_Z 0) with 0; lra|exact H|].
      assert (Qfloor t / 60000 < 60)%Z by (apply Z.div_lt_upper_bound; lia). lia. }
    split; [intros _ H; exfalso; lra|].
    intros _. split; [reflexivity|].
    destruct (Qfloor_bounds t 3600000 (Qfloor t + 1)) as [Hb2 _];
      [exact Ht2|apply Qlt_floor|].
    apply Z.div_le_lower_bound; lia.
Qed.

End WaitTextFacts.

(* ================================================================== *)
(** * Further theorems: time and download helpers                       *)
(* ================================================================== *)

Section DateFacts.

Variable numToString : Q -> string.
Variable Number_ : string -> option Q.

#[local] Abbreviation new_Date := (new_Date Number_).
#[local] Abbreviation timeSince := (timeSince numToString Number_).
#[local] Abbreviation timeUntilExpiry := (timeUntilExpiry numToString Number_).
#[local] Abbreviation plural := (plural numToString).

(** The nested roundings of the two helpers are roundings of the
    difference itself. *)
Lemma nested_units (td : Z) :
  (td / 1000 / 60 = td / 60000)%Z /\
  (td / 1000 / 60 / 60 = td / 3600000)%Z /\
  (td / 1000 / 60 / 60 / 24 = td / 86400000)%Z.
Proof.
  repeat split; repeat (rewrite Z.div_div by lia); reflexivity.
Qed.

Lemma unit_positive (td unit_ : Z) :
  (0 < unit_)%Z -> ((0 <? td / unit_)%Z = true <-> (unit_ <= td)%Z).
Proof.
  intros Hu. rewrite Z.ltb_lt. split; intros H.
  - destruct (Z_lt_le_dec td unit_) as [Hlt|Hge]; [|exact Hge].
    destruct (Z_lt_le_dec td 0) as [Hneg|Hpos].
    + assert (td / unit_ < 0)%Z by (apply Z.div_lt_upper_bound; lia). lia.
    + rewrite Z.div_small in H by lia. lia.
  - apply Z.div_str_pos. lia.
Qed.

(** X6.  [timeSince] names the largest of day, hour and minute that
    fits at least once in the elapsed time, with the count rounded down;
    it returns the number 0 for anything under a minute, for a date in
    the future and for an invalid date. *)
Theorem timeSince_units (currentDate : Z) (d : date_input) :
  (new_Date d = None -> timeSince currentDate d = VNum 0) /\
  (forall joinDate, new_Date d = Some joinDate ->
     let elapsed := (currentDate - joinDate)%Z in
     ((elapsed < 60000)%Z -> timeSince currentDate d = VNum 0) /\
     ((60000 <= elapsed < 3600000)%Z ->
        timeSince currentDate d = VStr (plural (elapsed / 60000) "minute" ++ " ago")
        /\ (1 <= elapsed / 60000 < 60)%Z) /\
     ((3600000 <= elapsed < 86400000)%Z ->
        timeSince currentDate d = VStr (plural (elapsed / 3600000) "hour" ++ " ago")
        /\ (1 <= elapsed / 3600000 < 24)%Z) /\
     ((86400000 <= elapsed)%Z ->
        timeSince currentDate d = VStr (plural (elapsed / 86400000) "day" ++ " ago")
        /\ (1 <= elapsed / 86400000)%Z)).
Proof.
  split.
  - intros H. unfold timeSince. rewrite H. reflexivity.
  - intros joinDate H elapsed. unfold timeSince. rewrite H. fold elapsed.
    destruct (nested_units elapsed) as (-> & -> & ->).
    pose proof (unit_positive elapsed 60000 ltac:(lia)) as Hm.
    pose proof (unit_positive elapsed 3600000 ltac:(lia)) as Hh.
    pose proof (unit_positive elapsed 86400000 ltac:(lia)) as Hd.
    destruct (0 <? elapsed / 86400000)%Z eqn:Ed;
      destruct (0 <? elapsed / 3600000)%Z eqn:Eh;
      destruct (0 <? elapsed / 60000)%Z eqn:Em;
      repeat split; intros; try reflexivity;
      try (exfalso;
           repeat match goal with
                  | H : true = true <-> _ |- _ => destruct H as [H _]; specialize (H eq_refl)
                  | H : false = true <-> _ |- _ =>
                      let H' := fresh in
                      assert (H' : ~ _) by (intros Hc; apply H in Hc; discriminate Hc);
                      clear H
                  end; lia);
      try (apply Z.div_le_lower_bound; lia);
      try (apply Z.div_lt_upper_bound; lia).
Qed.

(** X7.  [timeUntilExpiry] names the largest of day, hour and minute
    that fits at least once in the remaining time and falls back on
    seconds; for an expiry that has passed it reports a count of seconds
    that is negative or zero, never hours or days. *)
Theorem timeUntilExpiry_units (currentDate : Z) (d : date_input) :
  (new_Date d = None -> timeUntilExpiry currentDate d = "NaN seconds left") /\
  (forall expiryDate, new_Date d = Some expiryDate ->
     let remaining := (expiryDate - currentDate)%Z in
     ((remaining < 60000)%Z ->
        timeUntilExpiry currentDate d = plural (remaining / 1000) "second" ++ " left"
        /\ (remaining / 1000 < 60)%Z
        /\ ((remaining <= 0)%Z -> (remaining / 1000 <= 0)%Z)) /\
     ((60000 <= remaining < 3600000)%Z ->
        timeUntilExpiry currentDate d = plural (remaining / 60000) "minute" ++ " left") /\
     ((3600000 <= remaining < 86400000)%Z ->
        timeUntilExpiry currentDate d = plural (remaining / 3600000) "hour" ++ " left") /\
     ((86400000 <= remaining)%Z ->
        timeUntilExpiry currentDate d = plural (remaining / 86400000) "day" ++ " left")).
Proof.
  split.
  - intros H. unfold timeUntilExpiry. rewrite H. reflexivity.
  - intros expiryDate H remaining. unfold timeUntilExpiry. rewrite H. fold remaining.
    destruct (nested_units remaining) as (-> & -> & ->).
    pose proof (unit_positive remaining 60000 ltac:(lia)) as Hm.
    pose proof (unit_positive remaining 3600000 ltac:(lia)) as Hh.
    pose proof (unit_positive remaining 86400000 ltac:(lia)) as Hd.
    destruct (0 <? remaining / 86400000)%Z eqn:Ed;
      destruct (0 <? remaining / 3600000)%Z eqn:Eh;
      destruct (0 <? remaining / 60000)%Z eqn:Em;
      repeat split; intros; try reflexivity;
      try (exfalso;
           repeat match goal with
                  | H : true = true <-> _ |- _ => destruct H as [H _]; specialize (H eq_refl)
                  | H : false = true <-> _ |- _ =>
                      let H' := fresh in
                      assert (H' : ~ _) by (intros Hc; apply H in Hc; discriminate Hc);
                      clear H
                  end; lia);
      try (apply Z.div_lt_upper_bound; lia);
      try (apply Z.div_le_upper_bound; lia).
Qed.

End DateFacts.

Section DownloadFacts.

Lemma byte_range_enumerated (P : Z -> bool) :
  forallb (fun n => P (Z.of_nat n)) (seq 0 256) = true ->
  forall b, (0 <= b < 256)%Z -> P b = true.
Proof.
  intros H b Hb. rewrite forallb_forall in H.
  rewrite <- (Z2Nat.id b) by lia. apply H. apply in_seq. lia.
Qed.

Lemma hex_pair_decodes b :
  (0 <= b < 256)%Z -> to_uint8 (parseInt16 (hex_pair b)) = b.
Proof.
  intros Hb. apply Z.eqb_eq.
  apply (byte_range_enumerated (fun b => (to_uint8 (parseInt16 (hex_pair b)) =? b)%Z));
    [vm_compute; reflexivity|exact Hb].
Qed.

Lemma hex_pair_matched b rest :
  (0 <= b < 256)%Z ->
  match_pairs (hex_pair b ++ rest) = hex_pair b :: match_pairs rest.
Proof.
  intros Hb.
  assert (H : (is_line_terminator (hex_char (b / 16))
               || is_line_terminator (hex_char (b mod 16))) = false).
  { apply negb_true_iff.
    apply (byte_range_enumerated
             (fun b => negb (is_line_terminator (hex_char (b / 16))
                             || is_line_terminator (hex_char (b mod 16)))));
      [vm_compute; reflexivity|exact Hb]. }
  apply orb_false_iff in H as [H1 H2].
  unfold hex_pair.
  set (c1 := hex_char (b / 16)) in *. set (c2 := hex_char (b mod 16)) in *.
  change (String c1 (String c2 EmptyString) ++ rest) with (String c1 (String c2 rest)).
  change (match_pairs (String c1 (String c2 rest)))
    with (if is_line_terminator c1 then match_pairs (String c2 rest)
          else if is_line_terminator c2 then String c1 EmptyString :: match_pairs rest
               else String c1 (String c2 EmptyString) :: match_pairs rest).
  rewrite H1, H2. reflexivity.
Qed.

(** X8.  The byte array that [downloadToString] and [downloadToFile]
    build recovers the bytes of a download: when [contents] writes every
    byte as two hexadecimal digits, the array holds exactly those
    bytes. *)
Theorem download_bytes_hex_encode (bytes : list Z) :
  bytes <> [] ->
  Forall (fun b => (0 <= b < 256)%Z) bytes ->
  download_bytes (hex_encode bytes) = Normal bytes.
Proof.
  intros Hne Hall.
  assert (Hpairs : match_pairs (hex_encode bytes) = map hex_pair bytes).
  { clear Hne. induction Hall as [|b rest Hb _ IH]; [reflexivity|].
    cbn [hex_encode map]. rewrite hex_pair_matched by exact Hb. now rewrite IH. }
  unfold download_bytes. rewrite Hpairs.
  destruct bytes as [|b rest]; [contradiction|].
  cbn [map]. f_equal.
  change (map (fun pair => to_uint8 (parseInt16 pair)) (map hex_pair (b :: rest)) = b :: rest).
  clear Hne Hpairs. induction Hall as [|x l Hx _ IH]; [reflexivity|].
  cbn [map]. rewrite hex_pair_decodes by exact Hx. now rewrite IH.
Qed.

Lemma match_pairs_length : forall (n : nat) (s : string),
  (String.length s <= n)%nat -> no_line_terminator s ->
  length (match_pairs s) = ((String.length s + 1) / 2)%nat.
Proof.
  induction n as [|n IH]; intros s Hn Hs.
  - destruct s; [reflexivity|simpl in Hn; lia].
  - destruct s as [|c [|c2 rest]]; [reflexivity|..].
    + destruct Hs as [Hc _]. cbn [match_pairs]. rewrite Hc. reflexivity.
    + destruct Hs as (Hc & Hc2 & Hrest). cbn [match_pairs]. rewrite Hc, Hc2.
      cbn [length String.length].
      rewrite (IH rest) by (simpl in Hn; try lia; assumption).
      replace (S (S (String.length rest)) + 1)%nat
        with (String.length rest + 1 + 1 * 2)%nat by lia.
      rewrite Nat.div_add by lia. lia.
Qed.

(** X9.  The byte array fails only for want of a match: contents that
    are empty or made of line breaks throw a [TypeError] (reading [map]
    of [null]); any other contents free of line breaks, hexadecimal or
    not, give one byte in 0..255 for every two characters, the last
    character alone when their number is odd. *)
Theorem download_bytes_total (contents : string) :
  (only_line_terminators contents ->
   download_bytes contents = Throw (type_error_read "null" "map")) /\
  (contents <> EmptyString -> no_line_terminator contents ->
   exists bytes,
     download_bytes contents = Normal bytes /\
     length bytes = ((String.length contents + 1) / 2)%nat /\
     Forall (fun b => (0 <= b < 256)%Z) bytes).
Proof.
  split.
  - intros H. unfold download_bytes.
    replace (match_pairs contents) with (@nil string); [reflexivity|].
    induction contents as [|c rest IH]; [reflexivity|].
    destruct H as [Hc Hrest]. cbn [match_pairs]. rewrite Hc. apply IH. exact Hrest.
  - intros Hne Hs.
    pose proof (match_pairs_length (String.length contents) contents (le_n _) Hs) as Hlen.
    unfold download_bytes.
    destruct (match_pairs contents) as [|p ps] eqn:E.
    + destruct contents as [|c rest]; [contradiction|].
      cbn [length String.length] in Hlen.
      assert ((S (String.length rest) + 1) / 2 >= 1)%nat.
      { replace (S (String.length rest) + 1)%nat
          with (String.length rest + 1 * 2)%nat by lia.
        rewrite Nat.div_add by lia. lia. }
      lia.
    + eexists. split; [reflexivity|]. split.
      * rewrite length_map. exact Hlen.
      * generalize (p :: ps). intros l. induction l as [|x l IH]; constructor; [|exact IH].
        unfold to_uint8. destruct (parseInt16 x); [apply Z.mod_pos_bound|]; lia.
Qed.

End DownloadFacts.

(* ================================================================== *)
(** * The further theorems at concrete inputs                            *)
(* ================================================================== *)

Lemma fast_polling_admits_capacity_witness :
  admissions polling_times bucket_2_1000 = [true; true; false; false].
Proof.
  apply (fast_polling_admits_capacity 2 polling_times bucket_2_1000).
  - reflexivity.
  - reflexivity.
  - discriminate.
  - cbn. repeat split; lia.
Defined.

Lemma intermediate_refill_never_gains_witness :
  (tokens (refill 1800 (refill 900 bucket_empty_1000))
   <= tokens (refill 1800 bucket_empty_1000))%Q.
Proof.
  apply (intermediate_refill_never_gains bucket_empty_1000 900 1800).
  - reflexivity.
  - reflexivity.
  - reflexivity.
  - cbn. lia.
  - lia.
Defined.


Lemma RateLimiter_new_guard_witness :
  exists rl, RateLimiter_new 10 5000 0 = Normal rl /\
             tokens rl = 10%Q /\ maxTokens rl = 10%Q /\
             forall later, (0 <= later)%Z -> fst (hasHitRateLimit later rl) = false.
Proof.
  apply (proj2 (RateLimiter_new_guard 10 5000 0)); reflexivity.
Defined.

Lemma wait_text_units_witness :
  fst (getTimeUntilCanMakeRequestString show_number 100 1100 (demo_limiter 0))
  = "4 seconds".
Proof.
  destruct (wait_text_units show_number 100 1100 (demo_limiter 0))
    as (_ & _ & _ & Hs & _).
  destruct Hs as [Hs _].
  - vm_compute. discriminate.
  - vm_compute. reflexivity.
  - rewrite Hs. vm_compute. reflexivity.
Defined.

Lemma timeSince_units_witness :
  timeSince show_number no_number 7200000 (DateObject (Some 0%Z)) = VStr "2 hours ago".
Proof.
  destruct (proj2 (timeSince_units show_number no_number 7200000 (DateObject (Some 0%Z)))
              0%Z eq_refl) as (_ & _ & Hh & _).
  destruct Hh as [Hh _].
  - cbv zeta. lia.
  - rewrite Hh. vm_compute. reflexivity.
Defined.

Lemma timeUntilExpiry_units_witness :
  timeUntilExpiry show_number no_number 1000 (DateObject (Some 0%Z)) = "-1 seconds left".
Proof.
  destruct (proj2 (timeUntilExpiry_units show_number no_number 1000 (DateObject (Some 0%Z)))
              0%Z eq_refl) as (Hs & _).
  destruct Hs as (Hs & _).
  - cbv zeta. lia.
  - rewrite Hs. vm_compute. reflexivity.
Defined.

Lemma download_bytes_hex_encode_witness :
  download_bytes (hex_encode [72; 105; 255]%Z) = Normal [72; 105; 255]%Z.
Proof.
  apply (download_bytes_hex_encode [72; 105; 255]%Z).
  - discriminate.
  - repeat constructor; lia.
Defined.

Lemma download_bytes_total_witness :
  exists bytes,
    download_bytes "4z9" = Normal bytes /\ length bytes = 2%nat /\
    Forall (fun b => (0 <= b < 256)%Z) bytes.
Proof.
  apply (proj2 (download_bytes_total "4z9")).
  - discriminate.
  - cbn. repeat split.
Defined.

Lemma answered_request_result_witness :
  exists rt w' earlier,
    _makeRequest show_number show_value clock_ms axios_online_users 2 (fetchOnlineUsersParams "sid")
      false false (demo_world 10 true)
    = (Normal (VObj (timed_result (VObj online_users) rt)), w') /\
    emitted w' =
      (earlier ++ answer_notifications demo_axios (fetchOnlineUsersParams "sid") false
                    (VObj online_users) rt)%list /\
    no_error_among
      (earlier ++ answer_notifications demo_axios (fetchOnlineUsersParams "sid") false
                    (VObj online_users) rt) /\
    sent w' = [outbound demo_app (fetchOnlineUsersParams "sid")].
Proof.
  apply (answered_request_result show_number show_value clock_ms axios_online_users
           clock_ms_monotone 0 (fetchOnlineUsersParams "sid") false false
           (demo_world 10 true) demo_axios demo_app
           {| status := 200; data := VObj online_users |} (VObj online_users)
           (VBool true) (demo_world_operational 10 true) eq_refl eq_refl eq_refl).
  - intros rt. vm_compute. reflexivity.
  - vm_compute. reflexivity.
  - reflexivity.
Defined.

Lemma skipError_drops_failing_result_witness :
  exists rt w' earlier,
    _makeRequest show_number show_value clock_ms axios_session_not_found 2 demo_login
      true false (demo_world 10 true)
    = (Normal VUndefined, w') /\
    emitted w' =
      (earlier ++ answer_notifications demo_axios demo_login false
                    (VObj session_not_found) rt)%list /\
    no_error_among
      (earlier ++ answer_notifications demo_axios demo_login false
                    (VObj session_not_found) rt) /\
    sent w' = [outbound demo_app demo_login].
Proof.
  apply (skipError_drops_failing_result show_number show_value clock_ms axios_session_not_found
           clock_ms_monotone 0 demo_login false
           (demo_world 10 true) demo_axios demo_app
           {| status := 200; data := VObj session_not_found |} (VObj session_not_found)
           (demo_world_operational 10 true) eq_refl eq_refl eq_refl).
  - intros rt. vm_compute. reflexivity.
  - vm_compute. reflexivity.
Defined.

Lemma null_payload_reported_unknown_witness :
  exists rt w' earlier,
    _makeRequest show_number show_value clock_ms axios_null_payload 2 demo_login
      false false (demo_listening 10 true)
    = (Normal VUndefined, w') /\
    emitted w' =
      (earlier ++ answer_notifications demo_axios demo_login false VNull rt
       ++ [unknown_error demo_login
             "Cannot read properties of null (reading 'success')"])%list /\
    sent w' = [outbound demo_app demo_login].
Proof.
  destruct (null_payload_reported_unknown show_number show_value clock_ms
              axios_null_payload
              clock_ms_monotone 0 demo_login false false
              (demo_listening 10 true) demo_axios demo_app 200
              (demo_listening_operational 10 true) eq_refl eq_refl eq_refl)
    as (rt & w' & earlier & Hsent & Hheard & _).
  - intros [H _]. vm_compute in H. discriminate H.
  - intros [H _]. vm_compute in H. discriminate H.
  - destruct (Hheard (demo_listening_heard 10 true)) as [Hrun Hev].
    exists rt, w', earlier. split; [exact Hrun|]. split; [exact Hev|exact Hsent].
Defined.

Lemma logout_rejects_on_transport_failure_witness :
  exists w' earlier,
    logout show_number show_value clock_ms axios_down 2 "sid" (demo_listening 10 true)
    = (Throw (Rejected VUndefined), w') /\
    sent w' = [outbound demo_app (checkParams "sid")] /\
    emitted w' = (earlier ++ [unknown_error (checkParams "sid") "Network Error";
                              not_logged_in_error])%list /\
    admission_prelude earlier.
Proof.
  apply (logout_rejects_on_transport_failure show_number show_value clock_ms axios_down
           clock_ms_monotone 0 "sid" (demo_listening 10 true) demo_app
           "AxiosError" "Network Error"
           (demo_listening_operational 10 true) (demo_listening_subscribed 10 true) eq_refl eq_refl).
Defined.

Lemma metaData_get_rejects_on_transport_failure_witness :
  exists w' earlier,
    metaData_get show_number show_value clock_ms axios_down parse_identity 2 "sid" true true
      (demo_listening 10 true)
    = (Throw (Rejected VUndefined), w') /\
    sent w' = [outbound demo_app (checkParams "sid")] /\
    emitted w' = (earlier ++ [unknown_error (checkParams "sid") "Network Error";
                              not_logged_in_error])%list /\
    admission_prelude earlier.
Proof.
  apply (metaData_get_rejects_on_transport_failure show_number show_value clock_ms axios_down
           parse_identity clock_ms_monotone 0 "sid" true true (demo_listening 10 true)
           demo_app "AxiosError" "Network Error"
           (demo_listening_operational 10 true) (demo_listening_subscribed 10 true) eq_refl eq_refl).
Defined.

Lemma init_marks_initialized_witness :
  exists response w1 evs time w2,
    init show_number show_value clock_ms axios_down 2 (demo_listening 10 false)
    = (Normal (VObj (spread response)), w1) /\
    _initializedClient (this w1) = true /\
    sent w1 = [outbound demo_app (initParams demo_app)] /\
    emitted w1 = (evs ++ [(EVENT_TYPE.INIT, VObj (spread response))])%list /\
    init show_number show_value clock_ms axios_down 5 w1 = (Normal (already_initialized time), w2) /\
    sent w2 = sent w1 /\ emitted w2 = emitted w1.
Proof.
  apply (init_marks_initialized show_number show_value clock_ms axios_down clock_ms_monotone
           0 5 (demo_listening 10 false) demo_app
           (demo_listening_operational 10 false) (demo_listening_subscribed 10 false) eq_refl eq_refl).
Defined.

Lemma login_transport_failure_witness :
  exists w' earlier,
    login show_number show_value clock_ms axios_down parse_identity parse_identity 2
      "user" "secret" VUndefined "" (demo_listening 10 false)
    = (Normal (VObj ∅), w') /\
    sent w' = [outbound demo_app demo_login] /\
    emitted w' = (guard_notifications (demo_listening 10 false) ++ earlier
                    ++ [unknown_error demo_login "Network Error"])%list /\
    admission_prelude earlier.
Proof.
  apply (login_transport_failure show_number show_value clock_ms axios_down parse_identity
           parse_identity clock_ms_monotone 0 "user" "secret" VUndefined ""
           (demo_listening 10 false) demo_app "AxiosError" "Network Error"
           (demo_listening_operational 10 false) (demo_listening_subscribed 10 false) eq_refl eq_refl).
Defined.

Lemma chat_get_transport_failure_witness :
  exists w' earlier,
    chat_get show_number show_value clock_ms axios_down 2 "general" "sid" (demo_listening 10 true)
    = (Throw (ErrorObject "TypeError"
                "Cannot read properties of undefined (reading 'success')"), w') /\
    sent w' = [outbound demo_app (chatGetParams "general" "sid")] /\
    emitted w' = (earlier ++ [unknown_error (chatGetParams "general" "sid")
                                "Network Error"])%list /\
    admission_prelude earlier.
Proof.
  apply (chat_get_transport_failure show_number show_value clock_ms axios_down
           clock_ms_monotone 0 "general" "sid" (demo_listening 10 true) demo_app
           "AxiosError" "Network Error"
           (demo_listening_operational 10 true) (demo_listening_subscribed 10 true) eq_refl eq_refl).
Defined.

Lemma fetchOnlineUsers_transport_failure_witness :
  exists w' earlier,
    fetchOnlineUsers show_number show_value clock_ms axios_down 2 "sid" (demo_listening 10 true)
    = (Throw (ErrorObject "TypeError"
                "Cannot read properties of undefined (reading 'users')"), w') /\
    sent w' = [outbound demo_app (fetchOnlineUsersParams "sid")] /\
    emitted w' = (earlier ++ [unknown_error (fetchOnlineUsersParams "sid") "Network Error";
                              (MORE_EVENT_TYPE.FETCH_ONLINE, VObj ∅)])%list /\
    admission_prelude earlier.
Proof.
  apply (fetchOnlineUsers_transport_failure show_number show_value clock_ms axios_down
           clock_ms_monotone 0 "sid" (demo_listening 10 true) demo_app
           "AxiosError" "Network Error"
           (demo_listening_operational 10 true) (demo_listening_subscribed 10 true) eq_refl eq_refl).
Defined.

Lemma checkUserLogin_follows_success_witness :
  exists w',
    _checkUserLogin show_number show_value clock_ms axios_session_not_found 2 "sid"
      (demo_listening 10 true)
    = (Normal false, w') /\
    sent w' = [outbound demo_app (checkParams "sid")] /\
    last (emitted w') = Some not_logged_in_error.
Proof.
  destruct (checkUserLogin_follows_success show_number show_value clock_ms axios_session_not_found
              clock_ms_monotone 0 "sid" (demo_listening 10 true) demo_axios demo_app
              {| status := 200; data := VObj session_not_found |} session_not_found
              (demo_listening_operational 10 true) (demo_listening_subscribed 10 true) eq_refl eq_refl eq_refl eq_refl)
    as (rt & w' & earlier & Hrun & Hsent & Hev & _).
  exists w'. split; [exact Hrun|]. split; [exact Hsent|].
  rewrite Hev. change (truthy (get_prop_optional (VObj session_not_found) "success"))
    with false.
  rewrite !app_assoc. apply last_snoc.
Defined.

Lemma fetchOnlineUsers_counts_users_witness :
  exists rt w' evs,
    fetchOnlineUsers show_number show_value clock_ms axios_online_users 2 "sid" (demo_listening 10 true)
    = (Normal (VObj (<["count" := VNum 2]> (timed_result (VObj online_users) rt))), w') /\
    sent w' = [outbound demo_app (fetchOnlineUsersParams "sid")] /\
    emitted w' =
      (evs ++ [(MORE_EVENT_TYPE.FETCH_ONLINE,
                VObj (timed_result (VObj online_users) rt))])%list.
Proof.
  apply (fetchOnlineUsers_counts_users show_number show_value clock_ms axios_online_users
           clock_ms_monotone 0 "sid" (demo_listening 10 true) demo_axios demo_app
           {| status := 200; data := VObj online_users |} online_users
           [VObj (<["credential" := VStr "ann"]> ∅);
            VObj (<["credential" := VStr "bob"]> ∅)]
           (demo_listening_operational 10 true) (demo_listening_subscribed 10 true) eq_refl eq_refl eq_refl eq_refl).
  vm_compute. reflexivity.
Defined.

Lemma fetchOnlineUsers_without_users_witness :
  exists rt w' evs,
    fetchOnlineUsers show_number show_value clock_ms axios_session_not_found 2 "sid"
      (demo_listening 10 true)
    = (Throw (ErrorObject "TypeError"
                "Cannot read properties of undefined (reading 'length')"), w') /\
    sent w' = [outbound demo_app (fetchOnlineUsersParams "sid")] /\
    emitted w' =
      (evs ++ [(MORE_EVENT_TYPE.FETCH_ONLINE,
                VObj (timed_result (VObj session_not_found) rt))])%list.
Proof.
  apply (fetchOnlineUsers_without_users show_number show_value clock_ms axios_session_not_found
           clock_ms_monotone 0 "sid" (demo_listening 10 true) demo_axios demo_app
           {| status := 200; data := VObj session_not_found |} session_not_found
           (demo_listening_operational 10 true) (demo_listening_subscribed 10 true) eq_refl eq_refl eq_refl eq_refl).
  vm_compute. reflexivity.
Defined.

Lemma log_reports_success_on_200_witness :
  exists rt w' earlier,
    log show_number show_value clock_ms axios_session_not_found 2 "started" "pc" "sid"
      (demo_listening 10 true)
    = (Normal (VObj (timed_result log_result rt)), w') /\
    sent w' = [outbound demo_app (logParams "started" "pc" "sid")] /\
    emitted w' =
      (earlier
       ++ answer_notifications demo_axios (logParams "started" "pc" "sid") false
            log_result rt
       ++ [(EVENT_TYPE.LOG,
            VObj (timed_result log_result rt
                  ∪ <["pcUser" := VStr "pc"]> (<["msg" := VStr "started"]> ∅)))])%list /\
    admission_prelude earlier.
Proof.
  apply (log_reports_success_on_200 show_number show_value clock_ms axios_session_not_found
           clock_ms_monotone 0 "started" "pc" "sid" (demo_listening 10 true)
           demo_axios demo_app
           {| status := 200; data := VObj session_not_found |}
           (demo_listening_operational 10 true) (demo_listening_subscribed 10 true) eq_refl eq_refl eq_refl eq_refl).
Defined.

